(** * ZPLC host toolchain: assembler, module encoder and HIL transport client

    A shallow embedding of [tools/zplc_asm.py] (ISA table, two-pass
    assembler, module encoder, disassembler) and of the serial client in
    [tools/hil/zplc_tester.py] and [tools/hil/language_tester.py],
    followed by the properties established about them.

    Conventions of the embedding.
    - Python [int] is [Z]; bit operations are [Z.land] and friends.
    - Python [str] is [string]; a character is one of the 256 code points
      of [ascii].  The predicates below ([isspace], the line boundaries of
      [splitlines], the blanks accepted by [int]) list what CPython does
      on those code points; [upper] and [lower] act on the ASCII letters,
      which is all the assembler ever compares against.
    - [bytes], [bytearray] and lists of byte values are [list Z].
    - The decimal text of an integer is [Py.str_of_int]; where the
      integer is a caller's ([peek]'s length, the expected value of
      [expect_memory]) the conversion is [Py.str], which CPython refuses
      beyond 4300 digits.  Byte values and lengths of lists stay below
      that limit.
    - A Python exception is a value of an error type carried by [result].
    - The dictionaries [labels], [OPCODE_BY_NAME] and [opcode_names] are
      [gmap]s; [OPERAND_SIZE], whose keys are all the members of the
      enumeration, is a function on the enumeration.
    - Text written to the console or the log is formatted by the source
      for display only; its content is not modelled, apart from the
      lines of the disassembler. *)

From Stdlib Require Import ZArith List String Ascii Lia Bool.
From Stdlib Require DecimalString HexadecimalString DecimalPos HexadecimalPos HexadecimalN.
From stdpp Require Import base gmap strings list.

Open Scope string_scope.
Open Scope list_scope.
Open Scope Z_scope.

(** ** Results of fallible code *)

Inductive result (E A : Type) : Type :=
| Ok (a : A)
| Err (e : E).
Arguments Ok {E A} a.
Arguments Err {E A} e.

Definition rbind {E A B} (k : A -> result E B) (r : result E A) : result E B :=
  match r with
  | Ok a => k a
  | Err e => Err e
  end.

#[global] Instance result_mbind {E} : MBind (result E) := @rbind E.

Definition is_ok {E A} (r : result E A) : bool :=
  match r with Ok _ => true | Err _ => false end.

(** ** The fragment of Python's [str] and [int] the tools rely on *)

Module Py.

Definition code (c : ascii) : Z := Z.of_N (N_of_ascii c).

Definition chr (n : Z) : ascii := ascii_of_N (Z.to_N n).

Definition in_range (lo hi : Z) (c : ascii) : bool :=
  (lo <=? code c) && (code c <=? hi).

(** [str.isspace] on one character (also the class [\s] of [re]). *)
Definition isspace (c : ascii) : bool :=
  in_range 9 13 c || in_range 28 32 c || (code c =? 133) || (code c =? 160).

(** The blanks [int] skips around a literal: the C-locale ones, and the
    two Latin-1 spaces that CPython first rewrites to a blank. *)
Definition int_space (c : ascii) : bool :=
  in_range 9 13 c || (code c =? 32) || (code c =? 133) || (code c =? 160).

Definition is_lower (c : ascii) : bool := in_range 97 122 c.
Definition is_upper (c : ascii) : bool := in_range 65 90 c.
Definition is_digit (c : ascii) : bool := in_range 48 57 c.

Definition upper_char (c : ascii) : ascii :=
  if is_lower c then chr (code c - 32) else c.
Definition lower_char (c : ascii) : ascii :=
  if is_upper c then chr (code c + 32) else c.

Fixpoint map_string (f : ascii -> ascii) (s : string) : string :=
  match s with
  | EmptyString => EmptyString
  | String c s' => String (f c) (map_string f s')
  end.

Definition upper : string -> string := map_string upper_char.
Definition lower : string -> string := map_string lower_char.

Fixpoint lstrip (s : string) : string :=
  match s with
  | String c s' => if isspace c then lstrip s' else s
  | EmptyString => EmptyString
  end.

Fixpoint rstrip (s : string) : string :=
  match s with
  | EmptyString => EmptyString
  | String c s' =>
      match rstrip s' with
      | EmptyString => if isspace c then EmptyString else String c EmptyString
      | r => String c r
      end
  end.

(** [s.strip()] *)
Definition strip (s : string) : string := rstrip (lstrip s).

(** [s.startswith(p)] *)
Definition startswith (p s : string) : bool := String.prefix p s.

(** [s.endswith(p)] for a one-character [p]. *)
Fixpoint ends_with_char (c : ascii) (s : string) : bool :=
  match s with
  | EmptyString => false
  | String d EmptyString => if Ascii.eqb c d then true else false
  | String _ s' => ends_with_char c s'
  end.

(** [needle in hay] *)
Fixpoint contains (needle hay : string) : bool :=
  String.prefix needle hay ||
  match hay with
  | EmptyString => false
  | String _ hay' => contains needle hay'
  end.

(** [c in s] for a character. *)
Fixpoint has_char (c : ascii) (s : string) : bool :=
  match s with
  | EmptyString => false
  | String d s' => Ascii.eqb c d || has_char c s'
  end.

(** [s[:s.index(c)]] when [c] occurs in [s] (all of [s] otherwise). *)
Fixpoint before_char (c : ascii) (s : string) : string :=
  match s with
  | EmptyString => EmptyString
  | String d s' => if Ascii.eqb c d then EmptyString else String d (before_char c s')
  end.

(** [s.split(sep)] for a one-character separator: never empty. *)
Fixpoint split_char (sep : ascii) (s : string) : list string :=
  match s with
  | EmptyString => [EmptyString]
  | String d s' =>
      if Ascii.eqb sep d then EmptyString :: split_char sep s'
      else match split_char sep s' with
           | [] => [String d EmptyString]
           | p :: ps => String d p :: ps
           end
  end.

(** The first blank-free run of [s] and what follows it. *)
Fixpoint span_word (s : string) : string * string :=
  match s with
  | EmptyString => (EmptyString, EmptyString)
  | String c s' =>
      if isspace c then (EmptyString, s)
      else let '(w, r) := span_word s' in (String c w, r)
  end.

(** [s.split(None, 1)]: the first word, then the rest without its
    leading blanks when something other than blanks is left. *)
Definition split_ws1 (s : string) : list string :=
  match lstrip s with
  | EmptyString => []
  | s1 =>
      let '(w, r) := span_word s1 in
      match lstrip r with
      | EmptyString => [w]
      | r' => [w; r']
      end
  end.

(** Line boundaries of [str.splitlines]. *)
Definition is_linebreak (c : ascii) : bool :=
  in_range 10 13 c || in_range 28 30 c || (code c =? 133).

(** [splitlines] with the line under construction in [cur] and whether
    anything was read since the last boundary in [pending]. *)
Fixpoint splitlines_aux (s : string) (cur : string) (pending : bool) : list string :=
  match s with
  | EmptyString => if pending then [cur] else []
  | String c s' =>
      if is_linebreak c then
        match Ascii.eqb c (chr 13), s' with
        | true, String d s'' =>
            if Ascii.eqb d (chr 10) then cur :: splitlines_aux s'' EmptyString false
            else cur :: splitlines_aux s' EmptyString false
        | _, _ => cur :: splitlines_aux s' EmptyString false
        end
      else splitlines_aux s' (cur +:+ String c EmptyString) true
  end.

Definition splitlines (s : string) : list string :=
  splitlines_aux s EmptyString false.

(** [str(n)] and [hex(n)] for an integer. *)
Definition str_of_int (n : Z) : string :=
  DecimalString.NilZero.string_of_int (Z.to_int n).

(** [str(n)] and an f-string's [{n}] as CPython computes them: a decimal
    conversion of more than 4300 digits is refused with [ValueError]
    ([None]) unless the interpreter's limit is lifted. *)
Definition str (n : Z) : option string :=
  if Z.abs n <? 10 ^ 4300 then Some (str_of_int n) else None.

Definition hex_digits (n : Z) : string :=
  HexadecimalString.NilZero.string_of_uint (N.to_hex_uint (Z.to_N n)).

Definition hex (n : Z) : string :=
  if n <? 0 then "-0x" +:+ hex_digits (- n) else "0x" +:+ hex_digits n.

(** *** [int(s, base)] *)

(** Value of a character as a digit in bases up to 36. *)
Definition digit_value (c : ascii) : option Z :=
  if is_digit c then Some (code c - 48)
  else if is_lower c then Some (code c - 87)
  else if is_upper c then Some (code c - 55)
  else None.

Definition is_base_digit (base : Z) (c : ascii) : bool :=
  match digit_value c with
  | Some d => d <? base
  | None => false
  end.

Definition underscore : ascii := "_"%char.

(** Digits with single underscores between them, up to the first
    character that is neither; [prev_us] tells that the last character
    read was an underscore, [n] counts digits.  Returns the value, the
    number of digits and the unread rest; [None] on a doubled or a
    trailing underscore. *)
Fixpoint scan_digits (base : Z) (s : string) (acc : Z) (n : nat) (prev_us : bool)
  : option (Z * nat * string) :=
  match s with
  | EmptyString => if prev_us then None else Some (acc, n, s)
  | String c s' =>
      if Ascii.eqb c underscore then
        if prev_us then None else scan_digits base s' acc n true
      else
        match digit_value c with
        | Some d =>
            if d <? base then scan_digits base s' (acc * base + d) (S n) false
            else if prev_us then None else Some (acc, n, s)
        | None => if prev_us then None else Some (acc, n, s)
        end
  end.

Fixpoint skip_int_space (s : string) : string :=
  match s with
  | String c s' => if int_space c then skip_int_space s' else s
  | EmptyString => EmptyString
  end.

(** The prefix letter that [int] accepts after a leading zero in the
    given base ([x] for 16, [o] for 8, [b] for 2). *)
Definition base_letter (base : Z) (c : ascii) : bool :=
  ((base =? 16) && Ascii.eqb (lower_char c) "x"%char) ||
  ((base =? 8) && Ascii.eqb (lower_char c) "o"%char) ||
  ((base =? 2) && Ascii.eqb (lower_char c) "b"%char).

(** After the base prefix one underscore may precede the digits. *)
Definition skip_prefix (base : Z) (s : string) : string :=
  match s with
  | String z (String l r) =>
      if Ascii.eqb z "0"%char && base_letter base l then
        match r with
        | String u r' => if Ascii.eqb u underscore then r' else r
        | EmptyString => r
        end
      else s
  | _ => s
  end.

(** [int(s, base)] for [base] in 2, 8, 10, 16; [None] is [ValueError]. *)
Definition int_of (base : Z) (s : string) : option Z :=
  let s0 := skip_int_space s in
  let '(neg, s1) :=
    match s0 with
    | String c r =>
        if Ascii.eqb c "-"%char then (true, r)
        else if Ascii.eqb c "+"%char then (false, r)
        else (false, s0)
    | EmptyString => (false, s0)
    end in
  let s2 := skip_prefix base s1 in
  match s2 with
  | String c _ =>
      if Ascii.eqb c underscore then None
      else
        match scan_digits base s2 0 0%nat false with
        | Some (v, n, rest) =>
            match n, skip_int_space rest with
            | S _, EmptyString => Some (if neg then - v else v)
            | _, _ => None
            end
        | None => None
        end
  | EmptyString => None
  end.

(** [lst[:n]] *)
Definition slice_to {A} (n : Z) (l : list A) : list A :=
  if n <? 0 then take (Nat.sub (length l) (Z.to_nat (- n))) l
  else take (Z.to_nat n) l.

End Py.

(** ** ISA table *)

Module ISA.

Definition ZPLC_MAGIC : Z := 0x434C505A.
Definition ZPLC_VERSION_MAJOR : Z := 1.
Definition ZPLC_VERSION_MINOR : Z := 0.

(** The members of the [IntEnum] [Opcode]. *)
Inductive Opcode : Type :=
  | NOP | HALT | BREAK | GET_TICKS | DUP | DROP | SWAP | OVER | ROT | ADD
  | SUB | MUL | DIV | MOD | NEG | ABS | ADDF | SUBF | MULF | DIVF | NEGF
  | ABSF | AND | OR | XOR | NOT | SHL | SHR | SAR | EQ | NE | LT | LE | GT
  | GE | LTU | GTU | PUSH8 | JR | JRZ | JRNZ | LOAD8 | LOAD16 | LOAD32
  | LOAD64 | STORE8 | STORE16 | STORE32 | STORE64 | PUSH16 | JMP | JZ | JNZ
  | CALL | RET | I2F | F2I | I2B | EXT8 | EXT16 | ZEXT8 | ZEXT16 | PUSH32.

Definition value (op : Opcode) : Z :=
  match op with
  | NOP => 0x00 | HALT => 0x01 | BREAK => 0x02 | GET_TICKS => 0x03
  | DUP => 0x10 | DROP => 0x11 | SWAP => 0x12 | OVER => 0x13 | ROT => 0x14
  | ADD => 0x20 | SUB => 0x21 | MUL => 0x22 | DIV => 0x23 | MOD => 0x24
  | NEG => 0x25 | ABS => 0x26 | ADDF => 0x28 | SUBF => 0x29 | MULF => 0x2A
  | DIVF => 0x2B | NEGF => 0x2C | ABSF => 0x2D | AND => 0x30 | OR => 0x31
  | XOR => 0x32 | NOT => 0x33 | SHL => 0x34 | SHR => 0x35 | SAR => 0x36
  | EQ => 0x38 | NE => 0x39 | LT => 0x3A | LE => 0x3B | GT => 0x3C
  | GE => 0x3D | LTU => 0x3E | GTU => 0x3F | PUSH8 => 0x40 | JR => 0x50
  | JRZ => 0x51 | JRNZ => 0x52 | LOAD8 => 0x80 | LOAD16 => 0x81
  | LOAD32 => 0x82 | LOAD64 => 0x83 | STORE8 => 0x84 | STORE16 => 0x85
  | STORE32 => 0x86 | STORE64 => 0x87 | PUSH16 => 0x88 | JMP => 0x90
  | JZ => 0x91 | JNZ => 0x92 | CALL => 0x93 | RET => 0x94 | I2F => 0xA0
  | F2I => 0xA1 | I2B => 0xA2 | EXT8 => 0xA3 | EXT16 => 0xA4
  | ZEXT8 => 0xA5 | ZEXT16 => 0xA6 | PUSH32 => 0xC0
  end.

Definition name (op : Opcode) : string :=
  match op with
  | NOP => "NOP" | HALT => "HALT" | BREAK => "BREAK"
  | GET_TICKS => "GET_TICKS" | DUP => "DUP" | DROP => "DROP"
  | SWAP => "SWAP" | OVER => "OVER" | ROT => "ROT" | ADD => "ADD"
  | SUB => "SUB" | MUL => "MUL" | DIV => "DIV" | MOD => "MOD"
  | NEG => "NEG" | ABS => "ABS" | ADDF => "ADDF" | SUBF => "SUBF"
  | MULF => "MULF" | DIVF => "DIVF" | NEGF => "NEGF" | ABSF => "ABSF"
  | AND => "AND" | OR => "OR" | XOR => "XOR" | NOT => "NOT" | SHL => "SHL"
  | SHR => "SHR" | SAR => "SAR" | EQ => "EQ" | NE => "NE" | LT => "LT"
  | LE => "LE" | GT => "GT" | GE => "GE" | LTU => "LTU" | GTU => "GTU"
  | PUSH8 => "PUSH8" | JR => "JR" | JRZ => "JRZ" | JRNZ => "JRNZ"
  | LOAD8 => "LOAD8" | LOAD16 => "LOAD16" | LOAD32 => "LOAD32"
  | LOAD64 => "LOAD64" | STORE8 => "STORE8" | STORE16 => "STORE16"
  | STORE32 => "STORE32" | STORE64 => "STORE64" | PUSH16 => "PUSH16"
  | JMP => "JMP" | JZ => "JZ" | JNZ => "JNZ" | CALL => "CALL"
  | RET => "RET" | I2F => "I2F" | F2I => "F2I" | I2B => "I2B"
  | EXT8 => "EXT8" | EXT16 => "EXT16" | ZEXT8 => "ZEXT8"
  | ZEXT16 => "ZEXT16" | PUSH32 => "PUSH32"
  end.

(** The members in definition order, as iterating over [Opcode] yields
    them. *)
Definition all_opcodes : list Opcode :=
  [NOP; HALT; BREAK; GET_TICKS; DUP; DROP; SWAP; OVER; ROT; ADD; SUB; MUL;
   DIV; MOD; NEG; ABS; ADDF; SUBF; MULF; DIVF; NEGF; ABSF; AND; OR; XOR;
   NOT; SHL; SHR; SAR; EQ; NE; LT; LE; GT; GE; LTU; GTU; PUSH8; JR; JRZ;
   JRNZ; LOAD8; LOAD16; LOAD32; LOAD64; STORE8; STORE16; STORE32; STORE64;
   PUSH16; JMP; JZ; JNZ; CALL; RET; I2F; F2I; I2B; EXT8; EXT16; ZEXT8;
   ZEXT16; PUSH32].

Definition get_operand_size (opcode : Z) : Z :=
  if opcode =? 0x94 then 0
  else if (0xA0 <=? opcode) && (opcode <=? 0xA6) then 0
  else if opcode <? 0x40 then 0
  else if opcode <? 0x80 then 1
  else if opcode <? 0xC0 then 2
  else 4.

Definition OPCODE_BY_NAME : gmap string Opcode :=
  foldl (fun m op => <[name op := op]> m) ∅ all_opcodes.

Definition OPERAND_SIZE (op : Opcode) : Z := get_operand_size (value op).

(** The reverse table the disassembler builds, from value to name. *)
Definition opcode_names : gmap Z string :=
  foldl (fun m op => <[value op := name op]> m) ∅ all_opcodes.

(** [opcode in (Opcode.JR, Opcode.JRZ, Opcode.JRNZ)] *)
Definition is_relative_jump (opcode : Z) : bool :=
  (opcode =? value JR) || (opcode =? value JRZ) || (opcode =? value JRNZ).

End ISA.

(** ** Assembler *)

Module Asm.
Import ISA.

Record Instruction : Type := mkInstruction {
  opcode : Opcode;
  operand : option Z;
  operand_label : option string;
  line_num : Z;
  address : Z
}.

Record Label : Type := mkLabel {
  lbl_name : string;
  lbl_address : Z;
  lbl_line_num : Z
}.

(** What an [AssemblerError] reports; the payload is what the message
    interpolates. *)
Inductive ErrorKind : Type :=
| DuplicateLabel (label_name : string)
| UnknownInstruction (mnemonic : string)
| RequiresOperand (mnemonic : string)
| TakesNoOperand (mnemonic : string)
| InvalidOperand (operand_str : string)
| InvalidOrg (operand : string)
| InvalidEntry (operand : string)
| UnknownDirective (directive : string)
| UndefinedLabel (label_name : string)
| RelativeOutOfRange (label_name : string) (offset : Z)
| UndefinedEntryLabel (label_name : string)
| Wrapped.

Record AssemblerError : Type := mkError {
  err_kind : ErrorKind;
  err_line_num : Z;
  err_line : string
}.

(** The exceptions that can leave [parse_line]: the assembler's own, and
    the built-in ones that [assemble] wraps into [Wrapped]; [struct.error]
    and [AssertionError] can leave [create_zplc_file]. *)
Inductive exn : Type :=
| AsmError (e : AssemblerError)
| ValueError
| IndexError
| StructError
| AssertionError.

(** [entry_point] holds an address, or the upper-cased name of a label
    until pass 2. *)
Inductive EntryPoint : Type :=
| EntryInt (n : Z)
| EntryStr (s : string).

(** The fields of a [ZPLCAssembler]. *)
Record ZPLCAssembler : Type := mkAsm {
  instructions : list Instruction;
  labels : gmap string Label;
  entry_point : EntryPoint;
  current_address : Z
}.

Definition init : ZPLCAssembler :=
  {| instructions := []; labels := ∅; entry_point := EntryInt 0;
     current_address := 0 |}.

Definition is_empty (s : string) : bool :=
  match s with EmptyString => true | _ => false end.

Definition len (s : string) : Z := Z.of_nat (String.length s).

(** The table [escapes] of character literals. *)
Definition escapes (c : ascii) : option Z :=
  if Ascii.eqb c "n" then Some 10
  else if Ascii.eqb c "r" then Some 13
  else if Ascii.eqb c "t" then Some 9
  else if Ascii.eqb c "\" then Some 92
  else if Ascii.eqb c "'" then Some 39
  else if Ascii.eqb c "0" then Some 0
  else None.

(** [parse_number]; [None] stands for [ValueError]. *)
Definition parse_number (s : string) : option Z :=
  let s := Py.strip s in
  match s with
  | EmptyString => None
  | String c0 tl =>
      if Py.startswith "'" s && Py.ends_with_char "'" s && (3 <=? len s) then
        match tl with
        | String c1 tl1 =>
            if Ascii.eqb c1 "\" then
              match tl1 with
              | String c2 _ =>
                  match (4 <=? len s), escapes c2 with
                  | true, Some v => Some v
                  | _, _ => Some (Py.code c1)
                  end
              | EmptyString => Some (Py.code c1)
              end
            else Some (Py.code c1)
        | EmptyString => None
        end
      else
        let '(negative, s) :=
          if Ascii.eqb c0 "-" then (true, tl)
          else if Ascii.eqb c0 "+" then (false, tl)
          else (false, s) in
        let value :=
          if Py.startswith "0x" (Py.lower s) then Py.int_of 16 s
          else if Py.startswith "0b" (Py.lower s) then Py.int_of 2 s
          else if Py.startswith "0o" (Py.lower s) then Py.int_of 8 s
          else Py.int_of 10 s in
        match value with
        | Some v => Some (if negative then - v else v)
        | None => None
        end
  end.

Definition ident_start (c : ascii) : bool :=
  Py.is_lower c || Py.is_upper c || Ascii.eqb c "_".

Definition ident_char (c : ascii) : bool :=
  ident_start c || Py.is_digit c.

Fixpoint span_ident (s : string) : string * string :=
  match s with
  | EmptyString => (EmptyString, EmptyString)
  | String c s' =>
      if ident_char c then let '(w, r) := span_ident s' in (String c w, r)
      else (EmptyString, s)
  end.

(** The identifier pattern of [parse_operand] and [.ENTRY]: a letter or
    underscore, then letters, digits and underscores, on a stripped [s]. *)
Definition is_identifier (s : string) : bool :=
  match s with
  | String c _ => ident_start c && is_empty (snd (span_ident s))
  | EmptyString => false
  end.

(** The label pattern of [parse_line]: an identifier at the start of the
    line, blanks, a colon.  Returns group 1 and the text from the end of
    the match. *)
Definition match_label (line : string) : option (string * string) :=
  match line with
  | String c _ =>
      if ident_start c then
        let '(w, r) := span_ident line in
        match Py.lstrip r with
        | String d r' => if Ascii.eqb d ":" then Some (w, r') else None
        | EmptyString => None
        end
      else None
  | EmptyString => None
  end.

Definition parse_operand (operand_str : string) (line_num : Z) (opcode : Opcode)
  : result exn (option Z * option string) :=
  let operand_str := Py.strip operand_str in
  if is_empty operand_str then Ok (None, None)
  else if is_identifier operand_str then Ok (None, Some operand_str)
  else
    match parse_number operand_str with
    | Some value => Ok (Some value, None)
    | None => Err (AsmError (mkError (InvalidOperand operand_str) line_num ""))
    end.

Definition set_address (a : Z) (st : ZPLCAssembler) : ZPLCAssembler :=
  {| instructions := instructions st; labels := labels st;
     entry_point := entry_point st; current_address := a |}.

Definition set_entry (e : EntryPoint) (st : ZPLCAssembler) : ZPLCAssembler :=
  {| instructions := instructions st; labels := labels st;
     entry_point := e; current_address := current_address st |}.

(** The loop of [.DB]/[.BYTE] over the comma-separated values. *)
Fixpoint define_bytes (vals : list string) (st : ZPLCAssembler)
  : result exn ZPLCAssembler :=
  match vals with
  | [] => Ok st
  | val_str :: rest =>
      match parse_number (Py.strip val_str) with
      | Some _ => define_bytes rest (set_address (current_address st + 1) st)
      | None => Err ValueError
      end
  end.

Definition handle_directive (directive operand : string) (line_num : Z)
    (st : ZPLCAssembler) : result exn ZPLCAssembler :=
  if String.eqb directive ".ORG" then
    match parse_number operand with
    | Some a => Ok (set_address a st)
    | None => Err (AsmError (mkError (InvalidOrg operand) line_num ""))
    end
  else if String.eqb directive ".ENTRY" then
    let operand := Py.strip operand in
    if is_identifier operand then Ok (set_entry (EntryStr (Py.upper operand)) st)
    else
      match parse_number operand with
      | Some a => Ok (set_entry (EntryInt a) st)
      | None => Err (AsmError (mkError (InvalidEntry operand) line_num ""))
      end
  else if String.eqb directive ".DB" || String.eqb directive ".BYTE" then
    define_bytes (Py.split_char "," operand) st
  else Err (AsmError (mkError (UnknownDirective directive) line_num "")).

(** [parse_line] from "Parse instruction" on: [line] is stripped and not
    empty. *)
Definition parse_statement (line : string) (line_num : Z) (st : ZPLCAssembler)
  : result exn ZPLCAssembler :=
  match Py.split_ws1 line with
  | [] => Err IndexError
  | part0 :: parts =>
      let mnemonic := Py.upper part0 in
      let operand_str := match parts with p :: _ => p | [] => "" end in
      if Py.startswith "." mnemonic then
        handle_directive mnemonic operand_str line_num st
      else
        match OPCODE_BY_NAME !! mnemonic with
        | None => Err (AsmError (mkError (UnknownInstruction mnemonic) line_num line))
        | Some opcode =>
            let operand_size := OPERAND_SIZE opcode in
            '(operand_val, operand_label) ←
              (if 0 <? operand_size then
                 if is_empty operand_str then
                   Err (AsmError (mkError (RequiresOperand mnemonic) line_num line))
                 else parse_operand operand_str line_num opcode
               else
                 if is_empty operand_str then Ok (None, None)
                 else Err (AsmError (mkError (TakesNoOperand mnemonic) line_num line)));
            let instr := mkInstruction opcode operand_val operand_label line_num
                           (current_address st) in
            Ok {| instructions := instructions st ++ [instr];
                  labels := labels st;
                  entry_point := entry_point st;
                  current_address := current_address st + (1 + operand_size) |}
        end
  end.

Definition strip_comment (line : string) : string :=
  if Py.has_char ";" line then Py.before_char ";" line else line.

Definition parse_line (line : string) (line_num : Z) (st : ZPLCAssembler)
  : result exn ZPLCAssembler :=
  let line := Py.strip (strip_comment line) in
  if is_empty line then Ok st
  else
    match match_label line with
    | Some (group1, after) =>
        let label_name := Py.upper group1 in
        match labels st !! label_name with
        | Some _ => Err (AsmError (mkError (DuplicateLabel label_name) line_num line))
        | None =>
            let st' :=
              {| instructions := instructions st;
                 labels := <[label_name := mkLabel label_name (current_address st) line_num]>
                             (labels st);
                 entry_point := entry_point st;
                 current_address := current_address st |} in
            let line := Py.strip after in
            if is_empty line then Ok st' else parse_statement line line_num st'
        end
    | None => parse_statement line line_num st
    end.

(** Pass 1 over the numbered lines; an exception other than
    [AssemblerError] is wrapped with the number and text of its line. *)
Fixpoint parse_lines (lines : list string) (line_num : Z) (st : ZPLCAssembler)
  : result AssemblerError ZPLCAssembler :=
  match lines with
  | [] => Ok st
  | line :: rest =>
      match parse_line line line_num st with
      | Ok st' => parse_lines rest (line_num + 1) st'
      | Err (AsmError e) => Err e
      | Err _ => Err (mkError Wrapped line_num line)
      end
  end.

Definition set_operand (v : Z) (instr : Instruction) : Instruction :=
  {| opcode := opcode instr; operand := Some v;
     operand_label := operand_label instr; line_num := line_num instr;
     address := address instr |}.

(** The body of the loop of [resolve_labels] for one instruction. *)
Definition resolve_instr (labels : gmap string Label) (instr : Instruction)
  : result AssemblerError Instruction :=
  match operand_label instr with
  | Some l =>
      if is_empty l then Ok instr
      else
        let label_name := Py.upper l in
        match labels !! label_name with
        | None => Err (mkError (UndefinedLabel label_name) (line_num instr) "")
        | Some label =>
            if is_relative_jump (value (opcode instr)) then
              let offset := lbl_address label - (address instr + 2) in
              if (offset <? -128) || (offset >? 127) then
                Err (mkError (RelativeOutOfRange label_name offset) (line_num instr) "")
              else Ok (set_operand (Z.land offset 0xFF) instr)
            else Ok (set_operand (lbl_address label) instr)
        end
  | None => Ok instr
  end.

Fixpoint resolve_instrs (labels : gmap string Label) (instrs : list Instruction)
  : result AssemblerError (list Instruction) :=
  match instrs with
  | [] => Ok []
  | instr :: rest =>
      instr' ← resolve_instr labels instr;
      rest' ← resolve_instrs labels rest;
      Ok (instr' :: rest')
  end.

Definition resolve_labels (st : ZPLCAssembler) : result AssemblerError ZPLCAssembler :=
  instrs ← resolve_instrs (labels st) (instructions st);
  entry ←
    match entry_point st with
    | EntryStr s =>
        match labels st !! s with
        | None => Err (mkError (UndefinedEntryLabel s) 0 "")
        | Some label => Ok (EntryInt (lbl_address label))
        end
    | EntryInt n => Ok (EntryInt n)
    end;
  Ok {| instructions := instrs; labels := labels st; entry_point := entry;
        current_address := current_address st |}.

(** The [n] low bytes of [v], least significant first. *)
Fixpoint le_bytes (n : nat) (v : Z) : list Z :=
  match n with
  | O => []
  | S n' => v `mod` 256 :: le_bytes n' (v `div` 256)
  end.

(** The value of bytes read least significant first. *)
Fixpoint le_value (bs : list Z) : Z :=
  match bs with
  | [] => 0
  | b :: bs' => b + 256 * le_value bs'
  end.

(** [struct.pack] of one unsigned little-endian field of [n] bytes. *)
Definition pack_uint (n : nat) (v : Z) : result exn (list Z) :=
  if (0 <=? v) && (v <? 2 ^ (8 * Z.of_nat n)) then Ok (le_bytes n v)
  else Err StructError.

(** [struct.pack('<...', ...)] of unsigned fields given as width and
    value; the byte-order mark [<] means no padding. *)
Fixpoint struct_pack (fields : list (nat * Z)) : result exn (list Z) :=
  match fields with
  | [] => Ok []
  | (n, v) :: rest =>
      b ← pack_uint n v;
      bs ← struct_pack rest;
      Ok (b ++ bs)
  end.

Definition H : nat := 2%nat.
Definition I : nat := 4%nat.

(** The bytes [emit_bytecode] appends for one instruction; the masks
    keep [struct.pack] inside its range. *)
Definition emit_instr (instr : Instruction) : list Z :=
  let operand_size := OPERAND_SIZE (opcode instr) in
  let operand := match operand instr with Some v => v | None => 0 end in
  value (opcode instr) ::
  (if operand_size =? 1 then [Z.land operand 0xFF]
   else if operand_size =? 2 then le_bytes H (Z.land operand 0xFFFF)
   else if operand_size =? 4 then le_bytes I (Z.land operand 0xFFFFFFFF)
   else []).

Definition emit_instrs (instrs : list Instruction) : list Z :=
  flat_map emit_instr instrs.

Definition emit_bytecode (st : ZPLCAssembler) : list Z :=
  emit_instrs (instructions st).

Definition create_zplc_file (st : ZPLCAssembler) (bytecode : list Z)
  : result exn (list Z) :=
  let code_size := Z.of_nat (length bytecode) in
  let segment_count := 1 in
  header ← struct_pack
    [(I, ZPLC_MAGIC); (H, ZPLC_VERSION_MAJOR); (H, ZPLC_VERSION_MINOR);
     (I, 0); (I, 0); (I, code_size); (I, 0);
     (H, match entry_point st with EntryInt n => n | EntryStr _ => 0 end);
     (H, segment_count); (I, 0)];
  if negb (Z.of_nat (length header) =? 32) then Err AssertionError
  else
    segment_entry ← struct_pack [(H, 0x01); (H, 0); (I, code_size)];
    if negb (Z.of_nat (length segment_entry) =? 8) then Err AssertionError
    else Ok (header ++ segment_entry ++ bytecode).

(** Passes 1 and 2 of [assemble]: the assembler as [emit_bytecode] finds
    it. *)
Definition assemble_state (source : string) : result AssemblerError ZPLCAssembler :=
  st ← parse_lines (Py.splitlines source) 1 init;
  resolve_labels st.

Definition assemble (source : string) : result AssemblerError (list Z) :=
  st ← assemble_state source;
  Ok (emit_bytecode st).

(** *** Disassembler *)

(** One line of the listing, before it is formatted. *)
Inductive DisLine : Type :=
| LUnknown (addr opcode : Z)
| LTruncated (addr : Z) (name : string)
| LPlain (addr : Z) (name : string)
| LRelative (addr : Z) (name : string) (signed_op target : Z)
| LOperand8 (addr : Z) (name : string) (operand : Z)
| LOperand16 (addr : Z) (name : string) (operand : Z)
| LOperand32 (addr : Z) (name : string) (operand : Z).

Fixpoint zeros (n : nat) : string :=
  match n with
  | O => EmptyString
  | S n' => String "0" (zeros n')
  end.

(** [format(n, '0<width>X')]: upper-case digits, zero-filled after the
    sign up to [width] characters. *)
Definition fmt_X (width : nat) (n : Z) : string :=
  let digits := Py.upper (Py.hex_digits (Z.abs n)) in
  let sign := if n <? 0 then "-" else "" in
  sign +:+ zeros (width - String.length sign - String.length digits) +:+ digits.

Definition render_line (l : DisLine) : string :=
  match l with
  | LUnknown addr opcode =>
      "0x" +:+ fmt_X 4 addr +:+ ": ??? (0x" +:+ fmt_X 2 opcode +:+ ")"
  | LTruncated addr name =>
      "0x" +:+ fmt_X 4 addr +:+ ": " +:+ name +:+ " <truncated>"
  | LPlain addr name =>
      "0x" +:+ fmt_X 4 addr +:+ ": " +:+ name
  | LRelative addr name signed_op target =>
      "0x" +:+ fmt_X 4 addr +:+ ": " +:+ name +:+ " " +:+ Py.str_of_int signed_op
      +:+ " (-> 0x" +:+ fmt_X 4 target +:+ ")"
  | LOperand8 addr name operand =>
      "0x" +:+ fmt_X 4 addr +:+ ": " +:+ name +:+ " " +:+ Py.str_of_int operand
      +:+ " (0x" +:+ fmt_X 2 operand +:+ ")"
  | LOperand16 addr name operand =>
      "0x" +:+ fmt_X 4 addr +:+ ": " +:+ name +:+ " 0x" +:+ fmt_X 4 operand
  | LOperand32 addr name operand =>
      "0x" +:+ fmt_X 4 addr +:+ ": " +:+ name +:+ " 0x" +:+ fmt_X 8 operand
  end.

(** [bytecode[i]] at an index the caller has checked to be in range. *)
Definition byte_at (bytecode : list Z) (i : nat) : Z :=
  default 0 (bytecode !! i).

(** [struct.unpack_from] of one unsigned little-endian field of [n]
    bytes at offset [i]. *)
Definition unpack_uint (n : nat) (bytecode : list Z) (i : nat) : Z :=
  le_value (take n (drop i bytecode)).

(** The [while] loop of [disassemble]; every turn advances [pc] by at
    least one, so [fuel] as large as the bytecode is never used up. *)
Fixpoint disassemble_loop (fuel : nat) (bytecode : list Z) (base_addr : Z) (pc : nat)
  : list DisLine :=
  match fuel with
  | O => []
  | S fuel' =>
      match bytecode !! pc with
      | None => []
      | Some opcode =>
          let addr := base_addr + Z.of_nat pc in
          match opcode_names !! opcode with
          | None => LUnknown addr opcode :: disassemble_loop fuel' bytecode base_addr (pc + 1)
          | Some name =>
              let operand_size := get_operand_size opcode in
              let instr_size := 1 + operand_size in
              if Z.of_nat pc + operand_size >=? Z.of_nat (length bytecode) then
                [LTruncated addr name]
              else
                let line :=
                  if operand_size =? 0 then LPlain addr name
                  else if operand_size =? 1 then
                    let operand := byte_at bytecode (pc + 1) in
                    if is_relative_jump opcode then
                      let signed_op := if operand <? 128 then operand else operand - 256 in
                      LRelative addr name signed_op (addr + 2 + signed_op)
                    else LOperand8 addr name operand
                  else if operand_size =? 2 then
                    LOperand16 addr name (unpack_uint H bytecode (pc + 1))
                  else LOperand32 addr name (unpack_uint I bytecode (pc + 1)) in
                line :: disassemble_loop fuel' bytecode base_addr (pc + Z.to_nat instr_size)
          end
      end
  end.

Definition disassemble_lines (bytecode : list Z) (base_addr : Z) : list DisLine :=
  disassemble_loop (length bytecode) bytecode base_addr 0.

Definition newline : string := String (Py.chr 10) EmptyString.

Definition disassemble (bytecode : list Z) (base_addr : Z) : string :=
  String.concat newline (map render_line (disassemble_lines bytecode base_addr)).

End Asm.

(** ** HIL transport client *)

Module Hil.

(** Built-in exceptions that can leave the client's methods. *)
Inductive exn : Type :=
| ValueError
| StructError.

(** What the client prints; the payload is what the message
    interpolates. *)
Inductive Printed : Type :=
| WarnLoadRetry (attempt : Z)
| ErrorLoadFailed (resp : string)
| WarnChunkRetry (i attempt : Z) (resp : string)
| ErrorChunkFailed (i : Z).

Definition prompt : string := "zplc:~$".
Definition ok_token : string := "OK:".
Definition crlf : string := String (Py.chr 13) (String (Py.chr 10) EmptyString).

(** The reading loop of [send]: one byte at a time, each decoded on its
    own with [errors="ignore"], which keeps the ASCII bytes and drops the
    others; the loop stops as soon as [wait_for] occurs in what was read.
    [incoming] is what arrives before the timeout. *)
Fixpoint read_until (wait_for incoming response : string) : string :=
  match incoming with
  | EmptyString => response
  | String b rest =>
      let char := if Py.code b <? 128 then String b EmptyString else EmptyString in
      let response := response +:+ char in
      if Py.contains wait_for response then response
      else read_until wait_for rest response
  end.

(** Two lower-case hexadecimal digits per byte: [binascii.hexlify] and
    [bytearray.hex]. *)
Definition hex_digit (d : Z) : ascii :=
  if d <? 10 then Py.chr (48 + d) else Py.chr (87 + d).

Fixpoint hex_of_bytes (bs : list Z) : string :=
  match bs with
  | [] => EmptyString
  | b :: bs' =>
      String (hex_digit (b `div` 16)) (String (hex_digit (b `mod` 16)) (hex_of_bytes bs'))
  end.

(** [bytearray(values)]: every value must be in [range(256)]. *)
Definition bytearray (values : list Z) : result exn (list Z) :=
  if forallb (fun v => (0 <=? v) && (v <? 256)) values then Ok values
  else Err ValueError.

(** The start offsets [range(0, n, step)]. *)
Fixpoint range_step (fuel : nat) (i n step : Z) : list Z :=
  match fuel with
  | O => []
  | S fuel' => if i <? n then i :: range_step fuel' (i + step) n step else []
  end.

Definition is_hex_char (c : ascii) : bool :=
  Py.is_digit c || Py.in_range 65 70 c || Py.in_range 97 102 c.

(** [re.findall(r"([0-9A-Fa-f]{2})", s)]: leftmost pairs that do not
    overlap. *)
Fixpoint findall_hex2 (s : string) : list string :=
  match s with
  | String c1 ((String c2 s2) as s1) =>
      if is_hex_char c1 then
        if is_hex_char c2 then String c1 (String c2 EmptyString) :: findall_hex2 s2
        else findall_hex2 s1
      else findall_hex2 s1
  | _ => []
  end.

(** [struct.pack("<H", v)] and [struct.pack("<I", v)]. *)
Definition pack_uint (n : nat) (v : Z) : result exn (list Z) :=
  if (0 <=? v) && (v <? 2 ^ (8 * Z.of_nat n)) then Ok (Asm.le_bytes n v)
  else Err StructError.

Section Session.

(** The device at the far end of the serial link, with the bytes it
    sends back while [send] is reading after a write.  [send] empties the
    input buffer before it writes, so nothing older is ever read; the
    delays between commands are not modelled. *)
Variable Dev : Type.
Variable dev_reply : Dev -> string -> string * Dev.

(** A [ZPLCTester]: the open port, with what was written to it and what
    was printed, oldest first. *)
Record Session : Type := mkSession {
  device : Dev;
  written : list string;
  console : list Printed
}.

Definition print (p : Printed) (s : Session) : Session :=
  {| device := device s; written := written s; console := console s ++ [p] |}.

Definition send (cmd wait_for : string) (s : Session) : string * Session :=
  let wire := cmd +:+ crlf in
  let '(incoming, d) := dev_reply (device s) wire in
  (read_until wait_for incoming EmptyString,
   {| device := d; written := written s ++ [wire]; console := console s |}).

(** The retry loop of the [load] command; [true] when it left through
    [break]. *)
Fixpoint load_attempts (todo : nat) (attempt : Z) (cmd : string) (resp : string)
    (s : Session) : bool * string * Session :=
  match todo with
  | O => (false, resp, s)
  | S todo' =>
      let '(resp, s) := send cmd ok_token s in
      if Py.contains ok_token resp then (true, resp, s)
      else load_attempts todo' (attempt + 1) cmd resp (print (WarnLoadRetry (attempt + 1)) s)
  end.

(** The retry loop of one [data] chunk. *)
Fixpoint chunk_attempts (todo : nat) (attempt : Z) (i : Z) (cmd : string) (s : Session)
  : bool * Session :=
  match todo with
  | O => (false, s)
  | S todo' =>
      let '(resp, s) := send cmd ok_token s in
      if Py.contains ok_token resp then (true, s)
      else chunk_attempts todo' (attempt + 1) i cmd
             (print (WarnChunkRetry i (attempt + 1) resp) s)
  end.

(** The loop over the chunk offsets; [false] when a chunk failed and
    [upload_bytecode] returned from inside the loop. *)
Fixpoint send_chunks (offsets : list Z) (hex_data : string) (chunk_size : Z)
    (s : Session) : bool * Session :=
  match offsets with
  | [] => (true, s)
  | i :: rest =>
      let chunk := substring (Z.to_nat i) (Z.to_nat chunk_size) hex_data in
      let '(sent, s) := chunk_attempts 3 0 i ("zplc data " +:+ chunk) s in
      if sent then send_chunks rest hex_data chunk_size s
      else (false, print (ErrorChunkFailed i) s)
  end.

(** [upload_bytecode]: [Ok tt] is a normal return. *)
Definition upload_bytecode (bytecode : list Z) (s : Session) : result exn unit * Session :=
  let s := snd (send "zplc stop" prompt s) in
  let s := snd (send "zplc reset" prompt s) in
  let '(loaded, resp, s) :=
    load_attempts 3 0 ("zplc load " +:+ Py.str_of_int (Z.of_nat (length bytecode))) "" s in
  if negb loaded then (Ok tt, print (ErrorLoadFailed resp) s)
  else
    match bytearray bytecode with
    | Err e => (Err e, s)
    | Ok bs =>
        let hex_data := hex_of_bytes bs in
        let chunk_size := 32 in
        let n := Z.of_nat (String.length hex_data) in
        let '(sent, s) := send_chunks (range_step (String.length hex_data) 0 n chunk_size)
                            hex_data chunk_size s in
        if sent then (Ok tt, snd (send "" prompt s)) else (Ok tt, s)
    end.

(** The bytes [peek] collects from one response line. *)
Fixpoint hex_values (matches : list string) : result exn (list Z) :=
  match matches with
  | [] => Ok []
  | hv :: rest =>
      match Py.int_of 16 hv with
      | Some v => vs ← hex_values rest; Ok (v :: vs)
      | None => Err ValueError
      end
  end.

Fixpoint peek_lines (lines : list string) : result exn (list Z) :=
  match lines with
  | [] => Ok []
  | line :: rest =>
      here ← (if Py.has_char ":" line then
                match Py.split_char ":" line with
                | _ :: data_part :: _ => hex_values (findall_hex2 data_part)
                | _ => Ok []
                end
              else Ok []);
      later ← peek_lines rest;
      Ok (here ++ later)
  end.

(** [peek]: the command is formatted first, and the decimal text of
    [length] is the one conversion in it that can be refused; nothing is
    sent then. *)
Definition peek (addr length : Z) (s : Session) : result exn (list Z) * Session :=
  match Py.str length with
  | None => (Err ValueError, s)
  | Some length_str =>
      let '(resp, s) :=
        send ("zplc dbg peek " +:+ Py.hex addr +:+ " " +:+ length_str) prompt s in
      (bytes_out ← peek_lines (Py.splitlines resp); Ok (Py.slice_to length bytes_out), s)
  end.

(** [LanguageTester.poke] *)
Definition poke (address value size : Z) (s : Session) : result exn unit * Session :=
  let data :=
    if size =? 1 then Ok [Z.land value 0xFF]
    else if size =? 2 then pack_uint 2 value
    else if size =? 4 then pack_uint 4 value
    else Ok [] in
  match data with
  | Err e => (Err e, s)
  | Ok data =>
      let hex_str := hex_of_bytes data in
      let '(_, s) := send ("zplc dbg poke " +:+ Py.hex address +:+ " " +:+ hex_str) prompt s in
      (Ok tt, s)
  end.

End Session.

Arguments mkSession {Dev} _ _ _.
Arguments device {Dev} _.
Arguments written {Dev} _.
Arguments console {Dev} _.
Arguments send {Dev} _ _ _ _.
Arguments upload_bytecode {Dev} _ _ _.
Arguments peek {Dev} _ _ _ _.
Arguments poke {Dev} _ _ _ _ _.

End Hil.

(** ** Verification helpers of the language tests *)

Module Lang.

(** The integer formats that [expect_int16] and [expect_int32] hand to
    [expect_memory], ["<h"] and ["<i"]: the last character is in the size
    table and neither format has an [f] or a [d], so the comparison is the
    exact one.  The floating-point formats are not modelled. *)
Inductive Format : Type :=
| Int16
| Int32.

Definition size_of (fmt : Format) : Z :=
  match fmt with
  | Int16 => 2
  | Int32 => 4
  end.

(** What the helpers print: the two failure lines with the address as
    [hex] prints it, and the verdict line with its description, the value
    read, the value expected and the status. *)
Inductive Printed : Type :=
| FailIncomplete (address : string) (got need : Z)
| FailRead (address : string)
| Verdict (description val_str exp_str : string) (pass : bool).

(** [str(b)] for a boolean. *)
Definition py_bool (b : bool) : string := if b then "True" else "False".

(** [struct.unpack(fmt, buffer)[0]] for the signed little-endian
    formats: the buffer must have the size of the format. *)
Definition unpack_int (fmt : Format) (buffer : list Z) : result Hil.exn Z :=
  if Z.of_nat (length buffer) =? size_of fmt then
    let u := Asm.le_value buffer in
    let w := 2 ^ (8 * size_of fmt) in
    Ok (if u <? w `div` 2 then u else u - w)
  else Err Hil.StructError.

Section Helpers.

Variable Dev : Type.
Variable dev_reply : Dev -> string -> string * Dev.

(** [expect_memory] at an integer format; the result carries the value
    returned and the line printed. *)
Definition expect_memory (address : Z) (fmt : Format) (expected_value : Z)
    (description : string) (s : Hil.Session Dev)
  : result Hil.exn (bool * Printed) * Hil.Session Dev :=
  let size := size_of fmt in
  let '(mem, s) := Hil.peek dev_reply address size s in
  match mem with
  | Err e => (Err e, s)
  | Ok mem =>
      if Z.of_nat (length mem) <? size then
        (Ok (false, FailIncomplete (Py.hex address) (Z.of_nat (length mem)) size), s)
      else
        match (buffer ← Hil.bytearray mem; unpack_int fmt buffer) with
        | Err e => (Err e, s)
        | Ok val =>
            let matched := val =? expected_value in
            match Py.str val, Py.str expected_value with
            | Some val_str, Some exp_str =>
                (Ok (matched, Verdict description val_str exp_str matched), s)
            | _, _ => (Err Hil.ValueError, s)
            end
        end
  end.

(** [expect_bool]: a negative [bit_offset] makes the shift raise
    [ValueError]. *)
Definition expect_bool (address bit_offset : Z) (expected_bool : bool)
    (description : string) (s : Hil.Session Dev)
  : result Hil.exn (bool * Printed) * Hil.Session Dev :=
  let real_addr := address + 0x1000 in
  let '(mem, s) := Hil.peek dev_reply real_addr 1 s in
  match mem with
  | Err e => (Err e, s)
  | Ok [] => (Ok (false, FailRead (Py.hex real_addr)), s)
  | Ok (b :: _) =>
      if bit_offset <? 0 then (Err Hil.ValueError, s)
      else
        let val := Z.land (Z.shiftr b bit_offset) 1 in
        let expected := if expected_bool then 1 else 0 in
        let matched := val =? expected in
        (Ok (matched,
             Verdict description (py_bool (negb (val =? 0))) (py_bool expected_bool)
               matched), s)
  end.

Definition expect_int16 (address expected_value : Z) (description : string)
    (s : Hil.Session Dev) : result Hil.exn (bool * Printed) * Hil.Session Dev :=
  expect_memory (address + 0x1000) Int16 expected_value description s.

Definition expect_int32 (address expected_value : Z) (description : string)
    (s : Hil.Session Dev) : result Hil.exn (bool * Printed) * Hil.Session Dev :=
  expect_memory (address + 0x1000) Int32 expected_value description s.

End Helpers.

Arguments expect_memory {Dev} _ _ _ _ _ _.
Arguments expect_bool {Dev} _ _ _ _ _ _.
Arguments expect_int16 {Dev} _ _ _ _ _.
Arguments expect_int32 {Dev} _ _ _ _ _.

End Lang.

(** ** Vocabulary of the properties *)

Module Spec.
Import ISA Asm.

(** The width the four numeric ranges alone assign to a byte value. *)
Definition range_width (opcode : Z) : Z :=
  match opcode `div` 64 with
  | 0 => 0
  | 1 => 1
  | 2 => 2
  | _ => 4
  end.

Definition byte_values : list Z := map Z.of_nat (seq 0 256).

(** What a line of the listing shows of an instruction: the opcode name
    and the operand as an unsigned value of its width. *)
Definition line_entry (l : DisLine) : option (string * option Z) :=
  match l with
  | LUnknown _ _ | LTruncated _ _ => None
  | LPlain _ name => Some (name, None)
  | LRelative _ name signed_op _ => Some (name, Some (signed_op `mod` 256))
  | LOperand8 _ name operand
  | LOperand16 _ name operand
  | LOperand32 _ name operand => Some (name, Some operand)
  end.

(** The same for an assembled instruction: the operand reduced to the
    width its opcode declares. *)
Definition instr_entry (instr : Instruction) : string * option Z :=
  let size := OPERAND_SIZE (opcode instr) in
  (name (opcode instr),
   if size =? 0 then None
   else Some (default 0 (operand instr) `mod` 2 ^ (8 * size))).

(** The line the disassembler prints for [instr] found at [addr]. *)
Definition expected_line (addr : Z) (instr : Instruction) : DisLine :=
  let size := OPERAND_SIZE (opcode instr) in
  let v := default 0 (operand instr) in
  let nm := name (opcode instr) in
  if size =? 0 then LPlain addr nm
  else if size =? 1 then
    let b := Z.land v 0xFF in
    if is_relative_jump (value (opcode instr)) then
      let signed_op := if b <? 128 then b else b - 256 in
      LRelative addr nm signed_op (addr + 2 + signed_op)
    else LOperand8 addr nm b
  else if size =? 2 then LOperand16 addr nm (Z.land v 0xFFFF)
  else LOperand32 addr nm (Z.land v 0xFFFFFFFF).

Fixpoint expected_lines (addr : Z) (instrs : list Instruction) : list DisLine :=
  match instrs with
  | [] => []
  | instr :: rest =>
      expected_line addr instr
      :: expected_lines (addr + 1 + OPERAND_SIZE (opcode instr)) rest
  end.

(** A byte read as a signed 8-bit value. *)
Definition signed_byte (b : Z) : Z := if b <? 128 then b else b - 256.

(** The failures of section 7 of the specification. *)
Definition is_syntax_error (k : ErrorKind) : bool :=
  match k with
  | UnknownInstruction _ | RequiresOperand _ | TakesNoOperand _
  | InvalidOperand _ | InvalidOrg _ | InvalidEntry _ | UnknownDirective _
  | Wrapped => true
  | _ => false
  end.


(** The link errors raised by pass 2. *)
Definition is_resolve_error (k : ErrorKind) : bool :=
  match k with
  | UndefinedLabel _ | RelativeOutOfRange _ _ | UndefinedEntryLabel _ => true
  | _ => false
  end.

(** A line contains a syntax error when parsing it on its own, in a
    fresh assembler, fails with one. *)
Definition has_syntax_error (line : string) : bool :=
  match parse_lines [line] 1 init with
  | Err e => is_syntax_error (err_kind e)
  | Ok _ => false
  end.

(** No line of [lines] contains a syntax error. *)
Definition no_syntax_errors (lines : list string) : Prop :=
  Forall (fun line => has_syntax_error line = false) lines.

(** A label reference recorded in an instruction is not the empty
    string, which [resolve_labels] would take for no reference. *)
Definition label_wf (instr : Instruction) : Prop :=
  forall l, operand_label instr = Some l -> is_empty l = false.

(** Every value of a [.DB] list is a number [parse_number] accepts. *)
Definition values_parse (vals : list string) : Prop :=
  Forall (fun val_str => is_Some (parse_number (Py.strip val_str))) vals.

(** The layout of a module around its code, byte by byte. *)
Definition module_header (code_size entry : Z) : list Z :=
  ([0x5A; 0x50; 0x4C; 0x43] ++ [1; 0] ++ [0; 0] ++ [0; 0; 0; 0] ++ [0; 0; 0; 0]
   ++ le_bytes 4 code_size ++ [0; 0; 0; 0] ++ le_bytes 2 entry ++ [1; 0]
   ++ [0; 0; 0; 0]).

Definition module_segment_entry (code_size : Z) : list Z :=
  [1; 0] ++ [0; 0] ++ le_bytes 4 code_size.

Definition entry_value (st : ZPLCAssembler) : Z :=
  match entry_point st with EntryInt n => n | EntryStr _ => 0 end.

(** The value of two hexadecimal digits. *)
Definition hex_pair_value (hv : string) : Z :=
  match hv with
  | String c1 (String c2 _) =>
      16 * default 0 (Py.digit_value c1) + default 0 (Py.digit_value c2)
  | _ => 0
  end.

(** The bytes [peek] takes from a response line: the pairs of
    hexadecimal digits of the field between the first colon and the
    next one (or the end of the line). *)
Definition field_bytes (line : string) : list Z :=
  match Py.split_char ":" line with
  | _ :: data_part :: _ => map hex_pair_value (Hil.findall_hex2 data_part)
  | _ => []
  end.

Fixpoint after_char (c : ascii) (s : string) : string :=
  match s with
  | EmptyString => EmptyString
  | String d s' => if Ascii.eqb c d then s' else after_char c s'
  end.

(** Reading the specification to the letter: every pair of hexadecimal
    digits that follows a colon on the line. *)
Definition tokens_after_colon (line : string) : list Z :=
  map hex_pair_value (Hil.findall_hex2 (after_char ":" line)).

Definition peek_by_the_letter (resp : string) (length : Z) : list Z :=
  Py.slice_to length (concat (map tokens_after_colon (Py.splitlines resp))).

(** The line holds at most one colon. *)
Definition single_colon (line : string) : bool :=
  negb (Py.has_char ":" (after_char ":" line)).

(** The whole response [send] reads from device [d] after [cmd]. *)
Definition response {Dev} (dev_reply : Dev -> string -> string * Dev) (d : Dev)
    (cmd wait_for : string) : string :=
  Hil.read_until wait_for (fst (dev_reply d (cmd +:+ Hil.crlf))) EmptyString.

Definition load_cmd (bytecode : list Z) : string :=
  "zplc load " +:+ Py.str_of_int (Z.of_nat (length bytecode)).

Definition is_data_cmd (wire : string) : bool := Py.startswith "zplc data" wire.

(** The 256 characters. *)
Definition all_chars : list ascii := map ascii_of_nat (seq 0 256).

(** On two hexadecimal digits [int(hv, 16)] is their value. *)
Definition int_of_hex_pair_ok (c1 c2 : ascii) : bool :=
  implb (Hil.is_hex_char c1 && Hil.is_hex_char c2)
    match Py.int_of 16 (String c1 (String c2 EmptyString)) with
    | Some v => v =? hex_pair_value (String c1 (String c2 EmptyString))
    | None => false
    end.

(** A value that fits one byte. *)
Definition is_byte (b : Z) : Prop := 0 <= b <= 255.

(** The number of bytes an instruction takes in the output. *)
Definition instr_size (instr : Instruction) : Z := 1 + OPERAND_SIZE (opcode instr).

(** The instructions lie one after the other from [start]: each one has
    for address the place where the one before it ends. *)
Fixpoint contiguous (start : Z) (instrs : list Instruction) : Prop :=
  match instrs with
  | [] => True
  | instr :: rest =>
      address instr = start /\ contiguous (start + instr_size instr) rest
  end.

(** The text of a line that [parse_line] hands to the statement parser,
    after the comment and the label are taken off; empty when nothing is
    left. *)
Definition statement_text (line : string) : string :=
  let line := Py.strip (strip_comment line) in
  if is_empty line then EmptyString
  else
    match match_label line with
    | Some (_, after) => Py.strip after
    | None => line
    end.

(** The statement of the line is a directive. *)
Definition is_directive (line : string) : bool :=
  match Py.split_ws1 (statement_text line) with
  | part0 :: _ => Py.startswith "." (Py.upper part0)
  | [] => false
  end.

(** What pass 1 keeps true of a source without directives: the
    instructions lie one after the other from address 0, the cursor is
    the number of bytes they take, the entry point is 0, and every label
    points at an instruction boundary not beyond the cursor. *)
Definition plain_invariant (st : ZPLCAssembler) : Prop :=
  contiguous 0 (instructions st)
  /\ current_address st = Z.of_nat (length (emit_bytecode st))
  /\ entry_point st = EntryInt 0
  /\ forall k label,
       labels st !! k = Some label ->
       0 <= lbl_address label <= current_address st.

(** Two instructions that differ at most by their operand. *)
Definition same_layout (a b : Instruction) : Prop :=
  opcode a = opcode b /\ address a = address b
  /\ operand_label a = operand_label b /\ line_num a = line_num b.

(** The chunks of hexadecimal digits [upload_bytecode] sends, in
    order. *)
Definition chunks (hex_data : string) : list string :=
  map (fun i => substring (Z.to_nat i) 32 hex_data)
    (Hil.range_step (String.length hex_data) 0 (Z.of_nat (String.length hex_data)) 32).

(** What is written to the port for a command. *)
Definition wire (cmd : string) : string := cmd +:+ Hil.crlf.

(** The device answers every command with the success token before
    the timeout. *)
Definition acknowledges {Dev} (dev_reply : Dev -> string -> string * Dev) : Prop :=
  forall d cmd, Py.contains Hil.ok_token (response dev_reply d cmd Hil.ok_token) = true.

(** Every character of the string is an ASCII one. *)
Fixpoint all_ascii (s : string) : bool :=
  match s with
  | EmptyString => true
  | String c s' => (Py.code c <? 128) && all_ascii s'
  end.

(** The two digits [hex_of_bytes] prints for a byte are hexadecimal
    digits whose value is the byte. *)
Definition hex_byte_ok (b : Z) : bool :=
  let c1 := Hil.hex_digit (b `div` 16) in
  let c2 := Hil.hex_digit (b `mod` 16) in
  Hil.is_hex_char c1 && Hil.is_hex_char c2
  && (hex_pair_value (String c1 (String c2 EmptyString)) =? b).

(** The text of the bytes received, each decoded on its own: the
    ASCII ones. *)
Fixpoint decode_ascii (incoming : string) : string :=
  match incoming with
  | EmptyString => EmptyString
  | String b rest =>
      if Py.code b <? 128 then String b (decode_ascii rest) else decode_ascii rest
  end.

(** A string of decimal digits. *)
Fixpoint digits_only (s : string) : bool :=
  match s with
  | EmptyString => true
  | String c s' => Py.is_digit c && digits_only s'
  end.

(** What the parsers make of a decimal digit: not a blank, not a quote,
    a sign or an underscore, unchanged by [lower], no start of an
    identifier. *)
Definition digit_char_ok (c : ascii) : bool :=
  implb (Py.is_digit c)
    (negb (Py.isspace c) && negb (Py.int_space c) && negb (Ascii.eqb c "'")
     && negb (Ascii.eqb c "-") && negb (Ascii.eqb c "+") && negb (Ascii.eqb c "_")
     && Ascii.eqb (Py.lower_char c) c && negb (ident_start c)).

(** A hexadecimal digit has a value below sixteen. *)
Definition hex_char_ok (c : ascii) : bool :=
  implb (Hil.is_hex_char c)
    (match Py.digit_value c with
     | Some d => (0 <=? d) && (d <? 16)
     | None => false
     end).

(** The signed value of a field of [size] bytes read as an unsigned
    number [u]. *)
Definition signed_value (size u : Z) : Z :=
  if u <? 2 ^ (8 * size - 1) then u else u - 2 ^ (8 * size).

(** The integers that [str] and [int] convert between text and number:
    CPython refuses, with [ValueError], a decimal conversion of more than
    4300 digits unless the limit is lifted. *)
Definition printable (n : Z) : Prop := Z.abs n < 10 ^ 4300.

(** Every character of a string passes a test. *)
Fixpoint every_char (p : ascii -> bool) (s : string) : bool :=
  match s with
  | EmptyString => true
  | String c s' => p c && every_char p s'
  end.

(** The characters of mnemonics and of decimal numerals. *)
Definition text_char (c : ascii) : bool :=
  ident_char c || Py.is_digit c || Ascii.eqb c "-".

(** None of them is a blank, a line boundary, or one of the marks the
    assembler gives a meaning to. *)
Definition text_char_ok (c : ascii) : bool :=
  implb (text_char c)
    (negb (Py.isspace c) && negb (Py.is_linebreak c) && negb (Ascii.eqb c ";")
     && negb (Ascii.eqb c ":") && negb (Ascii.eqb c ".")).

(** A mnemonic as the opcode table spells it: an identifier in upper
    case. *)
Definition mnemonic_ok (w : string) : bool :=
  match w with
  | String c _ => ident_start c && every_char ident_char w && String.eqb (Py.upper w) w
  | EmptyString => false
  end.

(** Reading a line of the listing as text: after the address and its
    colon the first word is the mnemonic and the second, when there is
    one, the operand, a number in the assembler's own notation. *)
Definition read_line (text : string) : option (string * option Z) :=
  match Py.split_ws1 (after_char ":" text) with
  | [nm] => Some (nm, None)
  | [nm; rest] =>
      match Py.split_ws1 rest with
      | operand_text :: _ =>
          match parse_number operand_text with
          | Some v => Some (nm, Some v)
          | None => None
          end
      | [] => None
      end
  | _ => None
  end.

(** What a line of the text shows: the mnemonic, which must name an
    opcode, and the operand printed, as a value of the width that opcode
    declares. *)
Definition text_entry (text : string) : option (string * option Z) :=
  match read_line text with
  | Some (nm, shown) =>
      match OPCODE_BY_NAME !! nm with
      | Some op =>
          Some (nm, option_map (fun v => v `mod` 2 ^ (8 * OPERAND_SIZE op)) shown)
      | None => None
      end
  | None => None
  end.

(** A character that does not end a line. *)
Definition no_break (c : ascii) : bool := negb (Py.is_linebreak c).

(** A hexadecimal digit is a character of the listing's words, not an
    underscore and not a blank. *)
Definition hex_text_ok (c : ascii) : bool :=
  implb (Hil.is_hex_char c)
    (text_char c && negb (Ascii.eqb c "_") && negb (Py.int_space c)).

End Spec.

(** ** Sample inputs *)

Module Samples.

Definition nl : string := Asm.newline.

(** A device that answers every command with an error line and the
    prompt. *)
Definition refusing (d : unit) (wire : string) : string * unit :=
  ("ERR: busy" +:+ Hil.crlf +:+ "zplc:~$ ", d).

(** A device that answers every command with the given text. *)
Definition answering (text : string) (d : unit) (wire : string) : string * unit :=
  (text, d).

Definition fresh : Hil.Session unit := Hil.mkSession tt [] [].

(** A device that acknowledges every command. *)
Definition acknowledging (d : unit) (wire : string) : string * unit :=
  ("OK: done" +:+ Hil.crlf +:+ "zplc:~$ ", d).

(** A device that acknowledges [load] and refuses every other command. *)
Definition load_only (d : unit) (wire : string) : string * unit :=
  if Py.startswith "zplc load" wire then ("OK: ready" +:+ Hil.crlf, d)
  else ("ERR: busy" +:+ Hil.crlf +:+ "zplc:~$ ", d).

(** Answers to a peek: a dump line, then the prompt. *)
Definition short_dump : string :=
  "00001000: 0a ff" +:+ Hil.crlf +:+ "zplc:~$ ".

Definition three_byte_dump : string :=
  "00001000: 01 02 03" +:+ Hil.crlf +:+ "zplc:~$ ".

Definition two_colon_dump : string :=
  "00001000: 01 02 : 03 04" +:+ Hil.crlf +:+ "zplc:~$ ".

Definition add_program : string :=
  "PUSH8 10" +:+ nl +:+ "PUSH8 20" +:+ nl +:+ "ADD" +:+ nl +:+ "HALT".

Definition loop_program : string :=
  "loop: NOP" +:+ nl +:+ "  JR loop ; back" +:+ nl +:+ "HALT".

Definition far_jump_program : string :=
  "JR far" +:+ nl +:+ ".ORG 1000" +:+ nl +:+ "far: NOP".

Definition db_program : string :=
  "PUSH8 1" +:+ nl +:+ ".DB 1, 2, 3" +:+ nl +:+ "L: JMP L".

(** [far_jump_program] and [loop_program] after pass 1. *)
Definition far_jump_parsed : Asm.ZPLCAssembler :=
  {| Asm.instructions :=
       [Asm.mkInstruction ISA.JR None (Some "far") 1 0;
        Asm.mkInstruction ISA.NOP None None 3 1000];
     Asm.labels := <["FAR" := Asm.mkLabel "FAR" 1000 3]> ∅;
     Asm.entry_point := Asm.EntryInt 0;
     Asm.current_address := 1001 |}.

Definition loop_parsed : Asm.ZPLCAssembler :=
  {| Asm.instructions :=
       [Asm.mkInstruction ISA.NOP None None 1 0;
        Asm.mkInstruction ISA.JR None (Some "loop") 2 1;
        Asm.mkInstruction ISA.HALT None None 3 3];
     Asm.labels := <["LOOP" := Asm.mkLabel "LOOP" 0 1]> ∅;
     Asm.entry_point := Asm.EntryInt 0;
     Asm.current_address := 4 |}.


Definition undefined_label_program : string :=
  "NOP" +:+ nl +:+ "JMP nowhere".

(** An entry label used before it is defined. *)
Definition entry_program : string :=
  ".ENTRY start" +:+ nl +:+ "NOP" +:+ nl +:+ "start: HALT".

End Samples.

(** * Properties *)

(** ** Python fragment on samples *)

Example int_of_samples :
  map (Py.int_of 10) ["12"; " 1_0 "; "1__0"; "_1"; "1_"; "0x10"; "-5"; ""; "010"]
  = [Some 12; Some 10; None; None; None; None; Some (-5); None; Some 10]
  /\ map (Py.int_of 16) ["0x_1f"; "0X1F"; "0x"; "0x__1"; "+0x1"; "0b11"; "0x1g"]
  = [Some 31; Some 31; None; None; Some 1; Some 2833; None]
  /\ map (Py.int_of 2) ["0b_1"; "0B11"; "0b2"] = [Some 1; Some 3; None]
  /\ map (Py.int_of 8) ["0o17"; "0O17"; "0o8"] = [Some 15; Some 15; None].
Proof. repeat split; reflexivity. Qed.

Example splitlines_samples :
  Py.splitlines ("a" +:+ Hil.crlf +:+ "b" +:+ Samples.nl +:+ Samples.nl +:+ "c" +:+ Samples.nl)
  = ["a"; "b"; ""; "c"]
  /\ Py.splitlines "" = []
  /\ Py.splitlines Samples.nl = [""].
Proof. repeat split; reflexivity. Qed.

Example split_samples :
  Py.split_ws1 "A   B  C" = ["A"; "B  C"]
  /\ Py.split_ws1 "A" = ["A"]
  /\ Py.split_char ":" "a:b:c" = ["a"; "b"; "c"]
  /\ Py.split_char ":" ":" = [""; ""]
  /\ Py.split_char "," "" = [""]
  /\ Py.strip "  x y  " = "x y"
  /\ Py.hex 255 = "0xff" /\ Py.hex (-5) = "-0x5" /\ Py.hex 0 = "0x0"
  /\ Py.str_of_int 16 = "16"
  /\ Py.slice_to (-1) [1; 2; 3] = [1; 2]
  /\ Py.slice_to 5 [1; 2; 3] = [1; 2; 3].
Proof. repeat split; reflexivity. Qed.

Example parse_number_samples :
  map Asm.parse_number ["0x1F"; "-0b101"; "0o17"; "'A'"; "'\n'"; "'\'"; "- 5"; "--5"; "+"; "12a"]
  = [Some 31; Some (-5); Some 15; Some 65; Some 10; Some 92; Some (-5); Some 5; None; None].
Proof. reflexivity. Qed.

(** The example of section 8: the four-instruction addition program. *)
Example assemble_add_program :
  Asm.assemble Samples.add_program = Ok [0x40; 10; 0x40; 20; 0x20; 0x01]
  /\ (exists st, Asm.assemble_state Samples.add_program = Ok st
                 /\ Asm.entry_point st = Asm.EntryInt 0).
Proof. split; [ reflexivity | eexists; split; reflexivity ]. Qed.

(** ** ISA table *)

(** A property checked on each of the 256 byte values holds of every
    byte. *)
Lemma byte_values_complete (b : Z) : 0 <= b <= 255 -> In b Spec.byte_values.
Proof.
  intros Hb. unfold Spec.byte_values.
  apply in_map_iff. exists (Z.to_nat b). split; [ lia | ].
  apply in_seq. lia.
Qed.

Lemma forallb_bytes (p : Z -> bool) :
  forallb p Spec.byte_values = true -> forall b, 0 <= b <= 255 -> p b = true.
Proof.
  intros Hall b Hb.
  exact (proj1 (forallb_forall p Spec.byte_values) Hall b (byte_values_complete b Hb)).
Qed.

Lemma opcode_names_value (op : ISA.Opcode) :
  ISA.opcode_names !! ISA.value op = Some (ISA.name op).
Proof. destruct op; vm_compute; reflexivity. Qed.

Lemma OPCODE_BY_NAME_name (op : ISA.Opcode) :
  ISA.OPCODE_BY_NAME !! ISA.name op = Some op.
Proof. destruct op; vm_compute; reflexivity. Qed.

Lemma operand_size_cases (op : ISA.Opcode) :
  ISA.OPERAND_SIZE op = 0 \/ ISA.OPERAND_SIZE op = 1
  \/ ISA.OPERAND_SIZE op = 2 \/ ISA.OPERAND_SIZE op = 4.
Proof. destruct op; vm_compute; auto. Qed.

Lemma get_operand_size_cases (opcode : Z) :
  ISA.get_operand_size opcode = 0 \/ ISA.get_operand_size opcode = 1
  \/ ISA.get_operand_size opcode = 2 \/ ISA.get_operand_size opcode = 4.
Proof.
  unfold ISA.get_operand_size.
  repeat match goal with |- context [if ?c then _ else _] => destruct c end; auto.
Qed.

(** C2. For every byte value the operand width is that of its numeric
    range (0 bytes below 0x40, 1 byte below 0x80, 2 bytes below 0xC0,
    4 bytes from 0xC0 on), except that it is 0 for RET (0x94) and for the
    seven type conversions 0xA0-0xA6, which lie in the 2-byte range; these
    are the only values where the width differs from that of the range. *)
Theorem get_operand_size_ranges (opcode : Z) :
  0 <= opcode <= 255 ->
  (opcode = 0x94 \/ 0xA0 <= opcode <= 0xA6 ->
     ISA.get_operand_size opcode = 0 /\ Spec.range_width opcode = 2)
  /\ (opcode <> 0x94 -> ~ (0xA0 <= opcode <= 0xA6) ->
        ISA.get_operand_size opcode = Spec.range_width opcode
        /\ (0x00 <= opcode <= 0x3F -> ISA.get_operand_size opcode = 0)
        /\ (0x40 <= opcode <= 0x7F -> ISA.get_operand_size opcode = 1)
        /\ (0x80 <= opcode <= 0xBF -> ISA.get_operand_size opcode = 2)
        /\ (0xC0 <= opcode <= 0xFF -> ISA.get_operand_size opcode = 4))
  /\ ISA.value ISA.RET = 0x94
  /\ map ISA.value [ISA.I2F; ISA.F2I; ISA.I2B; ISA.EXT8; ISA.EXT16; ISA.ZEXT8; ISA.ZEXT16]
     = [0xA0; 0xA1; 0xA2; 0xA3; 0xA4; 0xA5; 0xA6].
Proof.
  intros Hb.
  assert (Hq : opcode `div` 64 = 0 /\ opcode < 0x40
               \/ opcode `div` 64 = 1 /\ 0x40 <= opcode < 0x80
               \/ opcode `div` 64 = 2 /\ 0x80 <= opcode < 0xC0
               \/ opcode `div` 64 = 3 /\ 0xC0 <= opcode).
  { Z.div_mod_to_equations. lia. }
  unfold ISA.get_operand_size, Spec.range_width.
  repeat split; try reflexivity; intros;
    repeat match goal with
           | |- context [?a =? ?b] => destruct (Z.eqb_spec a b)
           | |- context [?a <=? ?b] => destruct (Z.leb_spec a b)
           | |- context [?a <? ?b] => destruct (Z.ltb_spec a b)
           end; simpl;
    destruct Hq as [[Hq ?]|[[Hq ?]|[[Hq ?]|[Hq ?]]]]; rewrite ?Hq; try reflexivity; lia.
Qed.

Lemma get_operand_size_ranges_witness :
  0 <= 0x94 <= 255 /\ ISA.get_operand_size 0x94 = 0 /\ ISA.get_operand_size 0x88 = 2.
Proof.
  split; [ lia | ].
  split.
  - destruct (get_operand_size_ranges 0x94 ltac:(lia)) as [Hexc _].
    apply Hexc. left. reflexivity.
  - destruct (get_operand_size_ranges 0x88 ltac:(lia)) as [_ [Hreg _]].
    apply Hreg; lia.
Defined.

(** On a byte that is no opcode the width is still a number: that of
    the numeric range of the byte, here 1 for 0x41 in the 8-bit range. *)
Lemma get_operand_size_unassigned_defaults :
  0 <= 0x41 <= 255
  /\ ISA.opcode_names !! 0x41 = None
  /\ (forall op, ISA.value op <> 0x41)
  /\ ISA.get_operand_size 0x41 = 1
  /\ Spec.range_width 0x41 = 1.
Proof.
  split; [ lia | ].
  split; [ vm_compute; reflexivity | ].
  split; [ intros op; destruct op; vm_compute; discriminate | ].
  split; reflexivity.
Qed.

(** One turn of the loop of the disassembler. *)
Lemma disassemble_loop_step (fuel : nat) (bytecode : list Z) (base_addr : Z) (pc : nat) :
  Asm.disassemble_loop (S fuel) bytecode base_addr pc
  = match bytecode !! pc with
    | None => []
    | Some opcode =>
        let addr := base_addr + Z.of_nat pc in
        match ISA.opcode_names !! opcode with
        | None => Asm.LUnknown addr opcode
                  :: Asm.disassemble_loop fuel bytecode base_addr (pc + 1)
        | Some name =>
            let operand_size := ISA.get_operand_size opcode in
            if Z.of_nat pc + operand_size >=? Z.of_nat (length bytecode) then
              [Asm.LTruncated addr name]
            else
              (if operand_size =? 0 then Asm.LPlain addr name
               else if operand_size =? 1 then
                 let operand := Asm.byte_at bytecode (pc + 1) in
                 if ISA.is_relative_jump opcode then
                   let signed_op := if operand <? 128 then operand else operand - 256 in
                   Asm.LRelative addr name signed_op (addr + 2 + signed_op)
                 else Asm.LOperand8 addr name operand
               else if operand_size =? 2 then
                 Asm.LOperand16 addr name (Asm.unpack_uint Asm.H bytecode (pc + 1))
               else Asm.LOperand32 addr name (Asm.unpack_uint Asm.I bytecode (pc + 1)))
              :: Asm.disassemble_loop fuel bytecode base_addr
                   (pc + Z.to_nat (1 + operand_size))
        end
    end.
Proof. reflexivity. Qed.

Lemma disassemble_loop_unknown (fuel : nat) (pre post : list Z) (b base_addr : Z) :
  ISA.opcode_names !! b = None ->
  Asm.disassemble_loop (S fuel) (pre ++ b :: post) base_addr (length pre)
  = Asm.LUnknown (base_addr + Z.of_nat (length pre)) b
    :: Asm.disassemble_loop fuel (pre ++ b :: post) base_addr (length pre + 1).
Proof.
  intros Hnone. rewrite disassemble_loop_step.
  rewrite list_lookup_middle by reflexivity.
  rewrite Hnone. reflexivity.
Qed.

(** C3, as the code has it.  [get_operand_size] is total and returns one
    of 0, 1, 2, 4 on every byte; on a byte that is no assigned opcode
    this is the width of the byte's numeric range.  The outcome "unknown"
    belongs to the disassembler: it looks the byte up in the table of
    opcode names before asking for a width, reports the single byte as
    unknown and goes on with the next one. *)
Theorem unassigned_opcode_outcome (b : Z) :
  0 <= b <= 255 ->
  ISA.opcode_names !! b = None ->
  ISA.get_operand_size b = Spec.range_width b
  /\ In (ISA.get_operand_size b) [0; 1; 2; 4]
  /\ forall fuel pre post base_addr,
       Asm.disassemble_loop (S fuel) (pre ++ b :: post) base_addr (length pre)
       = Asm.LUnknown (base_addr + Z.of_nat (length pre)) b
         :: Asm.disassemble_loop fuel (pre ++ b :: post) base_addr (length pre + 1).
Proof.
  intros Hb Hnone.
  split; [ | split ].
  - pose (p := fun b : Z =>
                 match ISA.opcode_names !! b with
                 | None => ISA.get_operand_size b =? Spec.range_width b
                 | Some _ => true
                 end).
    assert (Hp : p b = true).
    { apply forallb_bytes; [ vm_compute; reflexivity | exact Hb ]. }
    unfold p in Hp. rewrite Hnone in Hp. apply Z.eqb_eq. exact Hp.
  - destruct (get_operand_size_cases b) as [H|[H|[H|H]]]; rewrite H; simpl; auto.
  - intros fuel pre post base_addr. apply disassemble_loop_unknown. exact Hnone.
Qed.

Lemma unassigned_opcode_outcome_witness :
  ISA.get_operand_size 0x41 = Spec.range_width 0x41
  /\ Asm.disassemble_lines [0x41; 0x01] 0 = [Asm.LUnknown 0 0x41; Asm.LPlain 1 "HALT"].
Proof.
  assert (Hb : 0 <= 0x41 <= 255) by lia.
  assert (Hn : ISA.opcode_names !! 0x41 = None) by (vm_compute; reflexivity).
  destruct (unassigned_opcode_outcome 0x41 Hb Hn) as [Hw [_ Hdis]].
  split; [ exact Hw | ].
  etransitivity; [ exact (Hdis 1%nat [] [0x01] 0) | vm_compute; reflexivity ].
Defined.

(** ** Emission and disassembly *)

Lemma length_le_bytes (n : nat) (v : Z) : length (Asm.le_bytes n v) = n.
Proof. revert v. induction n as [|n IH]; intros v; simpl; [ | rewrite IH ]; reflexivity. Qed.

Lemma le_value_le_bytes (n : nat) (v : Z) :
  0 <= v < 2 ^ (8 * Z.of_nat n) -> Asm.le_value (Asm.le_bytes n v) = v.
Proof.
  revert v. induction n as [|n IH]; intros v Hv.
  - simpl in *. lia.
  - cbn [Asm.le_bytes Asm.le_value].
    replace (8 * Z.of_nat (S n)) with (8 + 8 * Z.of_nat n) in Hv by lia.
    rewrite Z.pow_add_r in Hv by lia.
    change (2 ^ 8) with 256 in Hv.
    rewrite IH.
    + pose proof (Z.div_mod v 256 ltac:(lia)). lia.
    + split; [ apply Z.div_pos; lia | apply Z.div_lt_upper_bound; lia ].
Qed.

Lemma land_mask (v : Z) (n : Z) :
  0 <= n -> Z.land v (Z.ones n) = v `mod` 2 ^ n /\ 0 <= Z.land v (Z.ones n) < 2 ^ n.
Proof.
  intros Hn. rewrite Z.land_ones by exact Hn.
  split; [ reflexivity | apply Z.mod_pos_bound; apply Z.pow_pos_nonneg; lia ].
Qed.

(** The masks of [emit_bytecode] keep [struct.pack] inside its range. *)
Lemma pack_uint_masked (v : Z) :
  Asm.pack_uint Asm.H (Z.land v 0xFFFF) = Ok (Asm.le_bytes Asm.H (Z.land v 0xFFFF))
  /\ Asm.pack_uint Asm.I (Z.land v 0xFFFFFFFF) = Ok (Asm.le_bytes Asm.I (Z.land v 0xFFFFFFFF)).
Proof.
  destruct (land_mask v 16 ltac:(lia)) as [_ H16].
  destruct (land_mask v 32 ltac:(lia)) as [_ H32].
  change (Z.ones 16) with 0xFFFF in H16. change (Z.ones 32) with 0xFFFFFFFF in H32.
  unfold Asm.pack_uint, Asm.H, Asm.I.
  change (2 ^ (8 * Z.of_nat 2)) with (2 ^ 16). change (2 ^ (8 * Z.of_nat 4)) with (2 ^ 32).
  split.
  - destruct (Z.leb_spec 0 (Z.land v 0xFFFF)), (Z.ltb_spec (Z.land v 0xFFFF) (2 ^ 16));
      try reflexivity; lia.
  - destruct (Z.leb_spec 0 (Z.land v 0xFFFFFFFF)),
      (Z.ltb_spec (Z.land v 0xFFFFFFFF) (2 ^ 32)); try reflexivity; lia.
Qed.

Lemma length_emit_instr (instr : Asm.Instruction) :
  length (Asm.emit_instr instr) = Z.to_nat (1 + ISA.OPERAND_SIZE (Asm.opcode instr)).
Proof.
  unfold Asm.emit_instr.
  destruct (operand_size_cases (Asm.opcode instr)) as [H|[H|[H|H]]]; rewrite H; reflexivity.
Qed.

Lemma byte_at_after (pre rest : list Z) (x b : Z) :
  Asm.byte_at (pre ++ x :: b :: rest) (length pre + 1) = b.
Proof.
  unfold Asm.byte_at.
  rewrite lookup_app_r by lia.
  replace (length pre + 1 - length pre)%nat with 1%nat by lia.
  reflexivity.
Qed.

Lemma unpack_uint_after (n : nat) (pre rest : list Z) (x v : Z) :
  0 <= v < 2 ^ (8 * Z.of_nat n) ->
  Asm.unpack_uint n (pre ++ x :: Asm.le_bytes n v ++ rest) (length pre + 1) = v.
Proof.
  intros Hv. unfold Asm.unpack_uint.
  replace (pre ++ x :: Asm.le_bytes n v ++ rest)
    with ((pre ++ [x]) ++ Asm.le_bytes n v ++ rest)
    by (rewrite <- app_assoc; reflexivity).
  rewrite drop_app_length' by (rewrite length_app; simpl; lia).
  rewrite take_app_length' by (symmetry; apply length_le_bytes).
  apply le_value_le_bytes. exact Hv.
Qed.

(** Decoding one emitted instruction: the disassembler prints the line
    expected for it and moves past its bytes. *)
Lemma disassemble_loop_instr (fuel : nat) (pre rest : list Z) (base_addr : Z)
    (instr : Asm.Instruction) :
  Asm.disassemble_loop (S fuel) (pre ++ Asm.emit_instr instr ++ rest) base_addr (length pre)
  = Spec.expected_line (base_addr + Z.of_nat (length pre)) instr
    :: Asm.disassemble_loop fuel (pre ++ Asm.emit_instr instr ++ rest) base_addr
         (length (pre ++ Asm.emit_instr instr)).
Proof.
  rewrite disassemble_loop_step.
  rewrite (length_app pre (Asm.emit_instr instr)), length_emit_instr.
  assert (Hlen : Z.of_nat (length (pre ++ Asm.emit_instr instr ++ rest))
                 = Z.of_nat (length pre) + 1 + ISA.OPERAND_SIZE (Asm.opcode instr)
                   + Z.of_nat (length rest)).
  { rewrite !length_app, length_emit_instr.
    destruct (operand_size_cases (Asm.opcode instr)) as [H|[H|[H|H]]]; rewrite H; lia. }
  rewrite Hlen. clear Hlen.
  unfold Asm.emit_instr, Spec.expected_line.
  set (v := default 0 (Asm.operand instr)).
  change (match Asm.operand instr with Some v0 => v0 | None => 0 end) with v.
  cbn [app].
  rewrite list_lookup_middle by reflexivity.
  rewrite opcode_names_value.
  cbv zeta.
  change (ISA.get_operand_size (ISA.value (Asm.opcode instr)))
    with (ISA.OPERAND_SIZE (Asm.opcode instr)).
  destruct (Z.geb_spec
              (Z.of_nat (length pre) + ISA.OPERAND_SIZE (Asm.opcode instr))
              (Z.of_nat (length pre) + 1 + ISA.OPERAND_SIZE (Asm.opcode instr)
               + Z.of_nat (length rest))) as [Hge|_]; [ lia | ].
  destruct (operand_size_cases (Asm.opcode instr)) as [H|[H|[H|H]]]; rewrite H;
    cbn [Z.eqb Pos.eqb app]; f_equal.
  - rewrite byte_at_after. reflexivity.
  - f_equal. apply unpack_uint_after.
    apply (land_mask v 16). lia.
  - f_equal. apply unpack_uint_after.
    apply (land_mask v 32). lia.
Qed.

(** Disassembling what was emitted for a list of instructions prints
    one expected line per instruction, wherever the bytes start. *)
Lemma disassemble_loop_emit (instrs : list Asm.Instruction) :
  forall (fuel : nat) (pre : list Z) (base_addr : Z),
    (length (Asm.emit_instrs instrs) <= fuel)%nat ->
    Asm.disassemble_loop fuel (pre ++ Asm.emit_instrs instrs) base_addr (length pre)
    = Spec.expected_lines (base_addr + Z.of_nat (length pre)) instrs.
Proof.
  induction instrs as [|instr rest IH]; intros fuel pre base_addr Hfuel.
  - cbn [Asm.emit_instrs flat_map Spec.expected_lines].
    rewrite app_nil_r.
    destruct fuel as [|fuel]; [ reflexivity | ].
    rewrite disassemble_loop_step.
    rewrite lookup_ge_None_2 by lia. reflexivity.
  - change (Asm.emit_instrs (instr :: rest))
      with (Asm.emit_instr instr ++ Asm.emit_instrs rest) in *.
    rewrite length_app, length_emit_instr in Hfuel.
    destruct fuel as [|fuel].
    { destruct (operand_size_cases (Asm.opcode instr)) as [H|[H|[H|H]]];
        rewrite H in Hfuel; simpl in Hfuel; lia. }
    rewrite disassemble_loop_instr.
    cbn [Spec.expected_lines]. f_equal.
    rewrite app_assoc.
    rewrite IH.
    + f_equal. rewrite length_app, length_emit_instr.
      destruct (operand_size_cases (Asm.opcode instr)) as [H|[H|[H|H]]]; rewrite H; lia.
    + destruct (operand_size_cases (Asm.opcode instr)) as [H|[H|[H|H]]];
        rewrite H in Hfuel; simpl in Hfuel; lia.
Qed.

Lemma line_entry_expected (addr : Z) (instr : Asm.Instruction) :
  Spec.line_entry (Spec.expected_line addr instr) = Some (Spec.instr_entry instr).
Proof.
  unfold Spec.expected_line, Spec.instr_entry.
  set (v := default 0 (Asm.operand instr)).
  destruct (land_mask v 8 ltac:(lia)) as [E8 B8].
  destruct (land_mask v 16 ltac:(lia)) as [E16 _].
  destruct (land_mask v 32 ltac:(lia)) as [E32 _].
  change (Z.ones 8) with 0xFF in *. change (Z.ones 16) with 0xFFFF in *.
  change (Z.ones 32) with 0xFFFFFFFF in *.
  destruct (operand_size_cases (Asm.opcode instr)) as [H|[H|[H|H]]]; rewrite H;
    cbn [Z.eqb Pos.eqb Z.mul Pos.mul]; cbv zeta.
  - reflexivity.
  - destruct (ISA.is_relative_jump _); cbn [Spec.line_entry].
    + do 3 f_equal. change (2 ^ (8 * 1)) with (2 ^ 8). rewrite <- E8.
      change (2 ^ 8) with 256 in B8.
      destruct (Z.ltb_spec (Z.land v 255) 128).
      * apply Z.mod_small. lia.
      * symmetry. apply (Z.mod_unique _ _ (-1)); lia.
    + change (2 ^ (8 * 1)) with (2 ^ 8). rewrite E8. reflexivity.
  - cbn [Spec.line_entry]. change (2 ^ (8 * 2)) with (2 ^ 16). rewrite E16. reflexivity.
  - cbn [Spec.line_entry]. change (2 ^ (8 * 4)) with (2 ^ 32). rewrite E32. reflexivity.
Qed.

Lemma line_entry_expected_lines (instrs : list Asm.Instruction) :
  forall addr,
    map Spec.line_entry (Spec.expected_lines addr instrs)
    = map (fun instr => Some (Spec.instr_entry instr)) instrs.
Proof.
  induction instrs as [|instr rest IH]; intros addr; [ reflexivity | ].
  cbn [Spec.expected_lines map]. rewrite line_entry_expected, IH. reflexivity.
Qed.

(** ** Pass 1 *)

Lemma set_address_twice (a b : Z) (st : Asm.ZPLCAssembler) :
  Asm.set_address a (Asm.set_address b st) = Asm.set_address a st.
Proof. reflexivity. Qed.

Lemma define_bytes_ok (vals : list string) :
  forall st,
    Spec.values_parse vals ->
    Asm.define_bytes vals st
    = Ok (Asm.set_address (Asm.current_address st + Z.of_nat (length vals)) st).
Proof.
  induction vals as [|val_str rest IH]; intros st Hall.
  - destruct st. unfold Asm.set_address. simpl. rewrite Z.add_0_r. reflexivity.
  - inversion Hall as [|? ? [v Hv] Hrest]; subst.
    cbn [Asm.define_bytes]. rewrite Hv.
    rewrite IH by exact Hrest.
    rewrite set_address_twice. f_equal. f_equal.
    cbn [Asm.set_address Asm.current_address length]. lia.
Qed.

Lemma define_bytes_inv (vals : list string) :
  forall st st', Asm.define_bytes vals st = Ok st' -> Spec.values_parse vals.
Proof.
  induction vals as [|val_str rest IH]; intros st st' Hok.
  - constructor.
  - cbn [Asm.define_bytes] in Hok.
    destruct (Asm.parse_number (Py.strip val_str)) as [v|] eqn:Hv; [ | discriminate ].
    constructor; [ exists v; exact Hv | eapply IH; exact Hok ].
Qed.

Lemma define_bytes_is_ok (vals : list string) (st st' : Asm.ZPLCAssembler) :
  is_ok (Asm.define_bytes vals st) = is_ok (Asm.define_bytes vals st').
Proof.
  revert st st'. induction vals as [|val_str rest IH]; intros st st'; [ reflexivity | ].
  cbn [Asm.define_bytes].
  destruct (Asm.parse_number (Py.strip val_str)); [ apply IH | reflexivity ].
Qed.

Lemma handle_directive_inv (directive operand : string) (ln : Z)
    (st st' : Asm.ZPLCAssembler) :
  Asm.handle_directive directive operand ln st = Ok st' ->
  Asm.instructions st' = Asm.instructions st /\ Asm.labels st' = Asm.labels st.
Proof.
  unfold Asm.handle_directive. intros Hok.
  repeat case_match; simplify_eq; try (split; reflexivity).
  pose proof (define_bytes_inv _ _ _ Hok) as Hall.
  rewrite (define_bytes_ok _ st Hall) in Hok. simplify_eq. split; reflexivity.
Qed.

Lemma handle_directive_is_ok (directive operand : string) (ln ln' : Z)
    (st st' : Asm.ZPLCAssembler) :
  is_ok (Asm.handle_directive directive operand ln st)
  = is_ok (Asm.handle_directive directive operand ln' st').
Proof.
  unfold Asm.handle_directive.
  repeat case_match; try reflexivity.
  apply define_bytes_is_ok.
Qed.

Lemma handle_directive_err (directive operand : string) (ln : Z)
    (st : Asm.ZPLCAssembler) (e : Asm.AssemblerError) :
  Asm.handle_directive directive operand ln st = Err (Asm.AsmError e) ->
  Spec.is_syntax_error (Asm.err_kind e) = true /\ Asm.err_line_num e = ln.
Proof.
  unfold Asm.handle_directive. intros Herr.
  repeat case_match; simplify_eq; try (split; reflexivity).
  exfalso. revert st Herr.
  generalize (Py.split_char "," operand) as vals.
  induction vals as [|v rest IH]; intros st Herr; cbn [Asm.define_bytes] in Herr.
  - discriminate.
  - destruct (Asm.parse_number (Py.strip v)); [ eapply IH; exact Herr | discriminate ].
Qed.

Lemma is_identifier_nonempty (s : string) :
  Asm.is_identifier s = true -> Asm.is_empty s = false.
Proof. destruct s; [ discriminate | reflexivity ]. Qed.

Lemma parse_operand_label (operand_str : string) (ln : Z) (op : ISA.Opcode)
    (v : option Z) (l : string) :
  Asm.parse_operand operand_str ln op = Ok (v, Some l) ->
  Asm.is_identifier l = true /\ v = None.
Proof.
  unfold Asm.parse_operand. intros Hok.
  repeat case_match; simplify_eq. split; [ assumption | reflexivity ].
Qed.

(** What a successful statement does to the assembler: a directive
    leaves instructions and labels alone, an instruction is appended at
    the current address. *)
Lemma parse_statement_inv (line : string) (ln : Z) (st st' : Asm.ZPLCAssembler) :
  Asm.parse_statement line ln st = Ok st' ->
  Asm.labels st' = Asm.labels st
  /\ (Asm.instructions st' = Asm.instructions st
      \/ exists instr,
           Asm.instructions st' = Asm.instructions st ++ [instr]
           /\ Spec.label_wf instr
           /\ Asm.address instr = Asm.current_address st
           /\ Asm.line_num instr = ln).
Proof.
  unfold Asm.parse_statement. intros Hok.
  destruct (Py.split_ws1 line) as [|part0 parts]; [ discriminate | ].
  destruct (Py.startswith "." (Py.upper part0)).
  { apply handle_directive_inv in Hok. destruct Hok as [Hi Hl]. auto. }
  destruct (ISA.OPCODE_BY_NAME !! Py.upper part0) as [op|]; [ | discriminate ].
  match type of Hok with
  | mbind _ ?r = _ => destruct r as [[v l]|e] eqn:Hoperand; [ | discriminate ]
  end.
  cbn in Hok. simplify_eq. cbn.
  split; [ reflexivity | ].
  right. eexists. split; [ reflexivity | ].
  split; [ | split; reflexivity ].
  intros l' Hl'. cbn in Hl'. subst l.
  repeat case_match; simplify_eq.
  apply parse_operand_label in Hoperand. destruct Hoperand as [Hid _].
  apply is_identifier_nonempty. exact Hid.
Qed.

Lemma parse_statement_is_ok (line : string) (ln ln' : Z) (st st' : Asm.ZPLCAssembler) :
  is_ok (Asm.parse_statement line ln st) = is_ok (Asm.parse_statement line ln' st').
Proof.
  unfold Asm.parse_statement.
  destruct (Py.split_ws1 line) as [|part0 parts]; [ reflexivity | ].
  destruct (Py.startswith "." (Py.upper part0)); [ apply handle_directive_is_ok | ].
  destruct (ISA.OPCODE_BY_NAME !! Py.upper part0) as [op|]; [ | reflexivity ].
  unfold Asm.parse_operand.
  repeat case_match; reflexivity.
Qed.

Lemma parse_statement_err (line : string) (ln : Z) (st : Asm.ZPLCAssembler)
    (e : Asm.AssemblerError) :
  Asm.parse_statement line ln st = Err (Asm.AsmError e) ->
  Spec.is_syntax_error (Asm.err_kind e) = true /\ Asm.err_line_num e = ln.
Proof.
  unfold Asm.parse_statement. intros Herr.
  destruct (Py.split_ws1 line) as [|part0 parts]; [ discriminate | ].
  destruct (Py.startswith "." (Py.upper part0));
    [ eapply handle_directive_err; exact Herr | ].
  destruct (ISA.OPCODE_BY_NAME !! Py.upper part0) as [op|];
    [ | simplify_eq; split; reflexivity ].
  unfold Asm.parse_operand in Herr.
  repeat case_match; cbn in Herr; simplify_eq; split; reflexivity.
Qed.

Lemma parse_line_inv (line : string) (ln : Z) (st st' : Asm.ZPLCAssembler) :
  Asm.parse_line line ln st = Ok st' ->
  Asm.instructions st' = Asm.instructions st
  \/ exists instr,
       Asm.instructions st' = Asm.instructions st ++ [instr]
       /\ Spec.label_wf instr
       /\ Asm.address instr = Asm.current_address st
       /\ Asm.line_num instr = ln.
Proof.
  unfold Asm.parse_line. intros Hok.
  destruct (Asm.is_empty (Py.strip (Asm.strip_comment line))); [ simplify_eq; auto | ].
  destruct (Asm.match_label (Py.strip (Asm.strip_comment line))) as [[group1 after]|].
  - destruct (Asm.labels st !! Py.upper group1); [ discriminate | ].
    destruct (Asm.is_empty (Py.strip after)); [ simplify_eq; auto | ].
    apply parse_statement_inv in Hok. destruct Hok as [_ Hok]. exact Hok.
  - apply parse_statement_inv in Hok. destruct Hok as [_ Hok]. exact Hok.
Qed.

(** A line that parses in some assembler parses on its own. *)
Lemma parse_line_ok_alone (line : string) (ln : Z) (st st' : Asm.ZPLCAssembler) :
  Asm.parse_line line ln st = Ok st' -> Spec.has_syntax_error line = false.
Proof.
  unfold Spec.has_syntax_error, Asm.parse_lines, Asm.parse_line.
  intros Hok.
  destruct (Asm.is_empty (Py.strip (Asm.strip_comment line))); [ reflexivity | ].
  destruct (Asm.match_label (Py.strip (Asm.strip_comment line))) as [[group1 after]|].
  - destruct (Asm.labels st !! Py.upper group1); [ discriminate | ].
    change (Asm.labels Asm.init) with (∅ : gmap string Asm.Label).
    rewrite lookup_empty.
    destruct (Asm.is_empty (Py.strip after)); [ reflexivity | ].
    match goal with
    | |- context [Asm.parse_statement ?l ?n ?s] =>
        pose proof (parse_statement_is_ok l ln n st' s) as Hsame;
        pose proof (parse_statement_is_ok l ln n
                      {| Asm.instructions := Asm.instructions st;
                         Asm.labels := <[Py.upper group1 :=
                                           Asm.mkLabel (Py.upper group1)
                                             (Asm.current_address st) ln]> (Asm.labels st);
                         Asm.entry_point := Asm.entry_point st;
                         Asm.current_address := Asm.current_address st |} s) as Hsame';
        rewrite Hok in Hsame'; destruct (Asm.parse_statement l n s);
        [ reflexivity | discriminate ]
    end.
  - match goal with
    | |- context [Asm.parse_statement ?l ?n ?s] =>
        pose proof (parse_statement_is_ok l ln n st s) as Hsame;
        rewrite Hok in Hsame; destruct (Asm.parse_statement l n s);
        [ reflexivity | discriminate ]
    end.
Qed.

(** The errors of pass 1 carry the number of the line they are raised
    on, and are a syntax error or a duplicate label. *)
Lemma parse_line_err (line : string) (ln : Z) (st : Asm.ZPLCAssembler)
    (e : Asm.AssemblerError) :
  Asm.parse_line line ln st = Err (Asm.AsmError e) ->
  Asm.err_line_num e = ln
  /\ Spec.is_resolve_error (Asm.err_kind e) = false.
Proof.
  unfold Asm.parse_line. intros Herr.
  destruct (Asm.is_empty (Py.strip (Asm.strip_comment line))); [ discriminate | ].
  destruct (Asm.match_label (Py.strip (Asm.strip_comment line))) as [[group1 after]|].
  - destruct (Asm.labels st !! Py.upper group1); [ simplify_eq; split; reflexivity | ].
    destruct (Asm.is_empty (Py.strip after)); [ discriminate | ].
    apply parse_statement_err in Herr. destruct Herr as [Hk Hn].
    split; [ exact Hn | destruct (Asm.err_kind e); try discriminate; reflexivity ].
  - apply parse_statement_err in Herr. destruct Herr as [Hk Hn].
    split; [ exact Hn | destruct (Asm.err_kind e); try discriminate; reflexivity ].
Qed.

Lemma parse_lines_ok (lines : list string) :
  forall ln st st',
    Asm.parse_lines lines ln st = Ok st' ->
    Spec.no_syntax_errors lines
    /\ (Forall Spec.label_wf (Asm.instructions st) -> Forall Spec.label_wf (Asm.instructions st')).
Proof.
  induction lines as [|line rest IH]; intros ln st st' Hok; cbn [Asm.parse_lines] in Hok.
  - simplify_eq. split; [ constructor | auto ].
  - destruct (Asm.parse_line line ln st) as [st1|[e| | | |]] eqn:Hline; try discriminate.
    destruct (IH _ _ _ Hok) as [Hrest Hwf].
    split.
    + constructor; [ eapply parse_line_ok_alone; exact Hline | exact Hrest ].
    + intros Hst. apply Hwf.
      destruct (parse_line_inv _ _ _ _ Hline) as [-> | (instr & -> & Hi & _)];
        [ exact Hst | ].
      apply Forall_app. split; [ exact Hst | constructor; [ exact Hi | constructor ] ].
Qed.

Lemma parse_lines_err (lines : list string) :
  forall ln st e,
    Asm.parse_lines lines ln st = Err e ->
    Spec.is_resolve_error (Asm.err_kind e) = false
    /\ exists before line after,
         lines = before ++ line :: after
         /\ Spec.no_syntax_errors before
         /\ Asm.err_line_num e = ln + Z.of_nat (length before).
Proof.
  induction lines as [|line rest IH]; intros ln st e Herr; cbn [Asm.parse_lines] in Herr.
  - discriminate.
  - destruct (Asm.parse_line line ln st) as [st1|x] eqn:Hline.
    + destruct (IH _ _ _ Herr) as [Hk (before & l & after & -> & Hbefore & Hn)].
      split; [ exact Hk | ].
      exists (line :: before), l, after.
      split; [ reflexivity | ].
      split; [ constructor; [ eapply parse_line_ok_alone; exact Hline | exact Hbefore ] | ].
      cbn [length]. lia.
    + assert (Hhere : Asm.err_line_num e = ln
                      /\ Spec.is_resolve_error (Asm.err_kind e) = false).
      { destruct x as [e0| | | |]; simplify_eq;
          [ eapply parse_line_err; exact Hline | split; reflexivity .. ]. }
      destruct Hhere as [Hn Hk].
      split; [ exact Hk | ].
      exists [], line, rest.
      split; [ reflexivity | ]. split; [ constructor | ].
      cbn [length]. lia.
Qed.

(** ** Pass 2 *)




(** Pass 2 resolves the instructions one by one, in place. *)
Lemma resolve_instrs_lookup (lbls : gmap string Asm.Label) (instrs : list Asm.Instruction) :
  forall instrs' (i : nat) instr,
    Asm.resolve_instrs lbls instrs = Ok instrs' ->
    instrs !! i = Some instr ->
    exists instr', instrs' !! i = Some instr' /\ Asm.resolve_instr lbls instr = Ok instr'.
Proof.
  induction instrs as [|x rest IH]; intros instrs' i instr Hok Hi.
  - discriminate.
  - cbn [Asm.resolve_instrs] in Hok.
    destruct (Asm.resolve_instr lbls x) as [x'|] eqn:Hx; cbn in Hok; [ | discriminate ].
    destruct (Asm.resolve_instrs lbls rest) as [rest'|] eqn:Hrest; cbn in Hok;
      [ | discriminate ].
    simplify_eq.
    destruct i as [|i]; cbn in Hi.
    + simplify_eq. exists x'. split; [ reflexivity | exact Hx ].
    + destruct (IH rest' i instr eq_refl Hi) as (instr' & Hl & Hr).
      exists instr'. split; [ exact Hl | exact Hr ].
Qed.

Lemma resolve_instrs_fails (lbls : gmap string Asm.Label) (instrs : list Asm.Instruction) :
  forall (i : nat) instr e,
    instrs !! i = Some instr ->
    Asm.resolve_instr lbls instr = Err e ->
    exists e', Asm.resolve_instrs lbls instrs = Err e'.
Proof.
  induction instrs as [|x rest IH]; intros i instr e Hi He.
  - discriminate.
  - cbn [Asm.resolve_instrs].
    destruct i as [|i]; cbn in Hi.
    + simplify_eq. rewrite He. eexists. reflexivity.
    + destruct (Asm.resolve_instr lbls x) as [x'|e0]; cbn; [ | eexists; reflexivity ].
      destruct (IH i instr e Hi He) as [e' ->]. cbn. eexists. reflexivity.
Qed.

Lemma parse_line_labels (line : string) (ln : Z) (st st' : Asm.ZPLCAssembler) :
  Asm.parse_line line ln st = Ok st' ->
  forall label_name label,
    Asm.labels st' !! label_name = Some label ->
    Asm.labels st !! label_name = Some label
    \/ Asm.lbl_address label = Asm.current_address st.
Proof.
  unfold Asm.parse_line. intros Hok label_name label Hl.
  destruct (Asm.is_empty (Py.strip (Asm.strip_comment line))); [ simplify_eq; auto | ].
  destruct (Asm.match_label (Py.strip (Asm.strip_comment line))) as [[group1 after]|].
  - destruct (Asm.labels st !! Py.upper group1); [ discriminate | ].
    assert (Hins : (<[Py.upper group1 :=
                        Asm.mkLabel (Py.upper group1) (Asm.current_address st) ln]>
                      (Asm.labels st)) !! label_name = Some label).
    { destruct (Asm.is_empty (Py.strip after)); [ simplify_eq; exact Hl | ].
      apply parse_statement_inv in Hok. destruct Hok as [Hlabels _].
      rewrite Hlabels in Hl. exact Hl. }
    destruct (decide (Py.upper group1 = label_name)) as [Heq|Hne].
    + subst label_name. rewrite lookup_insert_eq in Hins. simplify_eq. right. reflexivity.
    + rewrite lookup_insert_ne in Hins by exact Hne. left. exact Hins.
  - apply parse_statement_inv in Hok. destruct Hok as [Hlabels _].
    rewrite Hlabels in Hl. left. exact Hl.
Qed.

(** C9. A [.DB] or [.BYTE] directive whose operand splits at the commas
    into n values succeeds exactly when every value is a number, and then
    moves the address cursor forward by n and changes nothing else: no
    instruction is recorded, so the emitted bytes, and their number, are
    what they were without the directive, while the instruction or label
    of the next line is placed n bytes further. *)
Theorem db_advances_without_emitting (directive operand : string) (ln : Z)
    (st : Asm.ZPLCAssembler) :
  directive = ".DB" \/ directive = ".BYTE" ->
  let values := Py.split_char "," operand in
  let n := Z.of_nat (length values) in
  (Spec.values_parse values ->
   Asm.handle_directive directive operand ln st
   = Ok (Asm.set_address (Asm.current_address st + n) st))
  /\ forall st',
       Asm.handle_directive directive operand ln st = Ok st' ->
       Spec.values_parse values
       /\ Asm.current_address st' = Asm.current_address st + n
       /\ Asm.instructions st' = Asm.instructions st
       /\ Asm.labels st' = Asm.labels st
       /\ Asm.emit_bytecode st' = Asm.emit_bytecode st
       /\ forall line ln' st'',
            Asm.parse_line line ln' st' = Ok st'' ->
            (forall instr,
               Asm.instructions st'' = Asm.instructions st ++ [instr] ->
               Asm.address instr = Asm.current_address st + n)
            /\ (forall label_name label,
                  Asm.labels st'' !! label_name = Some label ->
                  Asm.labels st !! label_name = Some label
                  \/ Asm.lbl_address label = Asm.current_address st + n).
Proof.
  intros Hdir values n.
  assert (Hdef : Asm.handle_directive directive operand ln st = Asm.define_bytes values st).
  { destruct Hdir as [-> | ->]; reflexivity. }
  rewrite Hdef. clear Hdef.
  split; [ intros Hall; apply define_bytes_ok; exact Hall | ].
  intros st' Hok.
  pose proof (define_bytes_inv _ _ _ Hok) as Hall.
  rewrite (define_bytes_ok _ st Hall) in Hok. injection Hok as <-.
  split; [ exact Hall | ].
  repeat (split; [ reflexivity | ]).
  intros line ln' st'' Hline. split.
  - intros instr Hinstr.
    destruct (parse_line_inv _ _ _ _ Hline) as [Hsame | (instr0 & Happ & _ & Haddr & _)].
    + cbn in Hsame. rewrite Hsame in Hinstr.
      apply (f_equal length) in Hinstr. rewrite length_app in Hinstr.
      cbn in Hinstr. lia.
    + cbn in Happ. rewrite Happ in Hinstr.
      apply app_inj_tail in Hinstr. destruct Hinstr as [_ <-]. exact Haddr.
  - intros label_name label Hl.
    exact (parse_line_labels _ _ _ _ Hline label_name label Hl).
Qed.

Lemma db_advances_without_emitting_witness :
  Asm.handle_directive ".DB" "1, 2, 3" 2 Asm.init = Ok (Asm.set_address 3 Asm.init)
  /\ Asm.emit_bytecode (Asm.set_address 3 Asm.init) = Asm.emit_bytecode Asm.init
  /\ Asm.assemble Samples.db_program = Ok [0x40; 1; 0x90; 5; 0].
Proof.
  split; [ | split; vm_compute; reflexivity ].
  apply (db_advances_without_emitting ".DB" "1, 2, 3" 2 Asm.init (or_introl eq_refl)).
  repeat constructor; vm_compute; eexists; reflexivity.
Defined.

(** C4. In a parsed program, take a relative branch (JR, JRZ, JRNZ)
    whose operand is a label defined at [target].  With
    offset = target - (address + 2): when the offset lies in [-128,127]
    pass 2 gives the instruction the operand [offset & 0xFF], the byte
    that reads back as the signed value offset, and a successful assembly
    holds that operand at the instruction's place; when the offset lies
    outside, resolving the instruction raises the out-of-range error and
    the whole assembly fails, so no truncated offset is ever emitted. *)
Theorem relative_branch_offset (source : string) (st1 : Asm.ZPLCAssembler)
    (i : nat) (instr : Asm.Instruction) (l : string) (label : Asm.Label) :
  Asm.parse_lines (Py.splitlines source) 1 Asm.init = Ok st1 ->
  Asm.instructions st1 !! i = Some instr ->
  ISA.is_relative_jump (ISA.value (Asm.opcode instr)) = true ->
  Asm.operand_label instr = Some l ->
  Asm.labels st1 !! Py.upper l = Some label ->
  let offset := Asm.lbl_address label - (Asm.address instr + 2) in
  (-128 <= offset <= 127 ->
   Asm.resolve_instr (Asm.labels st1) instr = Ok (Asm.set_operand (Z.land offset 0xFF) instr)
   /\ Spec.signed_byte (Z.land offset 0xFF) = offset
   /\ forall st2,
        Asm.assemble_state source = Ok st2 ->
        Asm.instructions st2 !! i = Some (Asm.set_operand (Z.land offset 0xFF) instr))
  /\ (offset < -128 \/ 127 < offset ->
      Asm.resolve_instr (Asm.labels st1) instr
      = Err (Asm.mkError (Asm.RelativeOutOfRange (Py.upper l) offset) (Asm.line_num instr) "")
      /\ exists e, Asm.assemble source = Err e).
Proof.
  intros Hparse Hi Hrel Hl Hlabel offset.
  assert (Hwf : Asm.is_empty l = false).
  { destruct (parse_lines_ok _ _ _ _ Hparse) as [_ Hwf].
    specialize (Hwf ltac:(constructor)).
    rewrite Forall_lookup in Hwf. exact (Hwf i instr Hi l Hl). }
  assert (Hres : Asm.resolve_instr (Asm.labels st1) instr
                 = if (offset <? -128) || (offset >? 127)
                   then Err (Asm.mkError (Asm.RelativeOutOfRange (Py.upper l) offset)
                               (Asm.line_num instr) "")
                   else Ok (Asm.set_operand (Z.land offset 0xFF) instr)).
  { unfold Asm.resolve_instr. rewrite Hl, Hwf, Hlabel, Hrel. reflexivity. }
  split.
  - intros Hin.
    assert (Hok : Asm.resolve_instr (Asm.labels st1) instr
                  = Ok (Asm.set_operand (Z.land offset 0xFF) instr)).
    { rewrite Hres.
      destruct (Z.ltb_spec offset (-128)); [ lia | ].
      destruct (Z.gtb_spec offset 127); [ lia | reflexivity ]. }
    split; [ exact Hok | ]. split.
    + unfold Spec.signed_byte.
      destruct (land_mask offset 8 ltac:(lia)) as [E8 B8].
      change (Z.ones 8) with 0xFF in *. change (2 ^ 8) with 256 in *.
      destruct (Z.ltb_spec (Z.land offset 255) 128) as [Hlt|Hge].
      * rewrite E8 in *. destruct (Z.le_gt_cases 0 offset).
        -- apply Z.mod_small. lia.
        -- rewrite <- (Z.mod_unique offset 256 (-1) (offset + 256)) in Hlt; lia.
      * rewrite E8 in *. destruct (Z.le_gt_cases 0 offset).
        -- rewrite Z.mod_small in Hge by lia. lia.
        -- rewrite <- (Z.mod_unique offset 256 (-1) (offset + 256)); lia.
    + intros st2 Hst2. unfold Asm.assemble_state in Hst2.
      rewrite Hparse in Hst2. cbn in Hst2. unfold Asm.resolve_labels in Hst2.
      destruct (Asm.resolve_instrs (Asm.labels st1) (Asm.instructions st1))
        as [instrs|] eqn:Hinstrs; cbn in Hst2; [ | discriminate ].
      destruct (resolve_instrs_lookup _ _ _ _ _ Hinstrs Hi) as (instr' & Hl' & Hr').
      rewrite Hok in Hr'. injection Hr' as <-.
      repeat case_match; cbn in Hst2; simplify_eq; exact Hl'.
  - intros Hout.
    assert (Herr : Asm.resolve_instr (Asm.labels st1) instr
                   = Err (Asm.mkError (Asm.RelativeOutOfRange (Py.upper l) offset)
                            (Asm.line_num instr) "")).
    { rewrite Hres.
      destruct (Z.ltb_spec offset (-128)); [ reflexivity | ].
      destruct (Z.gtb_spec offset 127); [ reflexivity | lia ]. }
    split; [ exact Herr | ].
    destruct (resolve_instrs_fails _ _ _ _ _ Hi Herr) as [e' He'].
    unfold Asm.assemble, Asm.assemble_state. rewrite Hparse. cbn.
    unfold Asm.resolve_labels. rewrite He'. cbn. eexists. reflexivity.
Qed.

Lemma relative_branch_offset_witness :
  (exists e, Asm.assemble Samples.far_jump_program = Err e)
  /\ Asm.resolve_instr (Asm.labels Samples.loop_parsed)
       (Asm.mkInstruction ISA.JR None (Some "loop") 2 1)
     = Ok (Asm.mkInstruction ISA.JR (Some 0xFD) (Some "loop") 2 1)
  /\ Spec.signed_byte 0xFD = -3.
Proof.
  split.
  - assert (Hparse : Asm.parse_lines (Py.splitlines Samples.far_jump_program) 1 Asm.init
                     = Ok Samples.far_jump_parsed) by (vm_compute; reflexivity).
    destruct (relative_branch_offset Samples.far_jump_program Samples.far_jump_parsed
                0%nat (Asm.mkInstruction ISA.JR None (Some "far") 1 0) "far"
                (Asm.mkLabel "FAR" 1000 3) Hparse eq_refl eq_refl eq_refl
                ltac:(vm_compute; reflexivity)) as [_ Hout].
    apply Hout. right. vm_compute. reflexivity.
  - assert (Hparse : Asm.parse_lines (Py.splitlines Samples.loop_program) 1 Asm.init
                     = Ok Samples.loop_parsed) by (vm_compute; reflexivity).
    destruct (relative_branch_offset Samples.loop_program Samples.loop_parsed
                1%nat (Asm.mkInstruction ISA.JR None (Some "loop") 2 1) "loop"
                (Asm.mkLabel "LOOP" 0 1) Hparse eq_refl eq_refl eq_refl
                ltac:(vm_compute; reflexivity)) as [Hin _].
    destruct Hin as (Hres & Hsigned & _); [ vm_compute; split; discriminate | ].
    split; [ exact Hres | exact Hsigned ].
Defined.

(** ** Order of the errors *)




(** ** Module encoder *)

Lemma pack_uint_ok (n : nat) (v : Z) :
  0 <= v < 2 ^ (8 * Z.of_nat n) -> Asm.pack_uint n v = Ok (Asm.le_bytes n v).
Proof.
  intros Hv. unfold Asm.pack_uint.
  destruct (Z.leb_spec 0 v); [ | lia ].
  destruct (Z.ltb_spec v (2 ^ (8 * Z.of_nat n))); [ reflexivity | lia ].
Qed.

(** An entry point that does not fit the 16-bit field of the header
    makes [struct.pack] raise: no module is returned.  The assembler gets
    into that state from a one-line source. *)
Lemma create_zplc_file_entry_out_of_range :
  Asm.assemble_state ".ENTRY 0x10000" = Ok (Asm.set_entry (Asm.EntryInt 65536) Asm.init)
  /\ Asm.assemble ".ENTRY 0x10000" = Ok []
  /\ Asm.create_zplc_file (Asm.set_entry (Asm.EntryInt 65536) Asm.init) []
     = Err Asm.StructError.
Proof. repeat split; vm_compute; reflexivity. Qed.

(** C5, as the code has it.  For bytecode shorter than 2^32 bytes and
    an entry point in [0,65535] (a name still unresolved counts as 0),
    the module encoder returns the 32-byte little-endian header (magic,
    version 1.0, flags 0, checksum 0, code size, data size 0, entry point,
    one segment, reserved 0), then the 8-byte segment entry (type 1,
    flags 0, code size), then the bytecode.  The result depends on the
    bytecode and the entry point only, so encoding twice gives the same
    bytes, and the checksum field is always 0. *)
Theorem create_zplc_file_layout (st : Asm.ZPLCAssembler) (bytecode : list Z) :
  Z.of_nat (length bytecode) < 2 ^ 32 ->
  0 <= Spec.entry_value st <= 65535 ->
  let code_size := Z.of_nat (length bytecode) in
  let header := Spec.module_header code_size (Spec.entry_value st) in
  let segment_entry := Spec.module_segment_entry code_size in
  Asm.create_zplc_file st bytecode = Ok (header ++ segment_entry ++ bytecode)
  /\ length header = 32%nat
  /\ length segment_entry = 8%nat
  /\ take 4 (drop 12 header) = [0; 0; 0; 0]
  /\ Asm.le_value (take 4 header) = ISA.ZPLC_MAGIC
  /\ forall st',
       Spec.entry_value st' = Spec.entry_value st ->
       Asm.create_zplc_file st' bytecode = Asm.create_zplc_file st bytecode.
Proof.
  intros Hlen Hentry code_size header segment_entry.
  assert (Hcs : 0 <= code_size < 2 ^ (8 * Z.of_nat Asm.I)).
  { change (2 ^ (8 * Z.of_nat Asm.I)) with (2 ^ 32). unfold code_size. lia. }
  assert (He : 0 <= Spec.entry_value st < 2 ^ (8 * Z.of_nat Asm.H)).
  { change (2 ^ (8 * Z.of_nat Asm.H)) with 65536. lia. }
  assert (Hheader : Asm.struct_pack
                      [(Asm.I, ISA.ZPLC_MAGIC); (Asm.H, ISA.ZPLC_VERSION_MAJOR);
                       (Asm.H, ISA.ZPLC_VERSION_MINOR); (Asm.I, 0); (Asm.I, 0);
                       (Asm.I, code_size); (Asm.I, 0); (Asm.H, Spec.entry_value st);
                       (Asm.H, 1); (Asm.I, 0)]
                    = Ok header).
  { cbn [Asm.struct_pack].
    rewrite !pack_uint_ok
      by first [ exact Hcs | exact He | vm_compute; split; [ discriminate | reflexivity ] ].
    cbn [mbind result_mbind rbind]. reflexivity. }
  assert (Hseg : Asm.struct_pack [(Asm.H, 0x01); (Asm.H, 0); (Asm.I, code_size)]
                 = Ok segment_entry).
  { cbn [Asm.struct_pack].
    rewrite !pack_uint_ok
      by first [ exact Hcs | vm_compute; split; [ discriminate | reflexivity ] ].
    cbn [mbind result_mbind rbind]. rewrite app_nil_r. reflexivity. }
  assert (Hhl : length header = 32%nat).
  { unfold header, Spec.module_header. rewrite !length_app, !length_le_bytes. reflexivity. }
  assert (Hsl : length segment_entry = 8%nat).
  { unfold segment_entry, Spec.module_segment_entry.
    rewrite !length_app, !length_le_bytes. reflexivity. }
  assert (Hfile : forall st', Spec.entry_value st' = Spec.entry_value st ->
                    Asm.create_zplc_file st' bytecode
                    = Ok (header ++ segment_entry ++ bytecode)).
  { intros st' Hsame. unfold Asm.create_zplc_file.
    change (match Asm.entry_point st' with
            | Asm.EntryInt n => n
            | Asm.EntryStr _ => 0
            end) with (Spec.entry_value st').
    rewrite Hsame.
    fold code_size. rewrite Hheader. cbn [mbind result_mbind rbind].
    rewrite Hhl. cbn [Z.of_nat Pos.of_succ_nat Pos.succ Z.eqb Pos.eqb negb].
    rewrite Hseg. cbn [mbind result_mbind rbind].
    rewrite Hsl. reflexivity. }
  split; [ apply Hfile; reflexivity | ].
  split; [ exact Hhl | ]. split; [ exact Hsl | ].
  split; [ reflexivity | ]. split; [ reflexivity | ].
  intros st' Hsame. rewrite (Hfile st' Hsame), (Hfile st eq_refl). reflexivity.
Qed.

Lemma create_zplc_file_layout_witness :
  Asm.create_zplc_file Asm.init [0x40; 10; 0x01]
  = Ok ([0x5A; 0x50; 0x4C; 0x43; 1; 0; 0; 0; 0; 0; 0; 0; 0; 0; 0; 0;
         3; 0; 0; 0; 0; 0; 0; 0; 0; 0; 1; 0; 0; 0; 0; 0]
        ++ [1; 0; 0; 0; 3; 0; 0; 0] ++ [0x40; 10; 0x01]).
Proof.
  destruct (create_zplc_file_layout Asm.init [0x40; 10; 0x01]) as [Hfile _].
  - vm_compute. reflexivity.
  - vm_compute. split; discriminate.
  - exact Hfile.
Defined.

(** ** Transport client *)

Lemma all_chars_complete (c : ascii) : In c Spec.all_chars.
Proof.
  unfold Spec.all_chars. apply in_map_iff.
  exists (nat_of_ascii c). split; [ apply ascii_nat_embedding | ].
  apply in_seq. pose proof (nat_ascii_bounded c). lia.
Qed.

Lemma str_printable (n : Z) : Spec.printable n -> Py.str n = Some (Py.str_of_int n).
Proof.
  unfold Spec.printable, Py.str. intros Hn.
  rewrite (proj2 (Z.ltb_lt _ _) Hn). reflexivity.
Qed.

Lemma printable_word (n : Z) : Z.abs n < 2 ^ 32 -> Spec.printable n.
Proof.
  unfold Spec.printable. intros Hn.
  apply (Z.lt_trans _ _ _ Hn). vm_compute. reflexivity.
Qed.

Lemma int_of_hex_pair (c1 c2 : ascii) :
  Hil.is_hex_char c1 = true -> Hil.is_hex_char c2 = true ->
  Py.int_of 16 (String c1 (String c2 EmptyString))
  = Some (Spec.hex_pair_value (String c1 (String c2 EmptyString))).
Proof.
  intros H1 H2.
  assert (Hall : forallb (fun a => forallb (Spec.int_of_hex_pair_ok a) Spec.all_chars)
                   Spec.all_chars = true) by (vm_compute; reflexivity).
  rewrite forallb_forall in Hall.
  specialize (Hall c1 (all_chars_complete c1)).
  rewrite forallb_forall in Hall.
  specialize (Hall c2 (all_chars_complete c2)).
  unfold Spec.int_of_hex_pair_ok in Hall. rewrite H1, H2 in Hall. cbn [andb implb] in Hall.
  destruct (Py.int_of 16 (String c1 (String c2 EmptyString))) as [v|]; [ | discriminate ].
  apply Z.eqb_eq in Hall. rewrite Hall. reflexivity.
Qed.

Lemma findall_hex2_step (c1 c2 : ascii) (s2 : string) :
  Hil.findall_hex2 (String c1 (String c2 s2))
  = if Hil.is_hex_char c1 then
      if Hil.is_hex_char c2
      then String c1 (String c2 EmptyString) :: Hil.findall_hex2 s2
      else Hil.findall_hex2 (String c2 s2)
    else Hil.findall_hex2 (String c2 s2).
Proof. reflexivity. Qed.

Lemma hex_values_findall_both (s : string) :
  Hil.hex_values (Hil.findall_hex2 s) = Ok (map Spec.hex_pair_value (Hil.findall_hex2 s))
  /\ forall c,
       Hil.hex_values (Hil.findall_hex2 (String c s))
       = Ok (map Spec.hex_pair_value (Hil.findall_hex2 (String c s))).
Proof.
  induction s as [|d s [IH0 IH1]].
  - split; [ reflexivity | intros c; reflexivity ].
  - split; [ apply IH1 | ].
    intros c. rewrite findall_hex2_step.
    destruct (Hil.is_hex_char c) eqn:H1; [ | apply IH1 ].
    destruct (Hil.is_hex_char d) eqn:H2; [ | apply IH1 ].
    cbn [Hil.hex_values map]. rewrite (int_of_hex_pair c d H1 H2), IH0. reflexivity.
Qed.

Lemma hex_values_findall (s : string) :
  Hil.hex_values (Hil.findall_hex2 s) = Ok (map Spec.hex_pair_value (Hil.findall_hex2 s)).
Proof. apply hex_values_findall_both. Qed.

Lemma split_char_no_sep (sep : ascii) (s : string) :
  Py.has_char sep s = false -> Py.split_char sep s = [s].
Proof.
  induction s as [|d s IH]; cbn [Py.has_char Py.split_char]; intros Hno; [ reflexivity | ].
  apply orb_false_iff in Hno. destruct Hno as [Hd Hs].
  rewrite Hd, (IH Hs). reflexivity.
Qed.

Lemma peek_lines_field_bytes (lines : list string) :
  Hil.peek_lines lines = Ok (concat (map Spec.field_bytes lines)).
Proof.
  induction lines as [|line rest IH]; [ reflexivity | ].
  cbn [Hil.peek_lines map concat]. rewrite IH.
  unfold Spec.field_bytes.
  destruct (Py.has_char ":" line) eqn:Hc.
  - destruct (Py.split_char ":" line) as [|p0 [|data_part ps]]; try reflexivity.
    rewrite hex_values_findall. reflexivity.
  - rewrite (split_char_no_sep _ _ Hc). reflexivity.
Qed.

Lemma after_char_no_sep (sep : ascii) (s : string) :
  Py.has_char sep s = false -> Spec.after_char sep s = EmptyString.
Proof.
  induction s as [|d s IH]; cbn [Py.has_char Spec.after_char]; intros Hno; [ reflexivity | ].
  apply orb_false_iff in Hno. destruct Hno as [Hd Hs].
  rewrite Hd. exact (IH Hs).
Qed.

Lemma split_char_once (sep : ascii) (s : string) :
  Py.has_char sep s = true ->
  Py.has_char sep (Spec.after_char sep s) = false ->
  Py.split_char sep s = [Py.before_char sep s; Spec.after_char sep s].
Proof.
  induction s as [|d s IH];
    cbn [Py.has_char Py.split_char Py.before_char Spec.after_char]; intros Hhas Hno.
  - discriminate.
  - destruct (Ascii.eqb sep d) eqn:Hd.
    + rewrite (split_char_no_sep _ _ Hno). reflexivity.
    + cbn [orb] in Hhas. rewrite (IH Hhas Hno). reflexivity.
Qed.

(** On a line with at most one colon the field [peek] reads is all that
    follows the colon. *)
Lemma field_bytes_single_colon (line : string) :
  Spec.single_colon line = true -> Spec.field_bytes line = Spec.tokens_after_colon line.
Proof.
  unfold Spec.single_colon, Spec.field_bytes, Spec.tokens_after_colon. intros Hone.
  apply negb_true_iff in Hone.
  destruct (Py.has_char ":" line) eqn:Hc.
  - rewrite (split_char_once _ _ Hc Hone). reflexivity.
  - rewrite (split_char_no_sep _ _ Hc), (after_char_no_sep _ _ Hc). reflexivity.
Qed.

Lemma tokens_single_colon (lines : list string) :
  Forall (fun line => Spec.single_colon line = true) lines ->
  map Spec.field_bytes lines = map Spec.tokens_after_colon lines.
Proof.
  induction 1 as [|line rest Hline _ IH]; [ reflexivity | ].
  cbn [map]. rewrite (field_bytes_single_colon line Hline), IH. reflexivity.
Qed.

Lemma slice_to_nonneg {A} (n : Z) (l : list A) :
  0 <= n ->
  Py.slice_to n l = take (Z.to_nat n) l
  /\ Z.of_nat (length (Py.slice_to n l)) <= n
  /\ (Z.of_nat (length l) <= n -> Py.slice_to n l = l).
Proof.
  intros Hn. unfold Py.slice_to.
  destruct (Z.ltb_spec n 0); [ lia | ].
  split; [ reflexivity | ]. split.
  - rewrite length_take. lia.
  - intros Hshort. apply take_ge. lia.
Qed.

Lemma append_assoc (a b c : string) : (a +:+ b) +:+ c = a +:+ (b +:+ c).
Proof.
  induction a as [|x a IH]; [ reflexivity | ].
  change (String x ((a +:+ b) +:+ c) = String x (a +:+ (b +:+ c))).
  f_equal. exact IH.
Qed.

Section Transport.

Variable Dev : Type.
Variable dev_reply : Dev -> string -> string * Dev.

Lemma send_eq (cmd wait_for : string) (s : Hil.Session Dev) :
  Hil.send dev_reply cmd wait_for s
  = (Spec.response dev_reply (Hil.device s) cmd wait_for,
     Hil.mkSession (snd (dev_reply (Hil.device s) (cmd +:+ Hil.crlf)))
       (Hil.written s ++ [cmd +:+ Hil.crlf]) (Hil.console s)).
Proof.
  unfold Hil.send, Spec.response.
  destruct (dev_reply (Hil.device s) (cmd +:+ Hil.crlf)) as [incoming d]. reflexivity.
Qed.

(** C6, as the code has it.  When none of the three attempts of the
    [load] command is answered with the success token, [upload_bytecode]
    prints the error and returns normally, without raising; what it wrote
    to the device is the stop, the reset and the three [load] commands,
    and no [data] chunk. *)
Theorem upload_load_refused (bytecode : list Z) (s : Hil.Session Dev) :
  let load := Spec.load_cmd bytecode in
  let d0 := snd (dev_reply (snd (dev_reply (Hil.device s) ("zplc stop" +:+ Hil.crlf)))
                   ("zplc reset" +:+ Hil.crlf)) in
  let d1 := snd (dev_reply d0 (load +:+ Hil.crlf)) in
  let d2 := snd (dev_reply d1 (load +:+ Hil.crlf)) in
  let d3 := snd (dev_reply d2 (load +:+ Hil.crlf)) in
  Py.contains Hil.ok_token (Spec.response dev_reply d0 load Hil.ok_token) = false ->
  Py.contains Hil.ok_token (Spec.response dev_reply d1 load Hil.ok_token) = false ->
  Py.contains Hil.ok_token (Spec.response dev_reply d2 load Hil.ok_token) = false ->
  Hil.upload_bytecode dev_reply bytecode s
  = (Ok tt,
     Hil.mkSession d3
       (Hil.written s
        ++ ["zplc stop" +:+ Hil.crlf; "zplc reset" +:+ Hil.crlf;
            load +:+ Hil.crlf; load +:+ Hil.crlf; load +:+ Hil.crlf])
       (Hil.console s
        ++ [Hil.WarnLoadRetry 1; Hil.WarnLoadRetry 2; Hil.WarnLoadRetry 3;
            Hil.ErrorLoadFailed (Spec.response dev_reply d2 load Hil.ok_token)]))
  /\ Forall (fun wire => Spec.is_data_cmd wire = false)
       (drop (length (Hil.written s))
          (Hil.written (snd (Hil.upload_bytecode dev_reply bytecode s)))).
Proof.
  intros load d0 d1 d2 d3 H1 H2 H3.
  assert (Hup : Hil.upload_bytecode dev_reply bytecode s
    = (Ok tt,
       Hil.mkSession d3
         (Hil.written s
          ++ ["zplc stop" +:+ Hil.crlf; "zplc reset" +:+ Hil.crlf;
              load +:+ Hil.crlf; load +:+ Hil.crlf; load +:+ Hil.crlf])
         (Hil.console s
          ++ [Hil.WarnLoadRetry 1; Hil.WarnLoadRetry 2; Hil.WarnLoadRetry 3;
              Hil.ErrorLoadFailed (Spec.response dev_reply d2 load Hil.ok_token)]))).
  { unfold Hil.upload_bytecode.
    fold (Spec.load_cmd bytecode). fold load.
    rewrite !send_eq. cbn [snd Hil.device Hil.written Hil.console].
    fold d0.
    cbn [Hil.load_attempts].
    rewrite send_eq. cbn [Hil.device Hil.written Hil.console Hil.print]. rewrite H1.
    rewrite send_eq. cbn [Hil.device Hil.written Hil.console Hil.print].
    fold d1. rewrite H2.
    rewrite send_eq. cbn [Hil.device Hil.written Hil.console Hil.print].
    fold d2. rewrite H3.
    cbn [negb Hil.print Hil.device Hil.written Hil.console].
    fold d3.
    unfold Hil.print. cbn [Hil.device Hil.written Hil.console].
    rewrite <- !app_assoc. reflexivity. }
  split; [ exact Hup | ].
  rewrite Hup. cbn [snd Hil.written].
  rewrite drop_app_length.
  repeat constructor.
Qed.

(** X25. For a requested length that is not negative and that [str]
    prints, and a response whose lines hold at most one colon each,
    [peek] does not raise and returns the first [length] of the bytes
    found in the response: every pair of hexadecimal digits that follows
    the colon of a line, line after line.  It returns at most [length]
    bytes, and when the device supplied fewer it returns exactly those,
    neither padded nor turned into an error. *)
Theorem peek_short_read (addr length : Z) (s : Hil.Session Dev) :
  let cmd := "zplc dbg peek " +:+ Py.hex addr +:+ " " +:+ Py.str_of_int length in
  let resp := Spec.response dev_reply (Hil.device s) cmd Hil.prompt in
  let bytes_out := concat (map Spec.tokens_after_colon (Py.splitlines resp)) in
  0 <= length ->
  Spec.printable length ->
  Forall (fun line => Spec.single_colon line = true) (Py.splitlines resp) ->
  exists result,
    Hil.peek dev_reply addr length s
    = (Ok result, snd (Hil.send dev_reply cmd Hil.prompt s))
    /\ result = Spec.peek_by_the_letter resp length
    /\ result = take (Z.to_nat length) bytes_out
    /\ Z.of_nat (List.length result) <= length
    /\ (Z.of_nat (List.length bytes_out) <= length -> result = bytes_out).
Proof.
  intros cmd resp bytes_out Hlen Hprint Hone.
  exists (Py.slice_to length bytes_out).
  destruct (slice_to_nonneg length bytes_out Hlen) as (Htake & Hmost & Hshort).
  split; [ | split; [ reflexivity | split; [ exact Htake | split; [ exact Hmost | exact Hshort ] ] ] ].
  unfold Hil.peek. rewrite (str_printable length Hprint). fold cmd.
  rewrite send_eq. fold resp. cbn [snd].
  rewrite peek_lines_field_bytes, (tokens_single_colon _ Hone). reflexivity.
Qed.

(** C10. With a size other than 1, 2 and 4, [poke] raises nothing and
    encodes nothing: it sends one poke command whose hexadecimal payload
    is empty, the address being followed by a blank and the end of the
    line, whatever the value. *)
Theorem poke_other_size (address value size : Z) (s : Hil.Session Dev) :
  size <> 1 -> size <> 2 -> size <> 4 ->
  let cmd := "zplc dbg poke " +:+ Py.hex address +:+ " " in
  Hil.poke dev_reply address value size s = (Ok tt, snd (Hil.send dev_reply cmd Hil.prompt s))
  /\ Hil.written (snd (Hil.poke dev_reply address value size s))
     = Hil.written s ++ ["zplc dbg poke " +:+ Py.hex address +:+ " " +:+ Hil.crlf]
  /\ Hil.hex_of_bytes [] = "".
Proof.
  intros H1 H2 H4 cmd.
  assert (Hpoke : Hil.poke dev_reply address value size s
                  = (Ok tt, snd (Hil.send dev_reply cmd Hil.prompt s))).
  { unfold Hil.poke.
    destruct (Z.eqb_spec size 1); [ contradiction | ].
    destruct (Z.eqb_spec size 2); [ contradiction | ].
    destruct (Z.eqb_spec size 4); [ contradiction | ].
    cbn [Hil.hex_of_bytes].
    replace ("zplc dbg poke " +:+ Py.hex address +:+ " " +:+ "") with cmd.
    - destruct (Hil.send dev_reply cmd Hil.prompt s). reflexivity.
    - unfold cmd. reflexivity. }
  split; [ exact Hpoke | ].
  split; [ | reflexivity ].
  rewrite Hpoke, send_eq. cbn [snd Hil.written].
  unfold cmd. rewrite !append_assoc. reflexivity.
Qed.

End Transport.

(** With a device that refuses every command, [upload_bytecode] returns
    normally after the third [load]: nothing is raised. *)
Lemma upload_returns_when_load_refused :
  Py.contains Hil.ok_token
    (Spec.response Samples.refusing tt (Spec.load_cmd [1; 2; 3]) Hil.ok_token) = false
  /\ Hil.upload_bytecode Samples.refusing [1; 2; 3] Samples.fresh
     = (Ok tt,
        Hil.mkSession tt
          ["zplc stop" +:+ Hil.crlf; "zplc reset" +:+ Hil.crlf;
           "zplc load 3" +:+ Hil.crlf; "zplc load 3" +:+ Hil.crlf;
           "zplc load 3" +:+ Hil.crlf]
          [Hil.WarnLoadRetry 1; Hil.WarnLoadRetry 2; Hil.WarnLoadRetry 3;
           Hil.ErrorLoadFailed ("ERR: busy" +:+ Hil.crlf +:+ "zplc:~$ ")])
  /\ (forall e, fst (Hil.upload_bytecode Samples.refusing [1; 2; 3] Samples.fresh) <> Err e).
Proof.
  split; [ vm_compute; reflexivity | ].
  split; [ vm_compute; reflexivity | ].
  intros e. vm_compute. discriminate.
Qed.

Lemma upload_load_refused_witness :
  Hil.upload_bytecode Samples.refusing [1; 2; 3] Samples.fresh
  = (Ok tt,
     Hil.mkSession tt
       ["zplc stop" +:+ Hil.crlf; "zplc reset" +:+ Hil.crlf;
        "zplc load 3" +:+ Hil.crlf; "zplc load 3" +:+ Hil.crlf;
        "zplc load 3" +:+ Hil.crlf]
       [Hil.WarnLoadRetry 1; Hil.WarnLoadRetry 2; Hil.WarnLoadRetry 3;
        Hil.ErrorLoadFailed ("ERR: busy" +:+ Hil.crlf +:+ "zplc:~$ ")]).
Proof.
  destruct (upload_load_refused unit Samples.refusing [1; 2; 3] Samples.fresh) as [Hup _].
  - vm_compute. reflexivity.
  - vm_compute. reflexivity.
  - vm_compute. reflexivity.
  - exact Hup.
Defined.

(** C7. On a response line with a second colon [peek] does not parse
    every pair of hexadecimal digits that follows a colon, as the claim
    and the comment above its loop say: it reads the field between the
    first colon and the second only.  Asked for four bytes of the line
    [00001000: 01 02 : 03 04] it returns 1 and 2, where the pairs that
    follow a colon are 1, 2, 3 and 4. *)
Theorem peek_second_colon :
  fst (Hil.peek (Samples.answering Samples.two_colon_dump) 0x1000 4 Samples.fresh)
  = Ok [1; 2]
  /\ Spec.peek_by_the_letter
       (Spec.response (Samples.answering Samples.two_colon_dump) tt
          "zplc dbg peek 0x1000 4" Hil.prompt) 4
     = [1; 2; 3; 4]
  /\ concat (map Spec.tokens_after_colon (Py.splitlines Samples.two_colon_dump))
     = [1; 2; 3; 4].
Proof. repeat split; vm_compute; reflexivity. Qed.

(** The example of section 8: four bytes requested, two supplied. *)
Lemma peek_short_read_witness :
  fst (Hil.peek (Samples.answering Samples.short_dump) 0x1000 4 Samples.fresh)
  = Ok [0x0a; 0xff].
Proof.
  destruct (peek_short_read unit (Samples.answering Samples.short_dump) 0x1000 4
              Samples.fresh) as (result & Hpeek & _ & _ & _ & Hshort).
  - lia.
  - vm_compute. reflexivity.
  - vm_compute. repeat constructor.
  - rewrite Hpeek. cbn [fst]. f_equal.
    rewrite Hshort; vm_compute; [ reflexivity | discriminate ].
Defined.

Lemma poke_other_size_witness :
  Hil.poke Samples.refusing 0x1000 7 3 Samples.fresh
  = (Ok tt, Hil.mkSession tt ["zplc dbg poke 0x1000 " +:+ Hil.crlf] []).
Proof.
  destruct (poke_other_size unit Samples.refusing 0x1000 7 3 Samples.fresh)
    as [Hpoke _]; try lia.
  rewrite Hpoke. vm_compute. reflexivity.
Defined.

(** * Further properties *)

(** ** Opcode tables *)

Lemma foldl_insert_lookup {A K V : Type} `{Countable K} (f : A -> K) (g : A -> V)
    (l : list A) :
  forall (m : gmap K V) (k : K) (v : V),
    foldl (fun m a => <[f a := g a]> m) m l !! k = Some v ->
    m !! k = Some v \/ exists a, In a l /\ f a = k /\ g a = v.
Proof.
  induction l as [|a l IH]; intros m k v Hl; cbn [foldl] in Hl.
  - left. exact Hl.
  - destruct (IH _ _ _ Hl) as [Hm | (b & Hb & Hf & Hg)].
    + destruct (decide (f a = k)) as [Heq | Hne].
      * rewrite <- Heq, lookup_insert_eq in Hm. injection Hm as <-.
        right. exists a. split; [ left; reflexivity | split; [ exact Heq | reflexivity ] ].
      * rewrite lookup_insert_ne in Hm by exact Hne. left. exact Hm.
    + right. exists b. split; [ right; exact Hb | split; assumption ].
Qed.

Lemma value_is_byte (op : ISA.Opcode) : Spec.is_byte (ISA.value op).
Proof. destruct op; vm_compute; split; discriminate. Qed.

(** X1. The opcode tables are each other's inverse: no two opcodes share
    a value or a name, every value is a byte, the table of names built by
    the disassembler holds exactly the assigned values, each with its own
    name, and the table of mnemonics finds exactly the opcode names. *)
Theorem opcode_tables_inverse :
  (forall a b, ISA.value a = ISA.value b -> a = b)
  /\ (forall a b, ISA.name a = ISA.name b -> a = b)
  /\ (forall op, Spec.is_byte (ISA.value op))
  /\ (forall b nm,
        ISA.opcode_names !! b = Some nm <->
        exists op, ISA.value op = b /\ ISA.name op = nm)
  /\ (forall nm op, ISA.OPCODE_BY_NAME !! nm = Some op <-> ISA.name op = nm).
Proof.
  assert (Hname : forall a b, ISA.name a = ISA.name b -> a = b).
  { intros a b Hab.
    pose proof (OPCODE_BY_NAME_name a) as Ha. rewrite Hab, OPCODE_BY_NAME_name in Ha.
    injection Ha as <-. reflexivity. }
  assert (Hvalue : forall a b, ISA.value a = ISA.value b -> a = b).
  { intros a b Hab. apply Hname.
    pose proof (opcode_names_value a) as Ha. rewrite Hab, opcode_names_value in Ha.
    injection Ha as <-. reflexivity. }
  split; [ exact Hvalue | ]. split; [ exact Hname | ].
  split; [ exact value_is_byte | ]. split.
  - intros b nm. split.
    + intros Hl. unfold ISA.opcode_names in Hl.
      destruct (foldl_insert_lookup ISA.value ISA.name _ _ _ _ Hl) as [He | (op & _ & Hv & Hn)].
      * rewrite lookup_empty in He. discriminate.
      * exists op. split; assumption.
    + intros (op & <- & <-). apply opcode_names_value.
  - intros nm op. split.
    + intros Hl. unfold ISA.OPCODE_BY_NAME in Hl.
      destruct (foldl_insert_lookup ISA.name (fun o => o) _ _ _ _ Hl)
        as [He | (op' & _ & Hn & Ho)].
      * rewrite lookup_empty in He. discriminate.
      * subst op'. exact Hn.
    + intros <-. apply OPCODE_BY_NAME_name.
Qed.

(** ** Little-endian fields *)

Lemma le_bytes_are_bytes (n : nat) :
  forall v, Forall Spec.is_byte (Asm.le_bytes n v).
Proof.
  induction n as [|n IH]; intros v; cbn [Asm.le_bytes]; constructor; [ | apply IH ].
  unfold Spec.is_byte. pose proof (Z.mod_pos_bound v 256 ltac:(lia)). lia.
Qed.

(** X2. Packing an unsigned field and unpacking it gives the value back:
    when [struct.pack] accepts [v] for a field of [n] bytes, it yields [n]
    bytes, each a byte value, and [struct.unpack_from] at the place of
    these bytes in any buffer reads [v]; it refuses exactly the values
    outside the field's range. *)
Theorem pack_unpack_uint (n : nat) (v : Z) (pre post : list Z) :
  (0 <= v < 2 ^ (8 * Z.of_nat n) ->
   exists bs,
     Asm.pack_uint n v = Ok bs
     /\ length bs = n
     /\ Forall Spec.is_byte bs
     /\ Asm.unpack_uint n (pre ++ bs ++ post) (length pre) = v)
  /\ (~ (0 <= v < 2 ^ (8 * Z.of_nat n)) -> Asm.pack_uint n v = Err Asm.StructError).
Proof.
  split.
  - intros Hv. exists (Asm.le_bytes n v).
    split; [ apply pack_uint_ok; exact Hv | ].
    split; [ apply length_le_bytes | ].
    split; [ apply le_bytes_are_bytes | ].
    unfold Asm.unpack_uint.
    rewrite drop_app_length.
    rewrite take_app_length' by (symmetry; apply length_le_bytes).
    apply le_value_le_bytes. exact Hv.
  - intros Hv. unfold Asm.pack_uint.
    destruct (Z.leb_spec 0 v); [ | reflexivity ].
    destruct (Z.ltb_spec v (2 ^ (8 * Z.of_nat n))); [ lia | reflexivity ].
Qed.

Lemma pack_unpack_uint_witness :
  Asm.pack_uint 2 0x1234 = Ok [0x34; 0x12]
  /\ Asm.unpack_uint 2 ([0x88] ++ [0x34; 0x12] ++ [0x01]) 1 = 0x1234
  /\ Asm.pack_uint 2 65536 = Err Asm.StructError.
Proof.
  destruct (pack_unpack_uint 2 0x1234 [0x88] [0x01]) as [Hin _].
  destruct Hin as (bs & Hpack & _ & _ & Hun); [ vm_compute; split; [ discriminate | reflexivity ] | ].
  assert (Hbs : bs = [0x34; 0x12]).
  { assert (Hc : Asm.pack_uint 2 0x1234 = Ok [0x34; 0x12]) by (vm_compute; reflexivity).
    rewrite Hc in Hpack. injection Hpack as <-. reflexivity. }
  subst bs.
  split; [ exact Hpack | ]. split; [ exact Hun | ].
  destruct (pack_unpack_uint 2 65536 [] []) as [_ Hout].
  apply Hout. vm_compute. intros [_ Hlt]. discriminate.
Defined.

(** ** Emitted bytes *)

Lemma emit_instr_bytes (instr : Asm.Instruction) :
  Forall Spec.is_byte (Asm.emit_instr instr).
Proof.
  unfold Asm.emit_instr. constructor; [ apply value_is_byte | ].
  generalize (match Asm.operand instr with Some v => v | None => 0 end). intros v.
  destruct (ISA.OPERAND_SIZE (Asm.opcode instr) =? 1).
  - constructor; [ | constructor ].
    destruct (land_mask v 8 ltac:(lia)) as [_ Hb].
    change (Z.ones 8) with 0xFF in Hb. change (2 ^ 8) with 256 in Hb.
    unfold Spec.is_byte. lia.
  - destruct (ISA.OPERAND_SIZE (Asm.opcode instr) =? 2); [ apply le_bytes_are_bytes | ].
    destruct (ISA.OPERAND_SIZE (Asm.opcode instr) =? 4);
      [ apply le_bytes_are_bytes | constructor ].
Qed.

Lemma emit_instrs_bytes (instrs : list Asm.Instruction) :
  Forall Spec.is_byte (Asm.emit_instrs instrs).
Proof.
  induction instrs as [|instr rest IH]; [ constructor | ].
  change (Asm.emit_instrs (instr :: rest))
    with (Asm.emit_instr instr ++ Asm.emit_instrs rest).
  apply Forall_app. split; [ apply emit_instr_bytes | exact IH ].
Qed.

Lemma bytearray_bytes (values : list Z) :
  Forall Spec.is_byte values -> Hil.bytearray values = Ok values.
Proof.
  intros Hall. unfold Hil.bytearray.
  replace (forallb (fun v => (0 <=? v) && (v <? 256)) values) with true; [ reflexivity | ].
  symmetry. apply forallb_forall. intros v Hv.
  rewrite Forall_forall in Hall. specialize (Hall v ltac:(apply list_elem_of_In; exact Hv)).
  unfold Spec.is_byte in Hall.
  destruct (Z.leb_spec 0 v); [ | lia ]. destruct (Z.ltb_spec v 256); [ reflexivity | lia ].
Qed.

Lemma length_emit_instrs (instrs : list Asm.Instruction) :
  Z.of_nat (length (Asm.emit_instrs instrs))
  = foldr (fun instr acc => Spec.instr_size instr + acc) 0 instrs.
Proof.
  induction instrs as [|instr rest IH]; [ reflexivity | ].
  change (Asm.emit_instrs (instr :: rest))
    with (Asm.emit_instr instr ++ Asm.emit_instrs rest).
  rewrite length_app, length_emit_instr. cbn [foldr]. rewrite <- IH.
  unfold Spec.instr_size.
  destruct (operand_size_cases (Asm.opcode instr)) as [H|[H|[H|H]]]; rewrite H; lia.
Qed.

(** X3. Whatever the operands written in the source, the bytecode that
    [assemble] returns is a string of byte values, its length is the sum
    of the sizes of its instructions, and [upload_bytecode]'s conversion
    to a [bytearray] accepts it: an operand too large for its field is
    cut to the field's width, never rejected. *)
Theorem assemble_emits_bytes (source : string) (bytecode : list Z) :
  Asm.assemble source = Ok bytecode ->
  Forall Spec.is_byte bytecode
  /\ Hil.bytearray bytecode = Ok bytecode
  /\ exists st,
       Asm.assemble_state source = Ok st
       /\ Z.of_nat (length bytecode)
          = foldr (fun instr acc => Spec.instr_size instr + acc) 0 (Asm.instructions st).
Proof.
  unfold Asm.assemble. intros Hasm.
  destruct (Asm.assemble_state source) as [st|e] eqn:Hst; [ | discriminate ].
  cbn in Hasm. injection Hasm as <-.
  pose proof (emit_instrs_bytes (Asm.instructions st)) as Hbytes.
  split; [ exact Hbytes | ]. split; [ apply bytearray_bytes; exact Hbytes | ].
  exists st. split; [ reflexivity | apply length_emit_instrs ].
Qed.

Lemma assemble_emits_bytes_witness :
  Asm.assemble "PUSH8 300" = Ok [0x40; 44] /\ Hil.bytearray [0x40; 44] = Ok [0x40; 44].
Proof.
  assert (Hasm : Asm.assemble "PUSH8 300" = Ok [0x40; 44]) by (vm_compute; reflexivity).
  split; [ exact Hasm | ].
  apply (assemble_emits_bytes "PUSH8 300" [0x40; 44] Hasm).
Defined.

(** ** Disassembling a stream that was cut off *)

Lemma disassemble_loop_emit_then (instrs : list Asm.Instruction) :
  forall (fuel : nat) (pre post : list Z) (base_addr : Z),
    Asm.disassemble_loop (length instrs + fuel) (pre ++ Asm.emit_instrs instrs ++ post)
      base_addr (length pre)
    = Spec.expected_lines (base_addr + Z.of_nat (length pre)) instrs
      ++ Asm.disassemble_loop fuel (pre ++ Asm.emit_instrs instrs ++ post) base_addr
           (length (pre ++ Asm.emit_instrs instrs)).
Proof.
  induction instrs as [|instr rest IH]; intros fuel pre post base_addr.
  - cbn [Asm.emit_instrs flat_map Spec.expected_lines length app Nat.add].
    rewrite app_nil_r. reflexivity.
  - change (Asm.emit_instrs (instr :: rest))
      with (Asm.emit_instr instr ++ Asm.emit_instrs rest).
    cbn [length Nat.add Spec.expected_lines].
    rewrite <- (app_assoc (Asm.emit_instr instr)).
    rewrite disassemble_loop_instr.
    cbn [app]. f_equal.
    rewrite !app_assoc.
    rewrite <- (app_assoc (pre ++ Asm.emit_instr instr)).
    rewrite IH. f_equal.
    rewrite length_app, length_emit_instr.
    destruct (operand_size_cases (Asm.opcode instr)) as [H|[H|[H|H]]]; rewrite H;
      f_equal; lia.
Qed.

Lemma length_instrs_le_emit (instrs : list Asm.Instruction) :
  (length instrs <= length (Asm.emit_instrs instrs))%nat.
Proof.
  induction instrs as [|instr rest IH]; [ reflexivity | ].
  change (Asm.emit_instrs (instr :: rest))
    with (Asm.emit_instr instr ++ Asm.emit_instrs rest).
  rewrite length_app. unfold Asm.emit_instr at 1. cbn [length]. lia.
Qed.

(** X4. A stream that stops inside the operand of its last instruction
    is listed up to that instruction, which is reported as truncated: the
    whole instructions before it are printed as usual, the last line
    names the opcode whose operand is cut short, and no line follows. *)
Theorem disassemble_truncated (instrs : list Asm.Instruction) (instr : Asm.Instruction)
    (k : nat) (base_addr : Z) :
  (1 <= k)%nat ->
  Z.of_nat k <= ISA.OPERAND_SIZE (Asm.opcode instr) ->
  let whole := Asm.emit_instrs instrs in
  Asm.disassemble_lines (whole ++ take k (Asm.emit_instr instr)) base_addr
  = Spec.expected_lines base_addr instrs
    ++ [Asm.LTruncated (base_addr + Z.of_nat (length whole)) (ISA.name (Asm.opcode instr))].
Proof.
  intros Hk Hsize whole.
  assert (Hcut : exists tl, take k (Asm.emit_instr instr) = ISA.value (Asm.opcode instr) :: tl
                            /\ length tl = (k - 1)%nat).
  { unfold Asm.emit_instr. destruct k as [|k]; [ lia | ].
    cbn [take]. eexists. split; [ reflexivity | ].
    rewrite length_take.
    destruct (operand_size_cases (Asm.opcode instr)) as [H|[H|[H|H]]]; rewrite H in *;
      cbn; rewrite ?length_le_bytes; cbn; lia. }
  destruct Hcut as (tl & Hcut & Htl). rewrite Hcut.
  unfold Asm.disassemble_lines.
  pose proof (length_instrs_le_emit instrs) as Hle. fold whole in Hle.
  replace (length (whole ++ ISA.value (Asm.opcode instr) :: tl))
    with (length instrs + S (length whole - length instrs + length tl))%nat
    by (rewrite length_app; cbn [length]; lia).
  pose proof (disassemble_loop_emit_then instrs
                (S (length whole - length instrs + length tl)) []
                (ISA.value (Asm.opcode instr) :: tl) base_addr) as Hloop.
  cbn [app length] in Hloop. fold whole in Hloop.
  rewrite Hloop. rewrite Z.add_0_r. f_equal.
  rewrite disassemble_loop_step.
  rewrite list_lookup_middle by reflexivity.
  rewrite opcode_names_value. cbv zeta.
  change (ISA.get_operand_size (ISA.value (Asm.opcode instr)))
    with (ISA.OPERAND_SIZE (Asm.opcode instr)).
  rewrite length_app. cbn [length].
  destruct (Z.geb_spec (Z.of_nat (length whole) + ISA.OPERAND_SIZE (Asm.opcode instr))
              (Z.of_nat (length whole + S (length tl)))) as [_|Hlt]; [ reflexivity | lia ].
Qed.

Lemma disassemble_truncated_witness :
  Asm.disassemble_lines [0x01; 0x88; 0x34] 0
  = [Asm.LPlain 0 "HALT"; Asm.LTruncated 1 "PUSH16"].
Proof.
  apply (disassemble_truncated [Asm.mkInstruction ISA.HALT None None 1 0]
           (Asm.mkInstruction ISA.PUSH16 (Some 0x1234) None 2 1) 2 0).
  - lia.
  - vm_compute. discriminate.
Defined.

(** ** Addresses assigned by pass 1 *)

Lemma contiguous_snoc (instrs : list Asm.Instruction) :
  forall start instr,
    Spec.contiguous start instrs ->
    Asm.address instr = start + Z.of_nat (length (Asm.emit_instrs instrs)) ->
    Spec.contiguous start (instrs ++ [instr]).
Proof.
  induction instrs as [|x rest IH]; intros start instr Hc Ha.
  - cbn in *. split; [ lia | exact I ].
  - destruct Hc as [Hx Hrest]. cbn [app Spec.contiguous]. split; [ exact Hx | ].
    apply IH; [ exact Hrest | ].
    rewrite Ha.
    change (Asm.emit_instrs (x :: rest)) with (Asm.emit_instr x ++ Asm.emit_instrs rest).
    rewrite length_app, length_emit_instr. unfold Spec.instr_size.
    destruct (operand_size_cases (Asm.opcode x)) as [H|[H|[H|H]]]; rewrite H; lia.
Qed.

Lemma contiguous_lookup (instrs : list Asm.Instruction) :
  forall start (i : nat) instr,
    Spec.contiguous start instrs ->
    instrs !! i = Some instr ->
    Asm.address instr = start + Z.of_nat (length (Asm.emit_instrs (take i instrs))).
Proof.
  induction instrs as [|x rest IH]; intros start i instr Hc Hi; [ discriminate | ].
  destruct Hc as [Hx Hrest]. destruct i as [|i]; cbn in Hi.
  - injection Hi as <-. cbn. lia.
  - rewrite (IH _ _ _ Hrest Hi). cbn [take].
    change (Asm.emit_instrs (x :: take i rest))
      with (Asm.emit_instr x ++ Asm.emit_instrs (take i rest)).
    rewrite length_app, length_emit_instr. unfold Spec.instr_size.
    destruct (operand_size_cases (Asm.opcode x)) as [H|[H|[H|H]]]; rewrite H; lia.
Qed.

Lemma contiguous_expected_lines (instrs : list Asm.Instruction) :
  forall start,
    Spec.contiguous start instrs ->
    Spec.expected_lines start instrs
    = map (fun instr => Spec.expected_line (Asm.address instr) instr) instrs.
Proof.
  induction instrs as [|x rest IH]; intros start Hc; [ reflexivity | ].
  destruct Hc as [Hx Hrest]. cbn [Spec.expected_lines map].
  rewrite Hx. f_equal. rewrite <- Z.add_assoc. apply IH. exact Hrest.
Qed.

(** A statement that is not a directive records one instruction at the
    cursor and moves the cursor past it. *)
Lemma parse_statement_instr (line : string) (ln : Z) (st st' : Asm.ZPLCAssembler) :
  match Py.split_ws1 line with
  | part0 :: _ => Py.startswith "." (Py.upper part0)
  | [] => false
  end = false ->
  Asm.parse_statement line ln st = Ok st' ->
  exists instr,
    Asm.instructions st' = Asm.instructions st ++ [instr]
    /\ Asm.address instr = Asm.current_address st
    /\ Asm.current_address st' = Asm.current_address st + Spec.instr_size instr
    /\ Asm.labels st' = Asm.labels st
    /\ Asm.entry_point st' = Asm.entry_point st.
Proof.
  unfold Asm.parse_statement. intros Hnd Hok.
  destruct (Py.split_ws1 line) as [|part0 parts]; [ discriminate | ].
  rewrite Hnd in Hok.
  destruct (ISA.OPCODE_BY_NAME !! Py.upper part0) as [op|]; [ | discriminate ].
  match type of Hok with
  | mbind _ ?r = _ => destruct r as [[v l]|e]; [ | discriminate ]
  end.
  cbn in Hok. injection Hok as <-.
  eexists. cbn. repeat split; reflexivity.
Qed.

(** The effect of a line without directive on the instructions and on
    the cursor. *)
Lemma parse_line_plain (line : string) (ln : Z) (st st' : Asm.ZPLCAssembler) :
  Spec.is_directive line = false ->
  Asm.parse_line line ln st = Ok st' ->
  Asm.entry_point st' = Asm.entry_point st
  /\ ((Asm.instructions st' = Asm.instructions st
       /\ Asm.current_address st' = Asm.current_address st)
      \/ exists instr,
           Asm.instructions st' = Asm.instructions st ++ [instr]
           /\ Asm.address instr = Asm.current_address st
           /\ Asm.current_address st' = Asm.current_address st + Spec.instr_size instr).
Proof.
  unfold Spec.is_directive, Spec.statement_text, Asm.parse_line. intros Hnd Hok.
  destruct (Asm.is_empty (Py.strip (Asm.strip_comment line)));
    [ injection Hok as <-; auto | ].
  destruct (Asm.match_label (Py.strip (Asm.strip_comment line))) as [[group1 after]|].
  - destruct (Asm.labels st !! Py.upper group1); [ discriminate | ].
    destruct (Asm.is_empty (Py.strip after)); [ injection Hok as <-; cbn; auto | ].
    destruct (parse_statement_instr _ _ _ _ Hnd Hok) as (instr & Hi & Ha & Hc & _ & He).
    split; [ exact He | ]. right. exists instr. auto.
  - destruct (parse_statement_instr _ _ _ _ Hnd Hok) as (instr & Hi & Ha & Hc & _ & He).
    split; [ exact He | ]. right. exists instr. auto.
Qed.

Lemma parse_line_plain_invariant (line : string) (ln : Z) (st st' : Asm.ZPLCAssembler) :
  Spec.is_directive line = false ->
  Asm.parse_line line ln st = Ok st' ->
  Spec.plain_invariant st -> Spec.plain_invariant st'.
Proof.
  intros Hnd Hok (Hc & Ha & He & Hl).
  destruct (parse_line_plain _ _ _ _ Hnd Hok) as [He' Hshape].
  assert (Hgrow : Asm.current_address st <= Asm.current_address st').
  { destruct Hshape as [[_ ->] | (instr & _ & _ & ->)]; [ lia | ].
    unfold Spec.instr_size.
    destruct (operand_size_cases (Asm.opcode instr)) as [H|[H|[H|H]]]; rewrite H; lia. }
  assert (Hpos : 0 <= Asm.current_address st) by (rewrite Ha; lia).
  assert (Hlabels : forall k label,
             Asm.labels st' !! k = Some label ->
             0 <= Asm.lbl_address label <= Asm.current_address st').
  { intros k label Hk.
    destruct (parse_line_labels _ _ _ _ Hok k label Hk) as [Hold | Hnew].
    - specialize (Hl k label Hold). lia.
    - rewrite Hnew. lia. }
  unfold Spec.plain_invariant, Asm.emit_bytecode in *.
  destruct Hshape as [[Hi Hcur] | (instr & Hi & Haddr & Hcur)].
  - split; [ rewrite Hi; exact Hc | ].
    split; [ rewrite Hcur, Hi; exact Ha | ].
    split; [ rewrite He'; exact He | exact Hlabels ].
  - split; [ rewrite Hi; apply contiguous_snoc; [ exact Hc | lia ] | ].
    split; [ | split; [ rewrite He'; exact He | exact Hlabels ] ].
    rewrite Hi, Hcur.
    unfold Asm.emit_instrs. rewrite flat_map_app. cbn [flat_map].
    rewrite app_nil_r, length_app, length_emit_instr. unfold Spec.instr_size.
    fold (Asm.emit_instrs (Asm.instructions st)).
    destruct (operand_size_cases (Asm.opcode instr)) as [H|[H|[H|H]]]; rewrite H; lia.
Qed.

Lemma parse_lines_plain_invariant (lines : list string) :
  forall ln st st',
    Forall (fun line => Spec.is_directive line = false) lines ->
    Asm.parse_lines lines ln st = Ok st' ->
    Spec.plain_invariant st -> Spec.plain_invariant st'.
Proof.
  induction lines as [|line rest IH]; intros ln st st' Hnd Hok Hinv;
    cbn [Asm.parse_lines] in Hok.
  - injection Hok as <-. exact Hinv.
  - inversion Hnd as [|? ? Hline Hrest]; subst.
    destruct (Asm.parse_line line ln st) as [st1|[e| | | |]] eqn:Hp; try discriminate.
    eapply IH; [ exact Hrest | exact Hok | ].
    eapply parse_line_plain_invariant; eassumption.
Qed.

(** ** Layout kept by pass 2 *)

Lemma resolve_instr_layout (lbls : gmap string Asm.Label) (instr instr' : Asm.Instruction) :
  Asm.resolve_instr lbls instr = Ok instr' -> Spec.same_layout instr instr'.
Proof.
  unfold Asm.resolve_instr, Spec.same_layout. intros Hok.
  repeat case_match; simplify_eq; cbn; auto.
Qed.

Lemma resolve_instrs_layout (lbls : gmap string Asm.Label) (instrs : list Asm.Instruction) :
  forall instrs',
    Asm.resolve_instrs lbls instrs = Ok instrs' ->
    Forall2 Spec.same_layout instrs instrs'.
Proof.
  induction instrs as [|x rest IH]; intros instrs' Hok; cbn [Asm.resolve_instrs] in Hok.
  - injection Hok as <-. constructor.
  - destruct (Asm.resolve_instr lbls x) as [x'|] eqn:Hx; cbn in Hok; [ | discriminate ].
    destruct (Asm.resolve_instrs lbls rest) as [rest'|] eqn:Hrest; cbn in Hok;
      [ | discriminate ].
    injection Hok as <-.
    constructor; [ eapply resolve_instr_layout; exact Hx | apply IH; reflexivity ].
Qed.

Lemma same_layout_emit_length (instrs instrs' : list Asm.Instruction) :
  Forall2 Spec.same_layout instrs instrs' ->
  length (Asm.emit_instrs instrs') = length (Asm.emit_instrs instrs).
Proof.
  induction 1 as [|a b l l' (Ho & _) _ IH]; [ reflexivity | ].
  change (Asm.emit_instrs (a :: l)) with (Asm.emit_instr a ++ Asm.emit_instrs l).
  change (Asm.emit_instrs (b :: l')) with (Asm.emit_instr b ++ Asm.emit_instrs l').
  rewrite !length_app, !length_emit_instr, IH, Ho. reflexivity.
Qed.

Lemma same_layout_contiguous (instrs instrs' : list Asm.Instruction) :
  Forall2 Spec.same_layout instrs instrs' ->
  forall start, Spec.contiguous start instrs -> Spec.contiguous start instrs'.
Proof.
  induction 1 as [|a b l l' (Ho & Ha & _) _ IH]; intros start Hc; [ exact I | ].
  destruct Hc as [Hx Hrest]. cbn [Spec.contiguous].
  split; [ rewrite <- Ha; exact Hx | ].
  apply IH. unfold Spec.instr_size in *. rewrite <- Ho. exact Hrest.
Qed.

(** The assembler after both passes, from the one pass 1 left. *)
Lemma assemble_state_inv (source : string) (st : Asm.ZPLCAssembler) :
  Asm.assemble_state source = Ok st ->
  exists st1,
    Asm.parse_lines (Py.splitlines source) 1 Asm.init = Ok st1
    /\ Asm.resolve_instrs (Asm.labels st1) (Asm.instructions st1) = Ok (Asm.instructions st)
    /\ Asm.labels st = Asm.labels st1
    /\ Asm.current_address st = Asm.current_address st1
    /\ exists n,
         Asm.entry_point st = Asm.EntryInt n
         /\ (Asm.entry_point st1 = Asm.EntryInt n
             \/ exists s label,
                  Asm.entry_point st1 = Asm.EntryStr s
                  /\ Asm.labels st1 !! s = Some label
                  /\ Asm.lbl_address label = n).
Proof.
  unfold Asm.assemble_state. intros Hok.
  destruct (Asm.parse_lines (Py.splitlines source) 1 Asm.init) as [st1|] eqn:Hp;
    cbn in Hok; [ | discriminate ].
  exists st1. split; [ reflexivity | ].
  unfold Asm.resolve_labels in Hok.
  destruct (Asm.resolve_instrs (Asm.labels st1) (Asm.instructions st1)) as [instrs|];
    cbn in Hok; [ | discriminate ].
  destruct (Asm.entry_point st1) as [n|s] eqn:He; cbn in Hok.
  - injection Hok as <-. cbn. repeat split. exists n. auto.
  - destruct (Asm.labels st1 !! s) as [label|] eqn:Hl; cbn in Hok; [ | discriminate ].
    injection Hok as <-. cbn. repeat split.
    exists (Asm.lbl_address label). split; [ reflexivity | ].
    right. exists s, label. auto.
Qed.

(** The layout of a successfully assembled source without directives. *)
Lemma plain_layout (source : string) (st : Asm.ZPLCAssembler) :
  Forall (fun line => Spec.is_directive line = false) (Py.splitlines source) ->
  Asm.assemble_state source = Ok st ->
  Spec.contiguous 0 (Asm.instructions st)
  /\ Asm.current_address st = Z.of_nat (length (Asm.emit_bytecode st))
  /\ Asm.entry_point st = Asm.EntryInt 0
  /\ (forall k label,
        Asm.labels st !! k = Some label ->
        0 <= Asm.lbl_address label <= Z.of_nat (length (Asm.emit_bytecode st)))
  /\ Asm.disassemble_lines (Asm.emit_bytecode st) 0
     = map (fun instr => Spec.expected_line (Asm.address instr) instr) (Asm.instructions st).
Proof.
  intros Hnd Hst.
  destruct (assemble_state_inv _ _ Hst) as (st1 & Hp & Hres & Hlabels & Hcur & n & Hn & Hentry).
  assert (Hinit : Spec.plain_invariant Asm.init).
  { unfold Spec.plain_invariant. cbn.
    split; [ exact I | ]. split; [ reflexivity | ]. split; [ reflexivity | ].
    intros key label Hk. rewrite lookup_empty in Hk. discriminate. }
  destruct (parse_lines_plain_invariant _ _ _ _ Hnd Hp Hinit) as (Hc1 & Ha1 & He1 & Hl1).
  pose proof (resolve_instrs_layout _ _ _ Hres) as Hlayout.
  pose proof (same_layout_contiguous _ _ Hlayout 0 Hc1) as Hc.
  pose proof (same_layout_emit_length _ _ Hlayout) as Hlen.
  assert (Hcursor : Asm.current_address st = Z.of_nat (length (Asm.emit_bytecode st))).
  { rewrite Hcur, Ha1. unfold Asm.emit_bytecode. rewrite Hlen. reflexivity. }
  split; [ exact Hc | ].
  split; [ exact Hcursor | ].
  split.
  { rewrite Hn. destruct Hentry as [He | (s & label & He & _)]; rewrite He1 in He;
      [ injection He as <-; reflexivity | discriminate ]. }
  split.
  { intros key label Hk. rewrite <- Hcursor, Hcur. apply (Hl1 key label).
    rewrite <- Hlabels. exact Hk. }
  unfold Asm.disassemble_lines, Asm.emit_bytecode.
  pose proof (disassemble_loop_emit (Asm.instructions st)
                (length (Asm.emit_instrs (Asm.instructions st))) [] 0 ltac:(lia)) as Hloop.
  cbn [app length] in Hloop. rewrite Hloop.
  apply contiguous_expected_lines. exact Hc.
Qed.

(** X5. In a source without directives the assembler's addresses are
    byte offsets in the output: after a successful assembly each
    instruction's address is the number of bytes emitted for the
    instructions before it, the cursor is the length of the bytecode, the
    entry point is 0, every label points into the code or at its end, and
    the listing of the bytecode from base 0 shows each instruction at its
    own address. *)
Theorem addresses_are_offsets (source : string) (st : Asm.ZPLCAssembler) :
  Forall (fun line => Spec.is_directive line = false) (Py.splitlines source) ->
  Asm.assemble_state source = Ok st ->
  (forall (i : nat) instr,
     Asm.instructions st !! i = Some instr ->
     Asm.address instr
     = Z.of_nat (length (Asm.emit_instrs (take i (Asm.instructions st)))))
  /\ Asm.current_address st = Z.of_nat (length (Asm.emit_bytecode st))
  /\ Asm.entry_point st = Asm.EntryInt 0
  /\ (forall k label,
        Asm.labels st !! k = Some label ->
        0 <= Asm.lbl_address label <= Z.of_nat (length (Asm.emit_bytecode st)))
  /\ Asm.disassemble_lines (Asm.emit_bytecode st) 0
     = map (fun instr => Spec.expected_line (Asm.address instr) instr) (Asm.instructions st).
Proof.
  intros Hnd Hst.
  destruct (plain_layout source st Hnd Hst) as (Hc & Hcursor & He & Hl & Hdis).
  split; [ intros i instr Hi; rewrite (contiguous_lookup _ 0 i instr Hc Hi); lia | ].
  split; [ exact Hcursor | ]. split; [ exact He | ]. split; [ exact Hl | exact Hdis ].
Qed.

Lemma no_directive_lines (lines : list string) :
  forallb (fun line => negb (Spec.is_directive line)) lines = true ->
  Forall (fun line => Spec.is_directive line = false) lines.
Proof.
  intros Hall. apply Forall_forall. intros line Hin.
  rewrite forallb_forall in Hall.
  specialize (Hall line ltac:(apply list_elem_of_In; exact Hin)).
  apply negb_true_iff. exact Hall.
Qed.

Lemma addresses_are_offsets_witness :
  exists st,
    Asm.assemble_state Samples.loop_program = Ok st
    /\ Asm.current_address st = 4
    /\ Asm.disassemble_lines (Asm.emit_bytecode st) 0
       = [Asm.LPlain 0 "NOP"; Asm.LRelative 1 "JR" (-3) 0; Asm.LPlain 3 "HALT"].
Proof.
  destruct (Asm.assemble_state Samples.loop_program) as [st|e] eqn:Hst;
    [ | exfalso; revert Hst; vm_compute; discriminate ].
  exists st. split; [ reflexivity | ].
  destruct (addresses_are_offsets Samples.loop_program st) as (_ & Hcur & _ & _ & Hdis).
  - apply no_directive_lines. vm_compute. reflexivity.
  - exact Hst.
  - split.
    + rewrite Hcur.
      replace st with (match Asm.assemble_state Samples.loop_program with
                       | Ok s => s | Err _ => Asm.init end) by (rewrite Hst; reflexivity).
      vm_compute. reflexivity.
    + rewrite Hdis.
      replace (Asm.instructions st)
        with (match Asm.assemble_state Samples.loop_program with
              | Ok s => Asm.instructions s | Err _ => [] end) by (rewrite Hst; reflexivity).
      vm_compute. reflexivity.
Defined.

(** ** Relative branches in the listing *)

Lemma signed_byte_land (offset : Z) :
  -128 <= offset <= 127 -> Spec.signed_byte (Z.land offset 0xFF) = offset.
Proof.
  intros Hin. unfold Spec.signed_byte.
  destruct (land_mask offset 8 ltac:(lia)) as [E8 B8].
  change (Z.ones 8) with 0xFF in *. change (2 ^ 8) with 256 in *.
  rewrite E8 in *.
  destruct (Z.le_gt_cases 0 offset).
  - rewrite (Z.mod_small offset 256) by lia.
    destruct (Z.ltb_spec offset 128); lia.
  - rewrite <- (Z.mod_unique offset 256 (-1) (offset + 256)) by lia.
    destruct (Z.ltb_spec (offset + 256) 128); lia.
Qed.

Lemma relative_jump_size (op : ISA.Opcode) :
  ISA.is_relative_jump (ISA.value op) = true -> ISA.OPERAND_SIZE op = 1.
Proof. destruct op; intros Hrel; try discriminate Hrel; reflexivity. Qed.

Lemma resolve_instrs_origin (lbls : gmap string Asm.Label) (instrs : list Asm.Instruction) :
  forall instrs' (i : nat) instr',
    Asm.resolve_instrs lbls instrs = Ok instrs' ->
    instrs' !! i = Some instr' ->
    exists instr, instrs !! i = Some instr /\ Asm.resolve_instr lbls instr = Ok instr'.
Proof.
  induction instrs as [|x rest IH]; intros instrs' i instr' Hok Hi;
    cbn [Asm.resolve_instrs] in Hok.
  - injection Hok as <-. discriminate.
  - destruct (Asm.resolve_instr lbls x) as [x'|] eqn:Hx; cbn in Hok; [ | discriminate ].
    destruct (Asm.resolve_instrs lbls rest) as [rest'|] eqn:Hrest; cbn in Hok;
      [ | discriminate ].
    injection Hok as <-.
    destruct i as [|i]; cbn in Hi.
    + injection Hi as <-. exists x. split; [ reflexivity | exact Hx ].
    + destruct (IH rest' i instr' eq_refl Hi) as (instr & Hl & Hr).
      exists instr. split; [ exact Hl | exact Hr ].
Qed.

(** What pass 2 did to a relative branch that names a label. *)
Lemma resolve_instr_relative (lbls : gmap string Asm.Label)
    (instr instr' : Asm.Instruction) (l : string) :
  Asm.resolve_instr lbls instr = Ok instr' ->
  Asm.operand_label instr = Some l ->
  Asm.is_empty l = false ->
  ISA.is_relative_jump (ISA.value (Asm.opcode instr)) = true ->
  exists label,
    lbls !! Py.upper l = Some label
    /\ -128 <= Asm.lbl_address label - (Asm.address instr + 2) <= 127
    /\ instr' = Asm.set_operand
                  (Z.land (Asm.lbl_address label - (Asm.address instr + 2)) 0xFF) instr.
Proof.
  unfold Asm.resolve_instr. intros Hok Hl Hne Hrel.
  rewrite Hl, Hne, Hrel in Hok.
  destruct (lbls !! Py.upper l) as [label|]; [ | discriminate ].
  exists label. split; [ reflexivity | ].
  destruct (Z.ltb_spec (Asm.lbl_address label - (Asm.address instr + 2)) (-128));
    [ discriminate | ].
  destruct (Z.gtb_spec (Asm.lbl_address label - (Asm.address instr + 2)) 127);
    [ discriminate | ].
  cbn in Hok. injection Hok as <-. split; [ lia | reflexivity ].
Qed.

(** X6. In a source without directives, the listing of the assembled
    bytecode shows, for every relative branch (JR, JRZ, JRNZ) written with
    a label, the branch at its own address, the signed distance
    target - (address + 2), and as target the address of that label. *)
Theorem relative_target_listed (source : string) (st : Asm.ZPLCAssembler)
    (i : nat) (instr : Asm.Instruction) (l : string) :
  Forall (fun line => Spec.is_directive line = false) (Py.splitlines source) ->
  Asm.assemble_state source = Ok st ->
  Asm.instructions st !! i = Some instr ->
  ISA.is_relative_jump (ISA.value (Asm.opcode instr)) = true ->
  Asm.operand_label instr = Some l ->
  exists label,
    Asm.labels st !! Py.upper l = Some label
    /\ Asm.disassemble_lines (Asm.emit_bytecode st) 0 !! i
       = Some (Asm.LRelative (Asm.address instr) (ISA.name (Asm.opcode instr))
                 (Asm.lbl_address label - (Asm.address instr + 2))
                 (Asm.lbl_address label)).
Proof.
  intros Hnd Hst Hi Hrel Hl.
  destruct (plain_layout source st Hnd Hst) as (_ & _ & _ & _ & Hdis).
  destruct (assemble_state_inv _ _ Hst) as (st1 & Hp & Hres & Hlabels & _).
  destruct (resolve_instrs_origin _ _ _ _ _ Hres Hi) as (instr0 & Hi0 & Hr0).
  destruct (resolve_instr_layout _ _ _ Hr0) as (Ho & Ha & Hol & _).
  assert (Hwf : Asm.is_empty l = false).
  { destruct (parse_lines_ok _ _ _ _ Hp) as [_ Hwf].
    specialize (Hwf ltac:(constructor)).
    rewrite Forall_lookup in Hwf. apply (Hwf i instr0 Hi0). rewrite Hol. exact Hl. }
  destruct (resolve_instr_relative _ _ _ l Hr0 ltac:(rewrite Hol; exact Hl) Hwf
              ltac:(rewrite Ho; exact Hrel)) as (label & Hlabel & Hrange & Hinstr).
  exists label. split; [ rewrite Hlabels; exact Hlabel | ].
  rewrite Hdis, list_lookup_fmap, Hi. cbn [fmap option_fmap option_map]. f_equal.
  rewrite <- Ha in *.
  set (offset := Asm.lbl_address label - (Asm.address instr0 + 2)) in *.
  unfold Spec.expected_line.
  rewrite (relative_jump_size _ Hrel), Hrel. cbn [Z.eqb Pos.eqb]. cbv zeta.
  rewrite Hinstr. cbn [Asm.operand Asm.set_operand default].
  change (Z.land (id (Z.land offset 255)) 255) with (Z.land (Z.land offset 255) 255).
  replace (Z.land (Z.land offset 255) 255) with (Z.land offset 255)
    by (rewrite <- Z.land_assoc; reflexivity).
  change (if Z.land offset 255 <? 128 then Z.land offset 255 else Z.land offset 255 - 256)
    with (Spec.signed_byte (Z.land offset 255)).
  rewrite (signed_byte_land offset Hrange).
  f_equal. unfold offset. lia.
Qed.

Lemma relative_target_listed_witness :
  exists st,
    Asm.assemble_state Samples.loop_program = Ok st
    /\ Asm.disassemble_lines (Asm.emit_bytecode st) 0 !! 1%nat
       = Some (Asm.LRelative 1 "JR" (-3) 0).
Proof.
  destruct (Asm.assemble_state Samples.loop_program) as [st|e] eqn:Hst;
    [ | exfalso; revert Hst; vm_compute; discriminate ].
  exists st. split; [ reflexivity | ].
  assert (Hinstr : Asm.instructions st !! 1%nat
                   = Some (Asm.mkInstruction ISA.JR (Some 0xFD) (Some "loop") 2 1)).
  { replace (Asm.instructions st)
      with (match Asm.assemble_state Samples.loop_program with
            | Ok s => Asm.instructions s | Err _ => [] end) by (rewrite Hst; reflexivity).
    vm_compute. reflexivity. }
  assert (Hlabel : Asm.labels st !! "LOOP" = Some (Asm.mkLabel "LOOP" 0 1)).
  { replace (Asm.labels st)
      with (match Asm.assemble_state Samples.loop_program with
            | Ok s => Asm.labels s | Err _ => ∅ end) by (rewrite Hst; reflexivity).
    vm_compute. reflexivity. }
  destruct (relative_target_listed Samples.loop_program st 1%nat _ "loop"
              ltac:(apply no_directive_lines; vm_compute; reflexivity)
              Hst Hinstr eq_refl eq_refl) as (label & Hl & Hline).
  change (Py.upper "loop") with "LOOP" in Hl.
  rewrite Hlabel in Hl. injection Hl as <-. exact Hline.
Defined.

(** ** The label table *)

Lemma upper_char_idempotent (c : ascii) : Py.upper_char (Py.upper_char c) = Py.upper_char c.
Proof.
  assert (Hall : forallb (fun a => Ascii.eqb (Py.upper_char (Py.upper_char a)) (Py.upper_char a))
                   Spec.all_chars = true) by (vm_compute; reflexivity).
  rewrite forallb_forall in Hall.
  apply Ascii.eqb_eq. apply Hall. apply all_chars_complete.
Qed.

Lemma upper_idempotent (s : string) : Py.upper (Py.upper s) = Py.upper s.
Proof.
  induction s as [|c s IH]; [ reflexivity | ].
  unfold Py.upper in *. cbn [Py.map_string].
  rewrite upper_char_idempotent, IH. reflexivity.
Qed.

Lemma parse_line_label_table (line : string) (ln : Z) (st st' : Asm.ZPLCAssembler) :
  Asm.parse_line line ln st = Ok st' ->
  (forall k label, Asm.labels st !! k = Some label -> Asm.labels st' !! k = Some label)
  /\ (forall k label,
        Asm.labels st' !! k = Some label ->
        Asm.labels st !! k = Some label
        \/ (Asm.lbl_name label = k /\ Py.upper k = k /\ Asm.lbl_line_num label = ln
            /\ Asm.lbl_address label = Asm.current_address st)).
Proof.
  unfold Asm.parse_line. intros Hok.
  destruct (Asm.is_empty (Py.strip (Asm.strip_comment line)));
    [ injection Hok as <-; auto | ].
  destruct (Asm.match_label (Py.strip (Asm.strip_comment line))) as [[group1 after]|].
  - destruct (Asm.labels st !! Py.upper group1) eqn:Hfree; [ discriminate | ].
    assert (Hlabels : Asm.labels st'
                      = <[Py.upper group1 :=
                            Asm.mkLabel (Py.upper group1) (Asm.current_address st) ln]>
                          (Asm.labels st)).
    { destruct (Asm.is_empty (Py.strip after)); [ injection Hok as <-; reflexivity | ].
      apply parse_statement_inv in Hok. destruct Hok as [Hl _]. exact Hl. }
    rewrite Hlabels. split.
    + intros k label Hk.
      destruct (decide (Py.upper group1 = k)) as [Heq | Hne].
      * subst k. rewrite Hfree in Hk. discriminate.
      * rewrite lookup_insert_ne by exact Hne. exact Hk.
    + intros k label Hk.
      destruct (decide (Py.upper group1 = k)) as [Heq | Hne].
      * subst k. rewrite lookup_insert_eq in Hk. injection Hk as <-.
        right. cbn. repeat split. apply upper_idempotent.
      * rewrite lookup_insert_ne in Hk by exact Hne. left. exact Hk.
  - apply parse_statement_inv in Hok. destruct Hok as [Hl _]. rewrite Hl. auto.
Qed.

(** X7. Pass 1 only ever adds labels.  A label defined by an earlier
    line is found unchanged after any number of further lines that parse,
    and every label added by the lines is filed under its upper-case
    name, which is also the name it records, with the number of the line
    that defined it. *)
Theorem labels_write_once (lines : list string) :
  forall (ln : Z) (st st' : Asm.ZPLCAssembler),
    Asm.parse_lines lines ln st = Ok st' ->
    (forall k label, Asm.labels st !! k = Some label -> Asm.labels st' !! k = Some label)
    /\ (forall k label,
          Asm.labels st' !! k = Some label ->
          Asm.labels st !! k = Some label
          \/ (Asm.lbl_name label = k /\ Py.upper k = k
              /\ ln <= Asm.lbl_line_num label < ln + Z.of_nat (length lines))).
Proof.
  induction lines as [|line rest IH]; intros ln st st' Hok; cbn [Asm.parse_lines] in Hok.
  - injection Hok as <-. auto.
  - destruct (Asm.parse_line line ln st) as [st1|[e| | | |]] eqn:Hline; try discriminate.
    destruct (parse_line_label_table _ _ _ _ Hline) as [Hkeep1 Hnew1].
    destruct (IH _ _ _ Hok) as [Hkeep Hnew].
    split.
    + intros k label Hk. apply Hkeep, Hkeep1, Hk.
    + intros k label Hk. cbn [length].
      destruct (Hnew k label Hk) as [Hold | (Hn & Hu & Hl)].
      * destruct (Hnew1 k label Hold) as [Hold' | (Hn & Hu & Hl & _)];
          [ left; exact Hold' | right ].
        split; [ exact Hn | ]. split; [ exact Hu | lia ].
      * right. split; [ exact Hn | ]. split; [ exact Hu | lia ].
Qed.

Lemma labels_write_once_witness :
  exists st,
    Asm.parse_lines ["Start: NOP"; "loop: JR start"] 1 Asm.init = Ok st
    /\ Asm.labels st !! "START" = Some (Asm.mkLabel "START" 0 1)
    /\ forall k label,
         Asm.labels st !! k = Some label ->
         Asm.lbl_name label = k /\ Py.upper k = k /\ 1 <= Asm.lbl_line_num label < 3.
Proof.
  destruct (Asm.parse_lines ["Start: NOP"; "loop: JR start"] 1 Asm.init) as [st|e] eqn:Hst;
    [ | exfalso; revert Hst; vm_compute; discriminate ].
  exists st. split; [ reflexivity | ].
  destruct (labels_write_once _ _ _ _ Hst) as [_ Hnew].
  split.
  - replace (Asm.labels st)
      with (match Asm.parse_lines ["Start: NOP"; "loop: JR start"] 1 Asm.init with
            | Ok s => Asm.labels s | Err _ => ∅ end) by (rewrite Hst; reflexivity).
    vm_compute. reflexivity.
  - intros k label Hk.
    destruct (Hnew k label Hk) as [Hold | Hadded]; [ | exact Hadded ].
    cbn in Hold. rewrite lookup_empty in Hold. discriminate.
Defined.

(** ** Reading a module back *)

Lemma pack_uint_inv (n : nat) (v : Z) (bs : list Z) :
  Asm.pack_uint n v = Ok bs -> 0 <= v < 2 ^ (8 * Z.of_nat n) /\ bs = Asm.le_bytes n v.
Proof.
  unfold Asm.pack_uint. intros Hok.
  destruct (Z.leb_spec 0 v); [ | discriminate ].
  destruct (Z.ltb_spec v (2 ^ (8 * Z.of_nat n))); [ | discriminate ].
  cbn in Hok. injection Hok as <-. split; [ lia | reflexivity ].
Qed.

(** The module is returned exactly when its sizes and entry point fit
    their fields. *)
Lemma create_zplc_file_ok (st : Asm.ZPLCAssembler) (bytecode file : list Z) :
  Asm.create_zplc_file st bytecode = Ok file ->
  Z.of_nat (length bytecode) < 2 ^ 32
  /\ 0 <= Spec.entry_value st <= 65535
  /\ file = Spec.module_header (Z.of_nat (length bytecode)) (Spec.entry_value st)
            ++ Spec.module_segment_entry (Z.of_nat (length bytecode)) ++ bytecode.
Proof.
  unfold Asm.create_zplc_file. intros Hok.
  change (match Asm.entry_point st with
          | Asm.EntryInt n => n
          | Asm.EntryStr _ => 0
          end) with (Spec.entry_value st) in Hok.
  set (code_size := Z.of_nat (length bytecode)) in *.
  cbn [Asm.struct_pack] in Hok.
  rewrite (pack_uint_ok Asm.I ISA.ZPLC_MAGIC) in Hok
    by (vm_compute; split; [ discriminate | reflexivity ]).
  rewrite (pack_uint_ok Asm.H ISA.ZPLC_VERSION_MAJOR) in Hok
    by (vm_compute; split; [ discriminate | reflexivity ]).
  rewrite (pack_uint_ok Asm.H ISA.ZPLC_VERSION_MINOR) in Hok
    by (vm_compute; split; [ discriminate | reflexivity ]).
  rewrite !(pack_uint_ok Asm.I 0) in Hok
    by (vm_compute; split; [ discriminate | reflexivity ]).
  rewrite !(pack_uint_ok Asm.H 1) in Hok
    by (vm_compute; split; [ discriminate | reflexivity ]).
  rewrite !(pack_uint_ok Asm.H 0) in Hok
    by (vm_compute; split; [ discriminate | reflexivity ]).
  destruct (Asm.pack_uint Asm.I code_size) as [bc|] eqn:Hc;
    [ | cbn in Hok; discriminate ].
  destruct (Asm.pack_uint Asm.H (Spec.entry_value st)) as [be|] eqn:He;
    [ | cbn in Hok; discriminate ].
  destruct (pack_uint_inv _ _ _ Hc) as [Hcr ->].
  destruct (pack_uint_inv _ _ _ He) as [Her ->].
  change (2 ^ (8 * Z.of_nat Asm.I)) with (2 ^ 32) in Hcr.
  change (2 ^ (8 * Z.of_nat Asm.H)) with 65536 in Her.
  cbn [mbind result_mbind rbind] in Hok.
  rewrite !length_app, !length_le_bytes in Hok.
  cbn [length Nat.add Z.of_nat Pos.of_succ_nat Pos.succ Z.eqb Pos.eqb negb Asm.I Asm.H]
    in Hok.
  injection Hok as <-.
  split; [ lia | ]. split; [ lia | ].
  reflexivity.
Qed.

(** X8. Whenever the module encoder returns a module, the module is 40
    bytes longer than the bytecode, the bytecode is what follows the
    first 40 bytes, and the little-endian fields read back: the magic
    number at offset 0, the code size at offsets 16 and 36 (segment
    entry), the entry point at offset 24, the segment count 1 at offset
    26. *)
Theorem module_read_back (st : Asm.ZPLCAssembler) (bytecode file : list Z) :
  Asm.create_zplc_file st bytecode = Ok file ->
  length file = (40 + length bytecode)%nat
  /\ drop 40 file = bytecode
  /\ Asm.unpack_uint Asm.I file 0 = ISA.ZPLC_MAGIC
  /\ Asm.unpack_uint Asm.I file 16 = Z.of_nat (length bytecode)
  /\ Asm.unpack_uint Asm.H file 24 = Spec.entry_value st
  /\ Asm.unpack_uint Asm.H file 26 = 1
  /\ Asm.unpack_uint Asm.I file 36 = Z.of_nat (length bytecode).
Proof.
  intros Hok.
  destruct (create_zplc_file_ok _ _ _ Hok) as (Hlen & Hentry & ->).
  set (code_size := Z.of_nat (length bytecode)) in *.
  assert (Hcs : Asm.le_value (Asm.le_bytes 4 code_size) = code_size).
  { apply le_value_le_bytes. change (2 ^ (8 * Z.of_nat 4)) with (2 ^ 32).
    unfold code_size. lia. }
  assert (Hev : Asm.le_value (Asm.le_bytes 2 (Spec.entry_value st)) = Spec.entry_value st).
  { apply le_value_le_bytes. change (2 ^ (8 * Z.of_nat 2)) with 65536. lia. }
  unfold Spec.module_header, Spec.module_segment_entry, Asm.unpack_uint, Asm.I, Asm.H.
  cbn [Asm.le_bytes] in *. cbn [app length drop take] in *.
  repeat split; try reflexivity; try exact Hcs; try exact Hev.
Qed.

Lemma module_read_back_witness :
  Asm.create_zplc_file Asm.init [0x40; 10; 0x01]
  = Ok ([0x5A; 0x50; 0x4C; 0x43; 1; 0; 0; 0; 0; 0; 0; 0; 0; 0; 0; 0;
         3; 0; 0; 0; 0; 0; 0; 0; 0; 0; 1; 0; 0; 0; 0; 0]
        ++ [1; 0; 0; 0; 3; 0; 0; 0] ++ [0x40; 10; 0x01])
  /\ drop 40 ([0x5A; 0x50; 0x4C; 0x43; 1; 0; 0; 0; 0; 0; 0; 0; 0; 0; 0; 0;
               3; 0; 0; 0; 0; 0; 0; 0; 0; 0; 1; 0; 0; 0; 0; 0]
              ++ [1; 0; 0; 0; 3; 0; 0; 0] ++ [0x40; 10; 0x01])
     = [0x40; 10; 0x01].
Proof.
  assert (Hfile : Asm.create_zplc_file Asm.init [0x40; 10; 0x01]
                  = Ok ([0x5A; 0x50; 0x4C; 0x43; 1; 0; 0; 0; 0; 0; 0; 0; 0; 0; 0; 0;
                         3; 0; 0; 0; 0; 0; 0; 0; 0; 0; 1; 0; 0; 0; 0; 0]
                        ++ [1; 0; 0; 0; 3; 0; 0; 0] ++ [0x40; 10; 0x01]))
    by (vm_compute; reflexivity).
  split; [ exact Hfile | ].
  apply (module_read_back _ _ _ Hfile).
Defined.

(** ** Upload in chunks *)

Lemma substring_zero (s : string) : forall i, substring i 0 s = EmptyString.
Proof. induction s as [|c s IH]; intros [|i]; cbn; auto. Qed.

Lemma substring_split (s : string) :
  forall i a b, substring i (a + b) s = substring i a s +:+ substring (i + a) b s.
Proof.
  induction s as [|c s IH]; intros i a b.
  - destruct i, a, b; reflexivity.
  - destruct i as [|i].
    + destruct a as [|a]; [ reflexivity | ].
      cbn [Nat.add substring]. rewrite (IH 0%nat a b). reflexivity.
    + cbn [Nat.add substring]. apply IH.
Qed.

Lemma substring_over (s : string) :
  forall i m, (String.length s <= i + m)%nat ->
              substring i m s = substring i (String.length s - i) s.
Proof.
  induction s as [|c s IH]; intros i m Hlen.
  - destruct i, m; reflexivity.
  - destruct i as [|i].
    + destruct m as [|m]; [ cbn in Hlen; lia | ].
      cbn [String.length Nat.sub substring]. rewrite (IH 0%nat m) by (cbn in Hlen; lia).
      rewrite Nat.sub_0_r. reflexivity.
    + cbn [String.length Nat.sub substring]. apply IH. cbn in Hlen. lia.
Qed.

Lemma substring_whole (s : string) : substring 0 (String.length s) s = s.
Proof. induction s as [|c s IH]; cbn; [ | rewrite IH ]; reflexivity. Qed.

Lemma length_substring (s : string) :
  forall i m, String.length (substring i m s) = Nat.min m (String.length s - i).
Proof.
  induction s as [|c s IH]; intros i m.
  - destruct i, m; reflexivity.
  - destruct i as [|i].
    + destruct m as [|m]; [ reflexivity | ].
      cbn [substring String.length Nat.sub]. rewrite (IH 0%nat m). lia.
    + cbn [substring String.length Nat.sub]. apply IH.
Qed.

Lemma append_nil_r (s : string) : s +:+ EmptyString = s.
Proof.
  induction s as [|c s IH]; [ reflexivity | ].
  change (String c (s +:+ EmptyString) = String c s). f_equal. exact IH.
Qed.

Lemma concat_nosep_cons (x : string) (xs : list string) :
  String.concat EmptyString (x :: xs) = x +:+ String.concat EmptyString xs.
Proof. destruct xs; cbn [String.concat]; [ rewrite append_nil_r | ]; reflexivity. Qed.

Lemma chunks_concat_from (s : string) :
  forall (fuel i : nat),
    (String.length s - i <= fuel)%nat ->
    String.concat EmptyString
      (map (fun j => substring (Z.to_nat j) 32 s)
         (Hil.range_step fuel (Z.of_nat i) (Z.of_nat (String.length s)) 32))
    = substring i (String.length s - i) s.
Proof.
  induction fuel as [|fuel IH]; intros i Hfuel.
  - cbn [Hil.range_step map String.concat].
    replace (String.length s - i)%nat with 0%nat by lia. rewrite substring_zero. reflexivity.
  - cbn [Hil.range_step].
    destruct (Z.ltb_spec (Z.of_nat i) (Z.of_nat (String.length s))) as [Hlt|Hge].
    + cbn [map]. rewrite concat_nosep_cons, Nat2Z.id.
      replace (Z.of_nat i + 32) with (Z.of_nat (i + 32)) by lia.
      rewrite IH by lia.
      destruct (Nat.le_gt_cases 32 (String.length s - i)) as [Hbig|Hsmall].
      * transitivity (substring i (32 + (String.length s - (i + 32))) s);
          [ rewrite substring_split; reflexivity | f_equal; lia ].
      * replace (String.length s - (i + 32))%nat with 0%nat by lia.
        rewrite substring_zero, append_nil_r. apply substring_over. lia.
    + cbn [map String.concat].
      replace (String.length s - i)%nat with 0%nat by lia. rewrite substring_zero. reflexivity.
Qed.

Lemma range_step_bounds (fuel : nat) :
  forall i n step j, 0 <= step -> In j (Hil.range_step fuel i n step) -> i <= j < n.
Proof.
  induction fuel as [|fuel IH]; intros i n step j Hstep Hin; cbn [Hil.range_step] in Hin.
  - destruct Hin.
  - destruct (Z.ltb_spec i n) as [Hlt|Hge]; [ | destruct Hin ].
    destruct Hin as [<- | Hin]; [ lia | ].
    specialize (IH _ _ _ _ Hstep Hin). lia.
Qed.

Section Upload.

Variable Dev : Type.
Variable dev_reply : Dev -> string -> string * Dev.

Lemma send_chunks_acknowledged (hex_data : string) (offsets : list Z) :
  Spec.acknowledges dev_reply ->
  forall s : Hil.Session Dev,
    exists d,
      Hil.send_chunks Dev dev_reply offsets hex_data 32 s
      = (true,
         Hil.mkSession d
           (Hil.written s
            ++ map (fun i => Spec.wire ("zplc data " +:+ substring (Z.to_nat i) 32 hex_data))
                 offsets)
           (Hil.console s)).
Proof.
  intros Hack. induction offsets as [|i rest IH]; intros s.
  - exists (Hil.device s). cbn [Hil.send_chunks map]. rewrite app_nil_r.
    destruct s. reflexivity.
  - cbn [Hil.send_chunks Hil.chunk_attempts].
    rewrite send_eq. rewrite Hack.
    match goal with
    | |- context [Hil.send_chunks Dev dev_reply rest hex_data ?c ?s1] =>
        destruct (IH s1) as [d Hd]; change c with 32; rewrite Hd
    end.
    exists d. cbn [Hil.written Hil.console map]. rewrite <- app_assoc. reflexivity.
Qed.

(** X9. With a device that acknowledges every command, [upload_bytecode]
    returns normally without printing anything and writes, in this order:
    stop, reset, the [load] command with the number of bytes, one [data]
    command per chunk, and an empty line.  The chunks, put end to end,
    are the hexadecimal text of the bytecode, and each holds between 1
    and 32 hexadecimal digits. *)
Theorem upload_acknowledged (bytecode : list Z) (s : Hil.Session Dev) :
  Spec.acknowledges dev_reply ->
  Forall Spec.is_byte bytecode ->
  let hex_data := Hil.hex_of_bytes bytecode in
  (exists d,
     Hil.upload_bytecode dev_reply bytecode s
     = (Ok tt,
        Hil.mkSession d
          (Hil.written s
           ++ [Spec.wire "zplc stop"; Spec.wire "zplc reset";
               Spec.wire (Spec.load_cmd bytecode)]
           ++ map (fun chunk => Spec.wire ("zplc data " +:+ chunk)) (Spec.chunks hex_data)
           ++ [Spec.wire ""])
          (Hil.console s)))
  /\ String.concat EmptyString (Spec.chunks hex_data) = hex_data
  /\ Forall (fun chunk => (1 <= String.length chunk <= 32)%nat) (Spec.chunks hex_data).
Proof.
  intros Hack Hbytes hex_data.
  split; [ | split ].
  - unfold Hil.upload_bytecode.
    fold (Spec.load_cmd bytecode).
    rewrite !send_eq. cbn [snd Hil.device Hil.written Hil.console].
    cbn [Hil.load_attempts]. rewrite send_eq, Hack. cbn [negb].
    rewrite (bytearray_bytes _ Hbytes). cbv zeta. fold hex_data.
    match goal with
    | |- context [Hil.send_chunks Dev dev_reply ?o hex_data ?c ?s1] =>
        destruct (send_chunks_acknowledged hex_data o Hack s1) as [d Hd];
        change c with 32; rewrite Hd
    end.
    rewrite send_eq. cbn [snd Hil.device Hil.written Hil.console].
    eexists. f_equal. f_equal.
    unfold Spec.chunks, Spec.wire. rewrite map_map, <- !app_assoc. reflexivity.
  - unfold Spec.chunks.
    pose proof (chunks_concat_from hex_data (String.length hex_data) 0 ltac:(lia)) as Hc.
    change (Z.of_nat 0) with 0 in Hc. rewrite Hc, Nat.sub_0_r. apply substring_whole.
  - unfold Spec.chunks. apply Forall_forall. intros chunk Hin.
    apply list_elem_of_In, in_map_iff in Hin. destruct Hin as (i & <- & Hi).
    apply range_step_bounds in Hi; [ | lia ].
    rewrite length_substring. lia.
Qed.

(** X10. When the device accepts the [load] command but the bytecode
    holds a value outside 0..255, [upload_bytecode] raises [ValueError]
    from the conversion to a [bytearray]: the device has been stopped,
    reset and told to expect the bytes, and no [data] command is sent. *)
Theorem upload_rejects_non_bytes (bytecode : list Z) (s : Hil.Session Dev) :
  let d0 := snd (dev_reply (snd (dev_reply (Hil.device s) (Spec.wire "zplc stop")))
                   (Spec.wire "zplc reset")) in
  Py.contains Hil.ok_token
    (Spec.response dev_reply d0 (Spec.load_cmd bytecode) Hil.ok_token) = true ->
  Exists (fun v => ~ Spec.is_byte v) bytecode ->
  Hil.upload_bytecode dev_reply bytecode s
  = (Err Hil.ValueError,
     Hil.mkSession (snd (dev_reply d0 (Spec.wire (Spec.load_cmd bytecode))))
       (Hil.written s
        ++ [Spec.wire "zplc stop"; Spec.wire "zplc reset"; Spec.wire (Spec.load_cmd bytecode)])
       (Hil.console s)).
Proof.
  intros d0 Hok Hbad.
  assert (Hba : Hil.bytearray bytecode = Err Hil.ValueError).
  { unfold Hil.bytearray.
    destruct (forallb (fun v => (0 <=? v) && (v <? 256)) bytecode) eqn:Hall; [ | reflexivity ].
    exfalso. rewrite forallb_forall in Hall.
    apply Exists_exists in Hbad. destruct Hbad as (v & Hin & Hv).
    apply Hv. specialize (Hall v ltac:(apply list_elem_of_In; exact Hin)).
    apply andb_true_iff in Hall. destruct Hall as [H0 H1].
    apply Z.leb_le in H0. apply Z.ltb_lt in H1. unfold Spec.is_byte. lia. }
  unfold Hil.upload_bytecode.
  fold (Spec.load_cmd bytecode).
  rewrite !send_eq. cbn [snd Hil.device Hil.written Hil.console].
  fold (Spec.wire "zplc stop"). fold (Spec.wire "zplc reset"). fold d0.
  cbn [Hil.load_attempts]. rewrite send_eq. cbn [Hil.device Hil.written Hil.console].
  rewrite Hok. cbn [negb]. rewrite Hba.
  fold (Spec.wire (Spec.load_cmd bytecode)).
  rewrite <- !app_assoc. reflexivity.
Qed.

End Upload.

Lemma upload_acknowledged_witness :
  Hil.upload_bytecode Samples.acknowledging [0x40; 10; 0x01] Samples.fresh
  = (Ok tt,
     Hil.mkSession tt
       [Spec.wire "zplc stop"; Spec.wire "zplc reset"; Spec.wire "zplc load 3";
        Spec.wire "zplc data 400a01"; Spec.wire ""]
       []).
Proof.
  destruct (upload_acknowledged unit Samples.acknowledging [0x40; 10; 0x01] Samples.fresh)
    as [(d & Hup) _].
  - intros d cmd. vm_compute. reflexivity.
  - repeat constructor; vm_compute; discriminate.
  - rewrite Hup. destruct d. vm_compute. reflexivity.
Defined.

Lemma upload_rejects_non_bytes_witness :
  Hil.upload_bytecode Samples.acknowledging [0x40; 256] Samples.fresh
  = (Err Hil.ValueError,
     Hil.mkSession tt
       [Spec.wire "zplc stop"; Spec.wire "zplc reset"; Spec.wire "zplc load 2"] []).
Proof.
  apply (upload_rejects_non_bytes unit Samples.acknowledging [0x40; 256] Samples.fresh).
  - vm_compute. reflexivity.
  - apply Exists_cons_tl. apply Exists_cons_hd. unfold Spec.is_byte. lia.
Defined.

(** ** Hexadecimal text of bytes *)

Lemma hex_byte_checked (b : Z) :
  Spec.is_byte b ->
  Hil.is_hex_char (Hil.hex_digit (b `div` 16)) = true
  /\ Hil.is_hex_char (Hil.hex_digit (b `mod` 16)) = true
  /\ Spec.hex_pair_value
       (String (Hil.hex_digit (b `div` 16)) (String (Hil.hex_digit (b `mod` 16)) EmptyString))
     = b.
Proof.
  intros Hb.
  assert (Hok : Spec.hex_byte_ok b = true).
  { apply forallb_bytes; [ vm_compute; reflexivity | exact Hb ]. }
  unfold Spec.hex_byte_ok in Hok. cbv zeta in Hok.
  apply andb_true_iff in Hok. destruct Hok as [Hok Hv].
  apply andb_true_iff in Hok. destruct Hok as [H1 H2].
  apply Z.eqb_eq in Hv. auto.
Qed.

(** X11. The hexadecimal text [upload_bytecode] and [poke] produce for
    a string of bytes is two digits per byte, and the scan that [peek]
    applies to a response reads these bytes back, in order. *)
Theorem hex_round_trip (bs : list Z) :
  Forall Spec.is_byte bs ->
  String.length (Hil.hex_of_bytes bs) = (2 * length bs)%nat
  /\ Hil.hex_values (Hil.findall_hex2 (Hil.hex_of_bytes bs)) = Ok bs.
Proof.
  induction 1 as [|b bs Hb _ [IHlen IHval]]; [ split; reflexivity | ].
  destruct (hex_byte_checked b Hb) as (H1 & H2 & Hv).
  split.
  - cbn [Hil.hex_of_bytes String.length length]. rewrite IHlen. lia.
  - cbn [Hil.hex_of_bytes]. rewrite findall_hex2_step, H1, H2.
    cbn [Hil.hex_values]. rewrite (int_of_hex_pair _ _ H1 H2), Hv, IHval. reflexivity.
Qed.

Lemma hex_round_trip_witness :
  Hil.hex_of_bytes [0x40; 10; 255] = "400aff"
  /\ Hil.hex_values (Hil.findall_hex2 "400aff") = Ok [0x40; 10; 255].
Proof.
  split; [ reflexivity | ].
  apply (hex_round_trip [0x40; 10; 255]).
  repeat constructor; vm_compute; discriminate.
Defined.

(** ** Further behaviour of the transport client *)

Section Client.

Variable Dev : Type.
Variable dev_reply : Dev -> string -> string * Dev.

(** X12. When the device accepts the [load] command, the bytecode is
    not empty, and none of the three attempts of the first [data] chunk
    is answered with the success token, [upload_bytecode] prints the
    error and returns normally: the first chunk was written three times,
    no later chunk and no closing empty line is sent. *)
Theorem upload_chunk_refused (b : Z) (rest : list Z) (s : Hil.Session Dev) :
  let bytecode := b :: rest in
  let data0 := "zplc data " +:+ substring 0 32 (Hil.hex_of_bytes bytecode) in
  let d0 := snd (dev_reply (snd (dev_reply (Hil.device s) (Spec.wire "zplc stop")))
                   (Spec.wire "zplc reset")) in
  let d1 := snd (dev_reply d0 (Spec.wire (Spec.load_cmd bytecode))) in
  let d2 := snd (dev_reply d1 (Spec.wire data0)) in
  let d3 := snd (dev_reply d2 (Spec.wire data0)) in
  let d4 := snd (dev_reply d3 (Spec.wire data0)) in
  Forall Spec.is_byte bytecode ->
  Py.contains Hil.ok_token
    (Spec.response dev_reply d0 (Spec.load_cmd bytecode) Hil.ok_token) = true ->
  Py.contains Hil.ok_token (Spec.response dev_reply d1 data0 Hil.ok_token) = false ->
  Py.contains Hil.ok_token (Spec.response dev_reply d2 data0 Hil.ok_token) = false ->
  Py.contains Hil.ok_token (Spec.response dev_reply d3 data0 Hil.ok_token) = false ->
  Hil.upload_bytecode dev_reply bytecode s
  = (Ok tt,
     Hil.mkSession d4
       (Hil.written s
        ++ [Spec.wire "zplc stop"; Spec.wire "zplc reset"; Spec.wire (Spec.load_cmd bytecode);
            Spec.wire data0; Spec.wire data0; Spec.wire data0])
       (Hil.console s
        ++ [Hil.WarnChunkRetry 0 1 (Spec.response dev_reply d1 data0 Hil.ok_token);
            Hil.WarnChunkRetry 0 2 (Spec.response dev_reply d2 data0 Hil.ok_token);
            Hil.WarnChunkRetry 0 3 (Spec.response dev_reply d3 data0 Hil.ok_token);
            Hil.ErrorChunkFailed 0])).
Proof.
  intros bytecode data0 d0 d1 d2 d3 d4 Hbytes Hload H1 H2 H3.
  unfold Hil.upload_bytecode.
  fold (Spec.load_cmd bytecode).
  rewrite !send_eq. cbn [snd Hil.device Hil.written Hil.console].
  fold (Spec.wire "zplc stop"). fold (Spec.wire "zplc reset"). fold d0.
  cbn [Hil.load_attempts]. rewrite send_eq. cbn [Hil.device Hil.written Hil.console].
  rewrite Hload. cbn [negb]. rewrite (bytearray_bytes _ Hbytes). cbv zeta.
  fold (Spec.wire (Spec.load_cmd bytecode)). fold d1.
  assert (Hoffsets : exists more,
             Hil.range_step (String.length (Hil.hex_of_bytes bytecode)) 0
               (Z.of_nat (String.length (Hil.hex_of_bytes bytecode))) 32
             = 0 :: more).
  { unfold bytecode. cbn [Hil.hex_of_bytes String.length Hil.range_step].
    destruct (Z.ltb_spec 0 (Z.of_nat (S (S (String.length (Hil.hex_of_bytes rest))))));
      [ eexists; reflexivity | lia ]. }
  destruct Hoffsets as [more ->].
  cbn [Hil.send_chunks Hil.chunk_attempts].
  change (substring (Z.to_nat 0) (Z.to_nat 32) (Hil.hex_of_bytes bytecode))
    with (substring 0 32 (Hil.hex_of_bytes bytecode)).
  fold data0.
  rewrite send_eq. cbn [Hil.device Hil.written Hil.console Hil.print]. rewrite H1.
  rewrite send_eq. cbn [Hil.device Hil.written Hil.console Hil.print].
  fold (Spec.wire data0). fold d2. rewrite H2.
  rewrite send_eq. cbn [Hil.device Hil.written Hil.console Hil.print].
  fold d3. rewrite H3.
  unfold Hil.print. cbn [Hil.device Hil.written Hil.console]. fold d4.
  rewrite <- !app_assoc. reflexivity.
Qed.

(** X13. [poke] with size 1 never raises and sends the low byte of the
    value; with size 2 or 4 it sends the value's little-endian bytes when
    the value fits the unsigned field, and otherwise raises
    [struct.error] before anything is written to the device. *)
Theorem poke_encoding (address value : Z) (s : Hil.Session Dev) :
  let cmd payload :=
    "zplc dbg poke " +:+ Py.hex address +:+ " " +:+ Hil.hex_of_bytes payload in
  Hil.poke dev_reply address value 1 s
  = (Ok tt, snd (Hil.send dev_reply (cmd [Z.land value 0xFF]) Hil.prompt s))
  /\ forall n : nat,
       n = 2%nat \/ n = 4%nat ->
       (0 <= value < 2 ^ (8 * Z.of_nat n) ->
        Hil.poke dev_reply address value (Z.of_nat n) s
        = (Ok tt, snd (Hil.send dev_reply (cmd (Asm.le_bytes n value)) Hil.prompt s)))
       /\ (~ (0 <= value < 2 ^ (8 * Z.of_nat n)) ->
           Hil.poke dev_reply address value (Z.of_nat n) s = (Err Hil.StructError, s)).
Proof.
  intros cmd. split.
  - unfold Hil.poke. cbn [Z.eqb Pos.eqb].
    destruct (Hil.send dev_reply _ Hil.prompt s). reflexivity.
  - intros n Hn.
    assert (Hpack : (0 <= value < 2 ^ (8 * Z.of_nat n) ->
                     Hil.pack_uint n value = Ok (Asm.le_bytes n value))
                    /\ (~ (0 <= value < 2 ^ (8 * Z.of_nat n)) ->
                        Hil.pack_uint n value = Err Hil.StructError)).
    { unfold Hil.pack_uint. split; intros Hv;
        destruct (Z.leb_spec 0 value), (Z.ltb_spec value (2 ^ (8 * Z.of_nat n)));
        try reflexivity; lia. }
    destruct Hpack as [Hin Hout].
    split; intros Hv; unfold Hil.poke; destruct Hn as [-> | ->].
    + change (Z.of_nat 2 =? 1) with false. change (Z.of_nat 2 =? 2) with true.
      cbv iota. rewrite (Hin Hv).
      destruct (Hil.send dev_reply _ Hil.prompt s). reflexivity.
    + change (Z.of_nat 4 =? 1) with false. change (Z.of_nat 4 =? 2) with false.
      change (Z.of_nat 4 =? 4) with true.
      cbv iota. rewrite (Hin Hv).
      destruct (Hil.send dev_reply _ Hil.prompt s). reflexivity.
    + change (Z.of_nat 2 =? 1) with false. change (Z.of_nat 2 =? 2) with true.
      cbv iota. rewrite (Hout Hv). reflexivity.
    + change (Z.of_nat 4 =? 1) with false. change (Z.of_nat 4 =? 2) with false.
      change (Z.of_nat 4 =? 4) with true.
      cbv iota. rewrite (Hout Hv). reflexivity.
Qed.

End Client.

Lemma upload_chunk_refused_witness :
  Hil.upload_bytecode Samples.load_only [0x40; 10; 0x01] Samples.fresh
  = (Ok tt,
     Hil.mkSession tt
       [Spec.wire "zplc stop"; Spec.wire "zplc reset"; Spec.wire "zplc load 3";
        Spec.wire "zplc data 400a01"; Spec.wire "zplc data 400a01";
        Spec.wire "zplc data 400a01"]
       [Hil.WarnChunkRetry 0 1 ("ERR: busy" +:+ Hil.crlf +:+ "zplc:~$ ");
        Hil.WarnChunkRetry 0 2 ("ERR: busy" +:+ Hil.crlf +:+ "zplc:~$ ");
        Hil.WarnChunkRetry 0 3 ("ERR: busy" +:+ Hil.crlf +:+ "zplc:~$ ");
        Hil.ErrorChunkFailed 0]).
Proof.
  apply (upload_chunk_refused unit Samples.load_only 0x40 [10; 0x01] Samples.fresh).
  - repeat constructor; vm_compute; discriminate.
  - vm_compute. reflexivity.
  - vm_compute. reflexivity.
  - vm_compute. reflexivity.
  - vm_compute. reflexivity.
Defined.

Lemma poke_encoding_witness :
  Hil.poke Samples.refusing 0x1000 0x1234 2 Samples.fresh
  = (Ok tt, Hil.mkSession tt [Spec.wire "zplc dbg poke 0x1000 3412"] [])
  /\ Hil.poke Samples.refusing 0x1000 70000 2 Samples.fresh
     = (Err Hil.StructError, Samples.fresh).
Proof.
  destruct (poke_encoding unit Samples.refusing 0x1000 0x1234 Samples.fresh) as [_ H2].
  destruct (H2 2%nat (or_introl eq_refl)) as [Hin _].
  destruct (poke_encoding unit Samples.refusing 0x1000 70000 Samples.fresh) as [_ H2'].
  destruct (H2' 2%nat (or_introl eq_refl)) as [_ Hout].
  split.
  - etransitivity; [ apply Hin; vm_compute; split; [ discriminate | reflexivity ] | ].
    vm_compute. reflexivity.
  - apply Hout. vm_compute. intros [_ Hlt]. discriminate.
Defined.

(** ** What [send] returns *)

Lemma prefix_nil_r (w : string) : String.prefix w EmptyString = true -> w = EmptyString.
Proof. destruct w; [ reflexivity | discriminate ]. Qed.

Lemma prefix_snoc (s : string) :
  forall w c,
    String.prefix w (s +:+ String c EmptyString) = true ->
    String.prefix w s = true \/ w = s +:+ String c EmptyString.
Proof.
  induction s as [|b s IH]; intros w c Hp.
  - destruct w as [|a w]; [ left; reflexivity | ].
    change (EmptyString +:+ String c EmptyString) with (String c EmptyString) in *.
    cbn [String.prefix] in Hp. destruct (ascii_dec a c) as [->|]; [ | discriminate ].
    apply prefix_nil_r in Hp. subst w. right. reflexivity.
  - destruct w as [|a w]; [ left; reflexivity | ].
    change (String.prefix (String a w) (String b (s +:+ String c EmptyString)) = true) in Hp.
    cbn [String.prefix] in Hp |- *.
    destruct (ascii_dec a b) as [->|]; [ | discriminate ].
    destruct (IH w c Hp) as [Hl | ->]; [ left; exact Hl | right; reflexivity ].
Qed.

Lemma contains_snoc (w : string) (s : string) :
  forall c,
    Py.contains w s = false ->
    Py.contains w (s +:+ String c EmptyString) = true ->
    exists q, s +:+ String c EmptyString = q +:+ w.
Proof.
  induction s as [|b s IH]; intros c Hno Hyes.
  - cbn [Py.contains] in Hno. rewrite orb_false_r in Hno.
    change (EmptyString +:+ String c EmptyString) with (String c EmptyString) in *.
    cbn [Py.contains] in Hyes. rewrite Hno, !orb_false_r in Hyes.
    destruct (prefix_snoc EmptyString w c Hyes) as [Hp | ->].
    + rewrite Hp in Hno. discriminate.
    + exists EmptyString. reflexivity.
  - cbn [Py.contains] in Hno. apply orb_false_iff in Hno. destruct Hno as [Hp Hs].
    change (String b s +:+ String c EmptyString)
      with (String b (s +:+ String c EmptyString)) in *.
    cbn [Py.contains] in Hyes. apply orb_true_iff in Hyes. destruct Hyes as [Hyes | Hyes].
    + destruct (prefix_snoc (String b s) w c Hyes) as [Hp' | ->].
      * rewrite Hp' in Hp. discriminate.
      * exists EmptyString. reflexivity.
    + destruct (IH c Hs Hyes) as [q Hq]. exists (String b q).
      change (String b q +:+ w) with (String b (q +:+ w)). rewrite Hq. reflexivity.
Qed.

Lemma all_ascii_app (a b : string) :
  Spec.all_ascii (a +:+ b) = Spec.all_ascii a && Spec.all_ascii b.
Proof.
  induction a as [|c a IH]; [ reflexivity | ].
  change (String c a +:+ b) with (String c (a +:+ b)).
  cbn [Spec.all_ascii]. rewrite IH, andb_assoc. reflexivity.
Qed.

Lemma all_ascii_decode (incoming : string) :
  Spec.all_ascii (Spec.decode_ascii incoming) = true.
Proof.
  induction incoming as [|b rest IH]; [ reflexivity | ].
  cbn [Spec.decode_ascii]. destruct (Py.code b <? 128) eqn:Hb; [ | exact IH ].
  cbn [Spec.all_ascii]. rewrite Hb, IH. reflexivity.
Qed.

(** The reading loop, from any point where the token has not been seen
    yet: it takes a start of the text still to come, up to the first
    character that completes the token. *)
Lemma read_until_spec (w : string) (incoming : string) :
  forall response,
    Py.contains w response = false ->
    exists taken rest,
      Spec.decode_ascii incoming = taken +:+ rest
      /\ Hil.read_until w incoming response = response +:+ taken
      /\ (Py.contains w (response +:+ taken) = true ->
          exists p c, response +:+ taken = p +:+ String c EmptyString
                      /\ Py.contains w p = false)
      /\ (Py.contains w (response +:+ taken) = false -> rest = EmptyString).
Proof.
  induction incoming as [|b inc IH]; intros response Hno.
  - exists EmptyString, EmptyString. cbn [Spec.decode_ascii Hil.read_until].
    rewrite (append_nil_r response), Hno. repeat split; try reflexivity. discriminate.
  - cbn [Hil.read_until Spec.decode_ascii].
    destruct (Py.code b <? 128) eqn:Hb.
    + destruct (Py.contains w (response +:+ String b EmptyString)) eqn:Hc.
      * exists (String b EmptyString), (Spec.decode_ascii inc).
        split; [ reflexivity | ]. split; [ reflexivity | ]. rewrite Hc. split.
        -- intros _. exists response, b. split; [ reflexivity | exact Hno ].
        -- discriminate.
      * destruct (IH _ Hc) as (taken & rest & Hd & Hr & Hyes & Hend).
        exists (String b taken), rest.
        rewrite append_assoc in Hr, Hyes, Hend.
        change (String b EmptyString +:+ taken) with (String b taken) in *.
        split; [ rewrite Hd; reflexivity | ].
        split; [ exact Hr | split; [ exact Hyes | exact Hend ] ].
    + rewrite (append_nil_r response), Hno.
      destruct (IH _ Hno) as (taken & rest & Hd & Hr & Hyes & Hend).
      exists taken, rest. auto.
Qed.

Section Framing.

Variable Dev : Type.
Variable dev_reply : Dev -> string -> string * Dev.

(** X14. What [send] returns, for a token to wait for that is not
    empty: a start of the ASCII text the device sent after the command,
    without any other character.  If it holds the token, the token is at
    its very end and nowhere before the last character, so nothing that
    arrives after the token is returned; if it does not, it is the whole
    text that arrived before the timeout. *)
Theorem send_framing (cmd wait_for : string) (s : Hil.Session Dev) :
  wait_for <> EmptyString ->
  let received := Spec.decode_ascii (fst (dev_reply (Hil.device s) (Spec.wire cmd))) in
  let response := fst (Hil.send dev_reply cmd wait_for s) in
  Spec.all_ascii response = true
  /\ (exists rest, received = response +:+ rest)
  /\ (Py.contains wait_for response = true ->
      (exists q, response = q +:+ wait_for)
      /\ exists p c, response = p +:+ String c EmptyString
                     /\ Py.contains wait_for p = false)
  /\ (Py.contains wait_for response = false -> response = received).
Proof.
  intros Hw received response.
  assert (Hempty : Py.contains wait_for EmptyString = false).
  { destruct wait_for; [ contradiction | reflexivity ]. }
  destruct (read_until_spec wait_for (fst (dev_reply (Hil.device s) (Spec.wire cmd)))
              EmptyString Hempty) as (taken & rest & Hd & Hr & Hyes & Hend).
  change (EmptyString +:+ taken) with taken in *.
  assert (Hresp : response = taken).
  { unfold response. rewrite send_eq. cbn [fst]. unfold Spec.response. exact Hr. }
  rewrite Hresp. fold received in Hd.
  split.
  { pose proof (all_ascii_decode (fst (dev_reply (Hil.device s) (Spec.wire cmd)))) as Ha.
    fold received in Ha. rewrite Hd, all_ascii_app in Ha.
    apply andb_true_iff in Ha. exact (proj1 Ha). }
  split; [ exists rest; exact Hd | ].
  split.
  - intros Hc. destruct (Hyes Hc) as (p & c & Hp & Hno).
    split; [ | exists p, c; split; assumption ].
    rewrite Hp in Hc |- *. apply contains_snoc; assumption.
  - intros Hc. rewrite (Hend Hc), append_nil_r in Hd. symmetry. exact Hd.
Qed.

End Framing.

Lemma send_framing_witness :
  exists q,
    fst (Hil.send (Samples.answering ("OK: 3" +:+ Hil.crlf +:+ "zplc:~$ late"))
           "zplc load 3" Hil.ok_token Samples.fresh)
    = q +:+ Hil.ok_token.
Proof.
  destruct (send_framing unit (Samples.answering ("OK: 3" +:+ Hil.crlf +:+ "zplc:~$ late"))
              "zplc load 3" Hil.ok_token Samples.fresh ltac:(discriminate))
    as (_ & _ & Hfound & _).
  apply Hfound. vm_compute. reflexivity.
Defined.

(** ** Lines cited by errors *)

Lemma parse_lines_line_nums (lines : list string) :
  forall ln st st',
    Asm.parse_lines lines ln st = Ok st' ->
    forall instr,
      In instr (Asm.instructions st') ->
      In instr (Asm.instructions st)
      \/ ln <= Asm.line_num instr < ln + Z.of_nat (length lines).
Proof.
  induction lines as [|line rest IH]; intros ln st st' Hok instr Hin;
    cbn [Asm.parse_lines] in Hok.
  - injection Hok as <-. left. exact Hin.
  - destruct (Asm.parse_line line ln st) as [st1|[e| | | |]] eqn:Hline; try discriminate.
    cbn [length].
    destruct (IH _ _ _ Hok instr Hin) as [Hin1 | Hnum]; [ | right; lia ].
    destruct (parse_line_inv _ _ _ _ Hline) as [Hsame | (x & Happ & _ & _ & Hx)].
    + left. rewrite <- Hsame. exact Hin1.
    + rewrite Happ in Hin1. apply in_app_or in Hin1.
      destruct Hin1 as [Hold | [<- | []]]; [ left; exact Hold | right; lia ].
Qed.

Lemma resolve_instr_err_line (lbls : gmap string Asm.Label) (instr : Asm.Instruction)
    (e : Asm.AssemblerError) :
  Asm.resolve_instr lbls instr = Err e -> Asm.err_line_num e = Asm.line_num instr.
Proof.
  unfold Asm.resolve_instr. intros Herr.
  repeat case_match; simplify_eq; reflexivity.
Qed.

Lemma resolve_instrs_err_line (lbls : gmap string Asm.Label)
    (instrs : list Asm.Instruction) (e : Asm.AssemblerError) :
  Asm.resolve_instrs lbls instrs = Err e ->
  exists instr, In instr instrs /\ Asm.err_line_num e = Asm.line_num instr.
Proof.
  induction instrs as [|x rest IH]; cbn [Asm.resolve_instrs]; intros Herr.
  - discriminate.
  - destruct (Asm.resolve_instr lbls x) as [x'|e1] eqn:Hx; cbn in Herr.
    + destruct (Asm.resolve_instrs lbls rest) as [rest'|e2]; cbn in Herr;
        [ discriminate | ].
      injection Herr as <-. destruct (IH eq_refl) as (instr & Hin & Hn).
      exists instr. split; [ right; exact Hin | exact Hn ].
    + injection Herr as <-. exists x. split; [ left; reflexivity | ].
      eapply resolve_instr_err_line. exact Hx.
Qed.

(** X15. Every error of [assemble] cites a line of the source: its
    line number lies between 1 and the number of lines, except for an
    undefined entry label, which is reported with line number 0. *)
Theorem error_cites_source_line (source : string) (e : Asm.AssemblerError) :
  Asm.assemble source = Err e ->
  (exists s, Asm.err_kind e = Asm.UndefinedEntryLabel s /\ Asm.err_line_num e = 0)
  \/ 1 <= Asm.err_line_num e <= Z.of_nat (length (Py.splitlines source)).
Proof.
  unfold Asm.assemble, Asm.assemble_state. intros Herr.
  destruct (Asm.parse_lines (Py.splitlines source) 1 Asm.init) as [st1|e1] eqn:Hparse;
    cbn in Herr.
  - destruct (Asm.resolve_labels st1) as [st2|e2] eqn:Hres; cbn in Herr; [ discriminate | ].
    injection Herr as <-. unfold Asm.resolve_labels in Hres.
    destruct (Asm.resolve_instrs (Asm.labels st1) (Asm.instructions st1))
      as [instrs|e3] eqn:Hi; cbn in Hres.
    + destruct (Asm.entry_point st1) as [n|s]; cbn in Hres; [ discriminate | ].
      destruct (Asm.labels st1 !! s); cbn in Hres; [ discriminate | ].
      injection Hres as <-. left. exists s. split; reflexivity.
    + injection Hres as <-. right.
      destruct (resolve_instrs_err_line _ _ _ Hi) as (instr & Hin & ->).
      destruct (parse_lines_line_nums _ _ _ _ Hparse instr Hin) as [[] | Hn]. lia.
  - injection Herr as <-. right.
    destruct (parse_lines_err _ _ _ _ Hparse) as [_ (before & line & after & Hs & _ & Hn)].
    rewrite Hs, Hn, length_app. cbn [length]. lia.
Qed.

Lemma error_cites_source_line_witness :
  Asm.assemble Samples.undefined_label_program
  = Err (Asm.mkError (Asm.UndefinedLabel "NOWHERE") 2 "")
  /\ 1 <= 2 <= Z.of_nat (length (Py.splitlines Samples.undefined_label_program)).
Proof.
  assert (Herr : Asm.assemble Samples.undefined_label_program
                 = Err (Asm.mkError (Asm.UndefinedLabel "NOWHERE") 2 ""))
    by (vm_compute; reflexivity).
  split; [ exact Herr | ].
  destruct (error_cites_source_line _ _ Herr) as [(s & Hk & _) | Hline];
    [ discriminate Hk | exact Hline ].
Defined.

(** ** Comments *)

Lemma strip_comment_app (line comment : string) :
  Py.has_char ";" line = false ->
  Asm.strip_comment (line +:+ String ";" comment) = line.
Proof.
  intros Hno. unfold Asm.strip_comment.
  assert (Hhas : Py.has_char ";" (line +:+ String ";" comment) = true
                 /\ Py.before_char ";" (line +:+ String ";" comment) = line).
  { induction line as [|c line IH].
    - split; reflexivity.
    - cbn [Py.has_char] in Hno. apply orb_false_iff in Hno. destruct Hno as [Hc Hl].
      destruct (IH Hl) as [IH1 IH2].
      change (String c line +:+ String ";" comment)
        with (String c (line +:+ String ";" comment)).
      cbn [Py.has_char Py.before_char]. rewrite Hc, IH1, IH2. split; reflexivity. }
  destruct Hhas as [-> ->]. reflexivity.
Qed.

(** X16. Whatever follows the first semicolon of a line is ignored: a
    line and the same line followed by a comment are parsed alike, in
    every assembler state, with the same result. *)
Theorem comment_is_ignored (line comment : string) (ln : Z) (st : Asm.ZPLCAssembler) :
  Py.has_char ";" line = false ->
  Asm.parse_line (line +:+ String ";" comment) ln st = Asm.parse_line line ln st.
Proof.
  intros Hno. unfold Asm.parse_line.
  rewrite (strip_comment_app line comment Hno).
  assert (Hsame : Asm.strip_comment line = line)
    by (unfold Asm.strip_comment; rewrite Hno; reflexivity).
  rewrite Hsame. reflexivity.
Qed.

Lemma comment_is_ignored_witness :
  Asm.parse_line "PUSH8 10 ; ten" 1 Asm.init = Asm.parse_line "PUSH8 10 " 1 Asm.init
  /\ Asm.assemble "PUSH8 ';'"
     = Err (Asm.mkError (Asm.InvalidOperand "'") 1 "").
Proof.
  split; [ | vm_compute; reflexivity ].
  apply (comment_is_ignored "PUSH8 10 " " ten" 1 Asm.init). reflexivity.
Defined.

(** ** Mnemonics *)

(** X17. Every opcode is reached from its name, in upper or lower case.
    An opcode without operand assembles from its bare name to its one
    byte; an opcode with an operand is refused without one, and with the
    operand 1 assembles to its byte followed by the operand in as many
    little-endian bytes as the opcode declares. *)
Theorem every_mnemonic_assembles (op : ISA.Opcode) :
  (ISA.OPERAND_SIZE op = 0 ->
   Asm.assemble (ISA.name op) = Ok [ISA.value op]
   /\ Asm.assemble (Py.lower (ISA.name op)) = Ok [ISA.value op])
  /\ (ISA.OPERAND_SIZE op <> 0 ->
      Asm.assemble (ISA.name op)
      = Err (Asm.mkError (Asm.RequiresOperand (ISA.name op)) 1 (ISA.name op))
      /\ Asm.assemble (Py.lower (ISA.name op) +:+ " 1")
         = Ok (ISA.value op :: Asm.le_bytes (Z.to_nat (ISA.OPERAND_SIZE op)) 1)).
Proof.
  destruct op; (split; [ intros Hs | intros Hs ]);
    first [ discriminate Hs
          | exfalso; apply Hs; reflexivity
          | split; vm_compute; reflexivity ].
Qed.

Lemma every_mnemonic_assembles_witness :
  Asm.assemble "HALT" = Ok [0x01] /\ Asm.assemble "push16 1" = Ok [0x88; 1; 0].
Proof.
  destruct (every_mnemonic_assembles ISA.HALT) as [Hplain _].
  destruct (every_mnemonic_assembles ISA.PUSH16) as [_ Hoperand].
  split.
  - apply Hplain. reflexivity.
  - apply Hoperand. discriminate.
Defined.

(** ** Decimal literals *)

Lemma digit_char_facts (c : ascii) :
  Py.is_digit c = true ->
  Py.isspace c = false /\ Py.int_space c = false /\ Ascii.eqb c "'" = false
  /\ Ascii.eqb c "-" = false /\ Ascii.eqb c "+" = false /\ Ascii.eqb c "_" = false
  /\ Py.lower_char c = c /\ Asm.ident_start c = false.
Proof.
  intros Hd.
  assert (Hall : forallb Spec.digit_char_ok Spec.all_chars = true) by (vm_compute; reflexivity).
  rewrite forallb_forall in Hall. specialize (Hall c (all_chars_complete c)).
  unfold Spec.digit_char_ok in Hall. rewrite Hd in Hall. cbn [implb] in Hall.
  repeat (apply andb_true_iff in Hall; destruct Hall as [Hall ?]).
  repeat match goal with
         | H : negb _ = true |- _ => apply negb_true_iff in H
         | H : Ascii.eqb (Py.lower_char _) _ = true |- _ => apply Ascii.eqb_eq in H
         end.
  repeat split; assumption.
Qed.

Lemma digits_of_uint (d : Decimal.uint) :
  Spec.digits_only (DecimalString.NilEmpty.string_of_uint d) = true.
Proof. induction d; cbn [DecimalString.NilEmpty.string_of_uint Spec.digits_only]; auto. Qed.

Lemma scan_digit_step (c : ascii) (d : Z) (s : string) (acc : Z) (n : nat) :
  Ascii.eqb c Py.underscore = false ->
  Py.digit_value c = Some d ->
  (d <? 10) = true ->
  Py.scan_digits 10 (String c s) acc n false = Py.scan_digits 10 s (acc * 10 + d) (S n) false.
Proof. intros Hu Hv Hd. cbn [Py.scan_digits]. rewrite Hu, Hv, Hd. reflexivity. Qed.

Ltac scan_one k :=
  cbn [DecimalString.NilEmpty.string_of_uint];
  rewrite (scan_digit_step _ k) by reflexivity.

Ltac scan_acc k IH n :=
  scan_one k; cbn [Pos.of_uint_acc];
  match goal with
  | |- context [Py.scan_digits 10 _ ?a (S n) false] =>
      match goal with
      | |- context [Pos.of_uint_acc _ ?p] =>
          replace a with (Z.pos p) by lia;
          let m := fresh "m" in
          let Hm := fresh "Hm" in
          let Hle := fresh "Hle" in
          destruct (IH p (S n)) as (m & Hm & Hle);
          exists m; split; [ exact Hm | lia ]
      end
  end.

Lemma scan_uint_acc (d : Decimal.uint) :
  forall (acc : positive) (n : nat),
    exists m,
      Py.scan_digits 10 (DecimalString.NilEmpty.string_of_uint d) (Z.pos acc) n false
      = Some (Z.pos (Pos.of_uint_acc d acc), m, EmptyString)
      /\ (n <= m)%nat.
Proof.
  induction d as [|d IH|d IH|d IH|d IH|d IH|d IH|d IH|d IH|d IH|d IH]; intros acc n.
  - exists n. split; [ reflexivity | lia ].
  - scan_acc 0 IH n.
  - scan_acc 1 IH n.
  - scan_acc 2 IH n.
  - scan_acc 3 IH n.
  - scan_acc 4 IH n.
  - scan_acc 5 IH n.
  - scan_acc 6 IH n.
  - scan_acc 7 IH n.
  - scan_acc 8 IH n.
  - scan_acc 9 IH n.
Qed.

Ltac scan_lead k d n :=
  scan_one k; cbn [Pos.of_uint Z.mul Z.add];
  let m := fresh "m" in
  let Hm := fresh "Hm" in
  let Hle := fresh "Hle" in
  destruct (scan_uint_acc d (Z.to_pos k) (S n)) as (m & Hm & Hle);
  exists m; split; [ exact Hm | intros _; lia ].

Lemma scan_uint (d : Decimal.uint) :
  forall n : nat,
    exists m,
      Py.scan_digits 10 (DecimalString.NilEmpty.string_of_uint d) 0 n false
      = Some (Z.of_N (Pos.of_uint d), m, EmptyString)
      /\ (d <> Decimal.Nil -> n < m)%nat.
Proof.
  induction d as [|d IH|d IH|d IH|d IH|d IH|d IH|d IH|d IH|d IH|d IH]; intros n.
  - exists n. split; [ reflexivity | intros H; contradiction ].
  - scan_one 0. cbn [Pos.of_uint Z.mul Z.add].
    destruct (IH (S n)) as (m & Hm & Hlt).
    exists m. split; [ exact Hm | intros _ ].
    destruct d; [ cbn in Hm; inversion Hm; subst; lia | .. ];
      (assert (S n < m)%nat by (apply Hlt; discriminate); lia).
  - scan_lead 1 d n.
  - scan_lead 2 d n.
  - scan_lead 3 d n.
  - scan_lead 4 d n.
  - scan_lead 5 d n.
  - scan_lead 6 d n.
  - scan_lead 7 d n.
  - scan_lead 8 d n.
  - scan_lead 9 d n.
Qed.

Lemma lstrip_first (c : ascii) (s : string) :
  Py.isspace c = false -> Py.lstrip (String c s) = String c s.
Proof. intros H. cbn [Py.lstrip]. rewrite H. reflexivity. Qed.

Lemma rstrip_cons (c : ascii) (s : string) :
  Py.isspace c = false -> Py.rstrip s = s -> Py.rstrip (String c s) = String c s.
Proof.
  intros Hc Hs. cbn [Py.rstrip]. rewrite Hs, Hc. destruct s; reflexivity.
Qed.

Lemma rstrip_digits (s : string) :
  Spec.digits_only s = true -> Py.rstrip s = s.
Proof.
  induction s as [|c s IH]; [ reflexivity | ].
  cbn [Spec.digits_only]. intros [Hc Hs]%andb_true_iff.
  apply rstrip_cons; [ apply (digit_char_facts c Hc) | auto ].
Qed.

Lemma lower_digits (s : string) :
  Spec.digits_only s = true -> Py.lower s = s.
Proof.
  induction s as [|c s IH]; [ reflexivity | ].
  cbn [Spec.digits_only]. intros [Hc Hs]%andb_true_iff.
  unfold Py.lower in *. cbn [Py.map_string]. rewrite (IH Hs).
  destruct (digit_char_facts c Hc) as (_ & _ & _ & _ & _ & _ & Hl & _).
  rewrite Hl. reflexivity.
Qed.

Lemma prefix_zero_letter (l : ascii) (s : string) :
  Spec.digits_only s = true ->
  Py.is_digit l = false ->
  Py.startswith (String "0" (String l EmptyString)) s = false.
Proof.
  intros Hs Hl. unfold Py.startswith.
  destruct s as [|a [|b r]]; cbn [String.prefix]; try reflexivity.
  - destruct (ascii_dec "0" a); reflexivity.
  - destruct (ascii_dec "0" a); [ | reflexivity ].
    destruct (ascii_dec l b) as [->|]; [ | reflexivity ].
    cbn [Spec.digits_only] in Hs.
    apply andb_true_iff in Hs as [_ [Hb _]%andb_true_iff]. congruence.
Qed.

Lemma skip_prefix_decimal (s : string) : Py.skip_prefix 10 s = s.
Proof.
  destruct s as [|z [|l r]]; try reflexivity.
  unfold Py.skip_prefix, Py.base_letter.
  change (10 =? 16) with false. change (10 =? 8) with false.
  change (10 =? 2) with false. cbn [andb orb].
  rewrite andb_false_r. reflexivity.
Qed.

Lemma int_of_digits (d : Decimal.uint) :
  d <> Decimal.Nil ->
  Py.int_of 10 (DecimalString.NilEmpty.string_of_uint d) = Some (Z.of_N (Pos.of_uint d)).
Proof.
  intros Hd.
  destruct (scan_uint d 0) as (m & Hm & Hlt). specialize (Hlt Hd).
  pose proof (digits_of_uint d) as Hdig.
  destruct (DecimalString.NilEmpty.string_of_uint d) as [|c r] eqn:Hs.
  { destruct d; [ contradiction | discriminate .. ]. }
  cbn [Spec.digits_only] in Hdig. apply andb_true_iff in Hdig as [Hc _].
  destruct (digit_char_facts c Hc) as (_ & Hsp & _ & Hm1 & Hp1 & Hu & _ & _).
  unfold Py.int_of. cbn [Py.skip_int_space]. rewrite Hsp, Hm1, Hp1.
  rewrite skip_prefix_decimal. unfold Py.underscore at 1. rewrite Hu, Hm.
  destruct m as [|m]; [ lia | reflexivity ].
Qed.

Lemma nonempty_of_uint (d : Decimal.uint) :
  d <> Decimal.Nil -> DecimalString.NilEmpty.string_of_uint d <> EmptyString.
Proof. destruct d; [ contradiction | discriminate .. ]. Qed.

Lemma parse_number_digits (s : string) (v : Z) :
  Spec.digits_only s = true ->
  s <> EmptyString ->
  Py.int_of 10 s = Some v ->
  Asm.parse_number s = Some v /\ Asm.parse_number (String "-" s) = Some (- v).
Proof.
  intros Hs Hne Hv.
  assert (Hx : Py.startswith "0x" (Py.lower s) = false)
    by (rewrite (lower_digits s Hs); apply prefix_zero_letter; [ exact Hs | reflexivity ]).
  assert (Hb : Py.startswith "0b" (Py.lower s) = false)
    by (rewrite (lower_digits s Hs); apply prefix_zero_letter; [ exact Hs | reflexivity ]).
  assert (Ho : Py.startswith "0o" (Py.lower s) = false)
    by (rewrite (lower_digits s Hs); apply prefix_zero_letter; [ exact Hs | reflexivity ]).
  assert (Hstrip : Py.strip s = s /\ Py.strip (String "-" s) = String "-" s).
  { unfold Py.strip. destruct s as [|c r]; [ contradiction | ].
    pose proof Hs as Hs'. cbn [Spec.digits_only] in Hs'.
    apply andb_true_iff in Hs' as [Hc _].
    rewrite !lstrip_first by (reflexivity || apply (digit_char_facts c Hc)).
    split; [ apply rstrip_digits; exact Hs | ].
    apply rstrip_cons; [ reflexivity | apply rstrip_digits; exact Hs ]. }
  destruct Hstrip as [Hs1 Hs2].
  split.
  - unfold Asm.parse_number. rewrite Hs1.
    destruct s as [|c r]; [ contradiction | ].
    cbn [Spec.digits_only] in Hs. apply andb_true_iff in Hs as [Hc _].
    destruct (digit_char_facts c Hc) as (_ & _ & Hq & Hm1 & Hp1 & _ & _ & _).
    assert (Hquote : Py.startswith "'" (String c r) = false).
    { unfold Py.startswith. cbn [String.prefix].
      destruct (ascii_dec "'" c) as [<-|]; [ discriminate Hq | reflexivity ]. }
    rewrite Hquote. cbn [andb]. rewrite Hm1, Hp1, Hx, Hb, Ho, Hv. reflexivity.
  - unfold Asm.parse_number. rewrite Hs2.
    change (Py.startswith "'" (String "-" s)) with false. cbn [andb].
    change (Ascii.eqb "-" "-") with true. cbv iota.
    rewrite Hx, Hb, Ho, Hv. reflexivity.
Qed.

Lemma decimal_literal_facts (n : Z) :
  Asm.parse_number (Py.str_of_int n) = Some n
  /\ Py.strip (Py.str_of_int n) = Py.str_of_int n
  /\ Asm.is_identifier (Py.str_of_int n) = false
  /\ Asm.is_empty (Py.str_of_int n) = false.
Proof.
  destruct n as [|p|p].
  - vm_compute. auto.
  - unfold Py.str_of_int. cbn [Z.to_int DecimalString.NilZero.string_of_int].
    pose proof (DecimalPos.Unsigned.to_uint_nonnil p) as Hnil.
    pose proof (DecimalPos.Unsigned.of_to p) as Hof.
    pose proof (int_of_digits _ Hnil) as Hint. rewrite Hof in Hint.
    pose proof (digits_of_uint (Pos.to_uint p)) as Hdig.
    pose proof (nonempty_of_uint _ Hnil) as Hne.
    assert (Hz : DecimalString.NilZero.string_of_uint (Pos.to_uint p)
                 = DecimalString.NilEmpty.string_of_uint (Pos.to_uint p))
      by (destruct (Pos.to_uint p); [ contradiction | reflexivity .. ]).
    rewrite Hz.
    destruct (parse_number_digits _ _ Hdig Hne Hint) as [Hpos _].
    split; [ exact Hpos | ].
    destruct (DecimalString.NilEmpty.string_of_uint (Pos.to_uint p)) as [|c r] eqn:Hs;
      [ contradiction | ].
    pose proof Hdig as Hdig'. cbn [Spec.digits_only] in Hdig'.
    apply andb_true_iff in Hdig' as [Hc _].
    destruct (digit_char_facts c Hc) as (Hsp & _ & _ & _ & _ & _ & _ & Hid).
    split; [ | split; [ | reflexivity ] ].
    + unfold Py.strip. rewrite lstrip_first by exact Hsp.
      apply rstrip_digits. exact Hdig.
    + unfold Asm.is_identifier. rewrite Hid. reflexivity.
  - unfold Py.str_of_int. cbn [Z.to_int DecimalString.NilZero.string_of_int].
    pose proof (DecimalPos.Unsigned.to_uint_nonnil p) as Hnil.
    pose proof (DecimalPos.Unsigned.of_to p) as Hof.
    pose proof (int_of_digits _ Hnil) as Hint. rewrite Hof in Hint.
    pose proof (digits_of_uint (Pos.to_uint p)) as Hdig.
    pose proof (nonempty_of_uint _ Hnil) as Hne.
    assert (Hz : DecimalString.NilZero.string_of_uint (Pos.to_uint p)
                 = DecimalString.NilEmpty.string_of_uint (Pos.to_uint p))
      by (destruct (Pos.to_uint p); [ contradiction | reflexivity .. ]).
    rewrite Hz.
    destruct (parse_number_digits _ _ Hdig Hne Hint) as [_ Hneg].
    split; [ exact Hneg | ].
    split; [ | split; reflexivity ].
    unfold Py.strip. rewrite lstrip_first by reflexivity.
    apply rstrip_cons; [ reflexivity | apply rstrip_digits; exact Hdig ].
Qed.

Lemma parse_operand_decimal (n line_num : Z) (opcode : ISA.Opcode) :
  Asm.parse_operand (Py.str_of_int n) line_num opcode = Ok (Some n, None).
Proof.
  destruct (decimal_literal_facts n) as (Hnum & Hstrip & Hid & Hemp).
  unfold Asm.parse_operand. rewrite Hstrip, Hemp, Hid, Hnum. reflexivity.
Qed.

(** X18. A decimal numeral is read back as its number: for every integer
    [n] that [str] prints, [parse_number] applied to [str(n)] returns
    [n], and [parse_operand] reads the same text as the numeric operand
    [n] with no label reference. *)
Theorem decimal_literal_round_trip (n line_num : Z) (opcode : ISA.Opcode) :
  Spec.printable n ->
  Asm.parse_number (Py.str_of_int n) = Some n
  /\ Asm.parse_operand (Py.str_of_int n) line_num opcode = Ok (Some n, None).
Proof.
  intros _. split; [ apply decimal_literal_facts | apply parse_operand_decimal ].
Qed.

Lemma decimal_literal_round_trip_witness :
  Asm.parse_number "-1024" = Some (-1024)
  /\ Asm.parse_operand "-1024" 7 ISA.PUSH16 = Ok (Some (-1024), None).
Proof.
  apply (decimal_literal_round_trip (-1024) 7 ISA.PUSH16).
  vm_compute. reflexivity.
Defined.

(** ** Reading memory back *)

Lemma hex_char_value (c : ascii) :
  Hil.is_hex_char c = true ->
  exists d, Py.digit_value c = Some d /\ 0 <= d < 16.
Proof.
  intros Hc.
  assert (Hall : forallb Spec.hex_char_ok Spec.all_chars = true) by (vm_compute; reflexivity).
  rewrite forallb_forall in Hall. specialize (Hall c (all_chars_complete c)).
  unfold Spec.hex_char_ok in Hall. rewrite Hc in Hall. cbn [implb] in Hall.
  destruct (Py.digit_value c) as [d|]; [ | discriminate ].
  exists d. split; [ reflexivity | lia ].
Qed.

Lemma findall_hex2_bytes_both (s : string) :
  Forall Spec.is_byte (map Spec.hex_pair_value (Hil.findall_hex2 s))
  /\ forall c,
       Forall Spec.is_byte (map Spec.hex_pair_value (Hil.findall_hex2 (String c s))).
Proof.
  induction s as [|d s [IH0 IH1]].
  - split; [ constructor | intros c; constructor ].
  - split; [ apply IH1 | ].
    intros c. rewrite findall_hex2_step.
    destruct (Hil.is_hex_char c) eqn:H1; [ | apply IH1 ].
    destruct (Hil.is_hex_char d) eqn:H2; [ | apply IH1 ].
    cbn [map]. constructor; [ | exact IH0 ].
    destruct (hex_char_value c H1) as (v1 & Hv1 & Hr1).
    destruct (hex_char_value d H2) as (v2 & Hv2 & Hr2).
    unfold Spec.is_byte, Spec.hex_pair_value. rewrite Hv1, Hv2. cbn [default]. 
    unfold id. lia.
Qed.

Lemma field_bytes_are_bytes (lines : list string) :
  Forall Spec.is_byte (concat (map Spec.field_bytes lines)).
Proof.
  induction lines as [|line rest IH]; [ constructor | ].
  cbn [map concat]. apply Forall_app. split; [ | exact IH ].
  unfold Spec.field_bytes.
  destruct (Py.split_char ":" line) as [|p0 [|data_part ps]]; try constructor.
  apply findall_hex2_bytes_both.
Qed.

Lemma slice_to_sublist {A} (P : A -> Prop) (n : Z) (l : list A) :
  Forall P l -> Forall P (Py.slice_to n l).
Proof.
  intros Hl. unfold Py.slice_to. destruct (n <? 0); apply Forall_take; exact Hl.
Qed.

Lemma le_bytes_le_value (bs : list Z) :
  Forall Spec.is_byte bs ->
  Asm.le_bytes (length bs) (Asm.le_value bs) = bs
  /\ 0 <= Asm.le_value bs < 2 ^ (8 * Z.of_nat (length bs)).
Proof.
  induction 1 as [|b bs Hb _ [IH Hr]]; [ split; [ reflexivity | cbn; lia ] | ].
  unfold Spec.is_byte in Hb.
  cbn [Asm.le_bytes Asm.le_value length].
  replace ((b + 256 * Asm.le_value bs) `mod` 256) with b
    by (Z.div_mod_to_equations; lia).
  replace ((b + 256 * Asm.le_value bs) `div` 256) with (Asm.le_value bs)
    by (Z.div_mod_to_equations; lia).
  rewrite IH. split; [ reflexivity | ].
  replace (8 * Z.of_nat (S (length bs))) with (8 + 8 * Z.of_nat (length bs)) by lia.
  rewrite Z.pow_add_r by lia. change (2 ^ 8) with 256. lia.
Qed.

Section Reading.

Variable Dev : Type.
Variable dev_reply : Dev -> string -> string * Dev.

Lemma peek_total (addr length : Z) (s : Hil.Session Dev) :
  Spec.printable length ->
  exists result,
    Hil.peek dev_reply addr length s
    = (Ok result,
       snd (Hil.send dev_reply
              ("zplc dbg peek " +:+ Py.hex addr +:+ " " +:+ Py.str_of_int length)
              Hil.prompt s))
    /\ Forall Spec.is_byte result
    /\ (0 <= length -> Z.of_nat (List.length result) <= length).
Proof.
  intros Hprint. unfold Hil.peek. rewrite (str_printable length Hprint).
  destruct (Hil.send dev_reply _ Hil.prompt s) as [resp s'] eqn:Hsend.
  rewrite peek_lines_field_bytes. cbn [mbind result_mbind rbind snd].
  eexists. split; [ reflexivity | ]. split.
  - apply slice_to_sublist, field_bytes_are_bytes.
  - intros Hlen. apply slice_to_nonneg. exact Hlen.
Qed.

(** X19. [peek] never raises for a length that [str] prints: whatever
    the device answers, it returns a list, and every value of the list is
    a byte, between 0 and 255, after the one command it sends. *)
Theorem peek_returns_bytes (addr length : Z) (s : Hil.Session Dev) :
  Spec.printable length ->
  exists result,
    Hil.peek dev_reply addr length s
    = (Ok result,
       snd (Hil.send dev_reply
              ("zplc dbg peek " +:+ Py.hex addr +:+ " " +:+ Py.str_of_int length)
              Hil.prompt s))
    /\ Forall Spec.is_byte result.
Proof.
  intros Hprint.
  destruct (peek_total addr length s Hprint) as (result & Hpeek & Hbytes & _).
  exists result. split; assumption.
Qed.

Lemma bit_test (b k : Z) (e : bool) :
  0 <= k ->
  (Z.land (Z.shiftr b k) 1 =? (if e then 1 else 0)) = Bool.eqb (Z.testbit b k) e
  /\ negb (Z.land (Z.shiftr b k) 1 =? 0) = Z.testbit b k.
Proof.
  intros Hk.
  assert (Hbit : Z.land (Z.shiftr b k) 1 = Z.b2z (Z.testbit b k)).
  { change 1 with (Z.ones 1). rewrite Z.land_ones by lia.
    change (2 ^ 1) with 2. rewrite <- Z.bit0_mod.
    rewrite Z.shiftr_spec by lia. rewrite Z.add_0_l. reflexivity. }
  rewrite Hbit. destruct (Z.testbit b k), e; split; reflexivity.
Qed.

(** X20. [expect_bool] reads one byte at [address + 0x1000].  When the
    read gives a byte and the bit offset is not negative, it returns
    whether bit [bit_offset] of that byte equals the expected boolean and
    prints that bit; when the read gives nothing it returns False; a
    negative bit offset on a byte that was read raises [ValueError]. *)
Theorem expect_bool_verdict (address bit_offset : Z) (expected_bool : bool)
    (description : string) (s : Hil.Session Dev) :
  exists mem s',
    Hil.peek dev_reply (address + 0x1000) 1 s = (Ok mem, s')
    /\ (mem = [] ->
        Lang.expect_bool dev_reply address bit_offset expected_bool description s
        = (Ok (false, Lang.FailRead (Py.hex (address + 0x1000))), s'))
    /\ (forall b, mem = [b] -> 0 <= bit_offset ->
        Lang.expect_bool dev_reply address bit_offset expected_bool description s
        = (Ok (Bool.eqb (Z.testbit b bit_offset) expected_bool,
               Lang.Verdict description (Lang.py_bool (Z.testbit b bit_offset))
                 (Lang.py_bool expected_bool)
                 (Bool.eqb (Z.testbit b bit_offset) expected_bool)), s'))
    /\ (mem <> [] -> bit_offset < 0 ->
        Lang.expect_bool dev_reply address bit_offset expected_bool description s
        = (Err Hil.ValueError, s'))
    /\ (List.length mem <= 1)%nat.
Proof.
  assert (Hone : Spec.printable 1) by (apply printable_word; vm_compute; reflexivity).
  destruct (peek_total (address + 0x1000) 1 s Hone) as (mem & Hpeek & _ & Hlen).
  specialize (Hlen ltac:(lia)).
  eexists mem, _. split; [ exact Hpeek | ].
  unfold Lang.expect_bool. rewrite Hpeek.
  split; [ intros ->; reflexivity | ].
  split; [ | split; [ | lia ] ].
  - intros b -> Hk.
    destruct (Z.ltb_spec bit_offset 0); [ lia | ].
    destruct (bit_test b bit_offset expected_bool Hk) as [-> ->]. reflexivity.
  - intros Hne Hk. destruct mem as [|b rest]; [ contradiction | ].
    destruct (Z.ltb_spec bit_offset 0); [ reflexivity | lia ].
Qed.

Lemma expect_memory_verdict (address : Z) (fmt : Lang.Format) (expected_value : Z)
    (description : string) (s : Hil.Session Dev) :
  let size := Lang.size_of fmt in
  Spec.printable expected_value ->
  exists mem s' verdict printed,
    Hil.peek dev_reply address size s = (Ok mem, s')
    /\ Lang.expect_memory dev_reply address fmt expected_value description s
       = (Ok (verdict, printed), s')
    /\ (verdict = true <->
        mem = Asm.le_bytes (Z.to_nat size) (expected_value `mod` 2 ^ (8 * size))
        /\ - 2 ^ (8 * size - 1) <= expected_value < 2 ^ (8 * size - 1))
    /\ (Z.of_nat (List.length mem) = size ->
        printed = Lang.Verdict description
                    (Py.str_of_int (Spec.signed_value size (Asm.le_value mem)))
                    (Py.str_of_int expected_value) verdict).
Proof.
  intros size Hprint.
  assert (Hword : Spec.printable size)
    by (apply printable_word; destruct fmt; vm_compute; reflexivity).
  destruct (peek_total address size s Hword) as (mem & Hpeek & Hbytes & Hlen).
  assert (Hsize : 0 <= size) by (destruct fmt; cbn; lia).
  specialize (Hlen Hsize).
  unfold Lang.expect_memory. fold size. rewrite Hpeek.
  destruct (Z.ltb_spec (Z.of_nat (List.length mem)) size) as [Hshort|Hfull].
  - eexists mem, _, false, _. split; [ reflexivity | ]. split; [ reflexivity | ].
    split; [ | lia ].
    split; [ discriminate | ]. intros [Hmem _]. exfalso.
    apply (f_equal (@List.length Z)) in Hmem. rewrite length_le_bytes in Hmem. lia.
  - assert (Hexact : Z.of_nat (List.length mem) = size) by lia.
    rewrite (bytearray_bytes mem Hbytes). cbn [mbind result_mbind rbind].
    unfold Lang.unpack_int. fold size. rewrite Hexact, Z.eqb_refl.
    destruct (le_bytes_le_value mem Hbytes) as [Hinv Hrange].
    replace (List.length mem) with (Z.to_nat size) in Hinv by lia.
    rewrite Hexact in Hrange.
    cbv zeta.
    assert (Hwidth : 2 ^ (8 * size) <= 2 ^ 32 /\ 2 <= 2 ^ (8 * size))
      by (split; apply Z.leb_le; destruct fmt; vm_compute; reflexivity).
    rewrite str_printable
      by (apply printable_word;
          destruct (Z.ltb_spec (Asm.le_value mem) (2 ^ (8 * size) `div` 2));
          Z.div_mod_to_equations; lia).
    rewrite (str_printable expected_value Hprint).
    eexists mem, _, _, _. split; [ reflexivity | ]. split; [ reflexivity | ].
    set (u := Asm.le_value mem) in *.
    assert (Hhalf : 2 ^ (8 * size) `div` 2 = 2 ^ (8 * size - 1)
                    /\ 2 ^ (8 * size) = 2 * 2 ^ (8 * size - 1)
                    /\ 0 < 2 ^ (8 * size - 1))
      by (destruct fmt; vm_compute; repeat split; reflexivity).
    destruct Hhalf as (Hhalf & Hdouble & Hpos).
    split.
    + rewrite Z.eqb_eq. rewrite Hhalf. split.
      * intros Hval.
        destruct (Z.ltb_spec u (2 ^ (8 * size - 1))).
        -- subst expected_value. rewrite Z.mod_small by lia.
           split; [ symmetry; exact Hinv | lia ].
        -- assert (Hmod : expected_value `mod` 2 ^ (8 * size) = u).
           { symmetry. apply (Z.mod_unique _ _ (-1)); lia. }
           rewrite Hmod. split; [ symmetry; exact Hinv | lia ].
      * intros [Hmem Hexp].
        assert (Hu : u = expected_value `mod` 2 ^ (8 * size)).
        { unfold u. rewrite Hmem. apply le_value_le_bytes.
          replace (Z.of_nat (Z.to_nat size)) with size by lia.
          apply Z.mod_pos_bound. lia. }
        destruct (Z_lt_le_dec expected_value 0) as [Hneg|Hnonneg].
        -- assert (Hmod : expected_value `mod` 2 ^ (8 * size)
                          = expected_value + 2 ^ (8 * size)).
           { symmetry. apply (Z.mod_unique _ _ (-1)); lia. }
           destruct (Z.ltb_spec u (2 ^ (8 * size - 1))); lia.
        -- rewrite Z.mod_small in Hu by lia.
           destruct (Z.ltb_spec u (2 ^ (8 * size - 1))); lia.
    + intros _. unfold Spec.signed_value. fold u. rewrite Hhalf. reflexivity.
Qed.

(** X21. [expect_int16] and [expect_int32] do not raise for an expected
    value that [str] prints.  They read two and four bytes at
    [address + 0x1000] and return True exactly when the bytes read are
    the little-endian two's-complement encoding of the expected value,
    which must fit the signed width; a short read returns False. *)
Theorem expect_int_verdict (address expected_value : Z) (description : string)
    (s : Hil.Session Dev) :
  Spec.printable expected_value ->
  (exists mem s' verdict printed,
     Hil.peek dev_reply (address + 0x1000) 2 s = (Ok mem, s')
     /\ Lang.expect_int16 dev_reply address expected_value description s
        = (Ok (verdict, printed), s')
     /\ (verdict = true <->
         mem = Asm.le_bytes 2 (expected_value `mod` 65536)
         /\ -32768 <= expected_value < 32768))
  /\ (exists mem s' verdict printed,
        Hil.peek dev_reply (address + 0x1000) 4 s = (Ok mem, s')
        /\ Lang.expect_int32 dev_reply address expected_value description s
           = (Ok (verdict, printed), s')
        /\ (verdict = true <->
            mem = Asm.le_bytes 4 (expected_value `mod` 4294967296)
            /\ -2147483648 <= expected_value < 2147483648)).
Proof.
  intros Hprint. split.
  - destruct (expect_memory_verdict (address + 0x1000) Lang.Int16 expected_value
                description s Hprint)
      as (mem & s' & verdict & printed & Hpeek & Hrun & Hiff & _).
    exists mem, s', verdict, printed. split; [ exact Hpeek | ].
    split; [ exact Hrun | exact Hiff ].
  - destruct (expect_memory_verdict (address + 0x1000) Lang.Int32 expected_value
                description s Hprint)
      as (mem & s' & verdict & printed & Hpeek & Hrun & Hiff & _).
    exists mem, s', verdict, printed. split; [ exact Hpeek | ].
    split; [ exact Hrun | exact Hiff ].
Qed.

End Reading.

Lemma expect_bool_verdict_witness :
  fst (Lang.expect_bool (Samples.answering Samples.short_dump) 0 1 true "Flag" Samples.fresh)
  = Ok (true, Lang.Verdict "Flag" "True" "True" true).
Proof.
  destruct (expect_bool_verdict unit (Samples.answering Samples.short_dump) 0 1 true
              "Flag" Samples.fresh) as (mem & s' & Hpeek & _ & Hbit & _).
  assert (Hmem : mem = [10]) by (vm_compute in Hpeek; congruence).
  rewrite (Hbit 10 Hmem ltac:(lia)). reflexivity.
Defined.

Lemma expect_int_verdict_witness :
  fst (Lang.expect_int16 (Samples.answering Samples.short_dump) 0 (-246) "Int16"
         Samples.fresh)
  = Ok (true, Lang.Verdict "Int16" "-246" "-246" true).
Proof.
  assert (Hprint : Spec.printable (-246)) by (vm_compute; reflexivity).
  destruct (expect_int_verdict unit (Samples.answering Samples.short_dump) 0 (-246)
              "Int16" Samples.fresh Hprint)
    as [(mem & s' & verdict & printed & Hpeek & Hrun & Hiff) _].
  assert (Hmem : mem = [10; 255]) by (vm_compute in Hpeek; congruence).
  assert (Hverdict : verdict = true).
  { apply Hiff. split; [ rewrite Hmem; reflexivity | lia ]. }
  subst verdict. vm_compute in Hrun. vm_compute. congruence.
Defined.

(** ** Numeric operands *)

Lemma text_char_facts (c : ascii) :
  Spec.text_char c = true ->
  Py.isspace c = false /\ Py.is_linebreak c = false /\ Ascii.eqb c ";" = false
  /\ Ascii.eqb c ":" = false /\ Ascii.eqb c "." = false.
Proof.
  intros Hc.
  assert (Hall : forallb Spec.text_char_ok Spec.all_chars = true) by (vm_compute; reflexivity).
  rewrite forallb_forall in Hall. specialize (Hall c (all_chars_complete c)).
  unfold Spec.text_char_ok in Hall. rewrite Hc in Hall. cbn [implb] in Hall.
  repeat (apply andb_true_iff in Hall; destruct Hall as [Hall ?]).
  repeat match goal with
         | H : negb _ = true |- _ => apply negb_true_iff in H
         end.
  repeat split; assumption.
Qed.

Lemma every_char_app (p : ascii -> bool) (a b : string) :
  Spec.every_char p (a +:+ b) = Spec.every_char p a && Spec.every_char p b.
Proof.
  induction a as [|c a IH]; [ reflexivity | ].
  change (String c a +:+ b) with (String c (a +:+ b)).
  cbn [Spec.every_char]. rewrite IH, andb_assoc. reflexivity.
Qed.

Lemma every_char_impl (p q : ascii -> bool) (s : string) :
  (forall c, p c = true -> q c = true) ->
  Spec.every_char p s = true -> Spec.every_char q s = true.
Proof.
  intros Hpq. induction s as [|c s IH]; [ reflexivity | ].
  cbn [Spec.every_char]. intros [Hc Hs]%andb_true_iff.
  rewrite (Hpq c Hc), (IH Hs). reflexivity.
Qed.

Lemma has_char_text (c : ascii) (s : string) :
  Spec.text_char c = false ->
  Spec.every_char Spec.text_char s = true -> Py.has_char c s = false.
Proof.
  intros Hc. induction s as [|d s IH]; [ reflexivity | ].
  cbn [Spec.every_char Py.has_char]. intros [Hd Hs]%andb_true_iff.
  rewrite (IH Hs), orb_false_r.
  destruct (Ascii.eqb_spec c d) as [->|]; [ congruence | reflexivity ].
Qed.

Lemma has_char_app (c : ascii) (a b : string) :
  Py.has_char c (a +:+ b) = Py.has_char c a || Py.has_char c b.
Proof.
  induction a as [|d a IH]; [ reflexivity | ].
  change (String d a +:+ b) with (String d (a +:+ b)).
  cbn [Py.has_char]. rewrite IH, orb_assoc. reflexivity.
Qed.

Lemma splitlines_aux_one (s : string) :
  Spec.every_char (fun c => negb (Py.is_linebreak c)) s = true ->
  forall cur, Py.splitlines_aux s cur true = [cur +:+ s].
Proof.
  induction s as [|c s IH]; intros Hs cur.
  - cbn [Py.splitlines_aux]. rewrite append_nil_r. reflexivity.
  - cbn [Spec.every_char] in Hs. apply andb_true_iff in Hs as [Hc Hs].
    apply negb_true_iff in Hc.
    cbn [Py.splitlines_aux]. rewrite Hc, (IH Hs), append_assoc. reflexivity.
Qed.

Lemma splitlines_one (c : ascii) (s : string) :
  Spec.every_char (fun c => negb (Py.is_linebreak c)) (String c s) = true ->
  Py.splitlines (String c s) = [String c s].
Proof.
  intros Hs. unfold Py.splitlines.
  pose proof Hs as Hs'. cbn [Spec.every_char] in Hs'.
  apply andb_true_iff in Hs' as [Hc Hs']. apply negb_true_iff in Hc.
  cbn [Py.splitlines_aux]. rewrite Hc, (splitlines_aux_one s Hs'). reflexivity.
Qed.

Lemma rstrip_keep (c : ascii) (s : string) :
  Py.rstrip s = s -> s <> EmptyString -> Py.rstrip (String c s) = String c s.
Proof.
  intros Hs Hne. cbn [Py.rstrip]. rewrite Hs.
  destruct s; [ contradiction | reflexivity ].
Qed.

Lemma rstrip_app (a b : string) :
  Py.rstrip b = b -> b <> EmptyString -> Py.rstrip (a +:+ b) = a +:+ b.
Proof.
  intros Hb Hne. induction a as [|c a IH]; [ exact Hb | ].
  change (String c a +:+ b) with (String c (a +:+ b)).
  cbn [Py.rstrip]. rewrite IH.
  destruct (a +:+ b) eqn:Hab; [ | reflexivity ].
  destruct a; [ cbn in Hab; contradiction | discriminate ].
Qed.

Lemma rstrip_text (s : string) :
  Spec.every_char Spec.text_char s = true -> Py.rstrip s = s.
Proof.
  induction s as [|c s IH]; [ reflexivity | ].
  cbn [Spec.every_char]. intros [Hc Hs]%andb_true_iff.
  apply rstrip_cons; [ apply (text_char_facts c Hc) | auto ].
Qed.

Lemma span_ident_app (w : string) (c : ascii) (r : string) :
  Spec.every_char Asm.ident_char w = true ->
  Asm.ident_char c = false ->
  Asm.span_ident (w +:+ String c r) = (w, String c r).
Proof.
  intros Hw Hc. induction w as [|d w IH].
  - change (EmptyString +:+ String c r) with (String c r).
    cbn [Asm.span_ident]. rewrite Hc. reflexivity.
  - cbn [Spec.every_char] in Hw. apply andb_true_iff in Hw as [Hd Hw].
    change (String d w +:+ String c r) with (String d (w +:+ String c r)).
    cbn [Asm.span_ident]. rewrite Hd, (IH Hw). reflexivity.
Qed.

Lemma span_word_app (w : string) (c : ascii) (r : string) :
  Spec.every_char Spec.text_char w = true ->
  Py.isspace c = true ->
  Py.span_word (w +:+ String c r) = (w, String c r).
Proof.
  intros Hw Hc. induction w as [|d w IH].
  - change (EmptyString +:+ String c r) with (String c r).
    cbn [Py.span_word]. rewrite Hc. reflexivity.
  - cbn [Spec.every_char] in Hw. apply andb_true_iff in Hw as [Hd Hw].
    change (String d w +:+ String c r) with (String d (w +:+ String c r)).
    cbn [Py.span_word]. rewrite (proj1 (text_char_facts d Hd)), (IH Hw). reflexivity.
Qed.

Lemma mnemonic_ok_name (op : ISA.Opcode) : Spec.mnemonic_ok (ISA.name op) = true.
Proof. destruct op; vm_compute; reflexivity. Qed.

Lemma str_of_int_shape (n : Z) :
  exists c r,
    Py.str_of_int n = String c r
    /\ Spec.every_char Spec.text_char (String c r) = true.
Proof.
  assert (Hdigits : forall d, Spec.every_char Spec.text_char
                                (DecimalString.NilEmpty.string_of_uint d) = true).
  { intros d. apply (every_char_impl Py.is_digit).
    - intros c Hc. unfold Spec.text_char. rewrite Hc, orb_true_r. reflexivity.
    - induction d; cbn [DecimalString.NilEmpty.string_of_uint Spec.every_char]; auto. }
  assert (Hzero : forall d, d <> Decimal.Nil ->
                    DecimalString.NilZero.string_of_uint d
                    = DecimalString.NilEmpty.string_of_uint d)
    by (intros d Hd; destruct d; [ contradiction | reflexivity .. ]).
  destruct n as [|p|p].
  - exists "0"%char, EmptyString. split; reflexivity.
  - unfold Py.str_of_int. cbn [Z.to_int DecimalString.NilZero.string_of_int].
    pose proof (DecimalPos.Unsigned.to_uint_nonnil p) as Hnil.
    rewrite (Hzero _ Hnil). specialize (Hdigits (Pos.to_uint p)).
    destruct (DecimalString.NilEmpty.string_of_uint (Pos.to_uint p)) as [|c r] eqn:Hs.
    { exfalso. exact (nonempty_of_uint _ Hnil Hs). }
    exists c, r. split; [ reflexivity | exact Hdigits ].
  - unfold Py.str_of_int. cbn [Z.to_int DecimalString.NilZero.string_of_int].
    pose proof (DecimalPos.Unsigned.to_uint_nonnil p) as Hnil.
    rewrite (Hzero _ Hnil). specialize (Hdigits (Pos.to_uint p)).
    eexists "-"%char, _. split; [ reflexivity | ].
    cbn [Spec.every_char]. rewrite Hdigits. reflexivity.
Qed.

Lemma parse_line_numeric (op : ISA.Opcode) (n ln : Z) (st : Asm.ZPLCAssembler) :
  0 < ISA.OPERAND_SIZE op ->
  Asm.parse_line (ISA.name op +:+ " " +:+ Py.str_of_int n) ln st
  = Ok {| Asm.instructions :=
            Asm.instructions st
            ++ [Asm.mkInstruction op (Some n) None ln (Asm.current_address st)];
          Asm.labels := Asm.labels st;
          Asm.entry_point := Asm.entry_point st;
          Asm.current_address := Asm.current_address st + (1 + ISA.OPERAND_SIZE op) |}.
Proof.
  intros Hsize.
  pose proof (OPCODE_BY_NAME_name op) as Hlookup.
  pose proof (mnemonic_ok_name op) as Hname.
  pose proof (parse_operand_decimal n ln op) as Hoperand.
  destruct (str_of_int_shape n) as (d0 & dr & Hd & Hdtext).
  rewrite Hd in *.
  destruct (ISA.name op) as [|c0 w] eqn:Hw; [ discriminate Hname | ].
  cbn [Spec.mnemonic_ok] in Hname.
  apply andb_true_iff in Hname as [[Hstart Hident]%andb_true_iff Hupper].
  apply String.eqb_eq in Hupper.
  assert (Hwtext : Spec.every_char Spec.text_char (String c0 w) = true).
  { apply (every_char_impl Asm.ident_char); [ | exact Hident ].
    intros c Hc. unfold Spec.text_char. rewrite Hc. reflexivity. }
  pose proof Hwtext as Hc0. cbn [Spec.every_char] in Hc0.
  apply andb_true_iff in Hc0 as [Hc0 _].
  destruct (text_char_facts c0 Hc0) as (Hc0sp & _ & _ & _ & Hc0dot).
  pose proof Hdtext as Hd0. cbn [Spec.every_char] in Hd0.
  apply andb_true_iff in Hd0 as [Hd0 _].
  destruct (text_char_facts d0 Hd0) as (Hd0sp & _ & _ & Hd0colon & _).
  change (" " +:+ String d0 dr) with (String " " (String d0 dr)).
  set (rest := String " " (String d0 dr)).
  assert (Hsemi : Py.has_char ";" (String c0 w +:+ rest) = false).
  { rewrite has_char_app, (has_char_text ";" _ eq_refl Hwtext).
    unfold rest. cbn [Py.has_char orb]. change (Ascii.eqb ";" " ") with false.
    cbn [orb]. exact (has_char_text ";" _ eq_refl Hdtext). }
  assert (Hstrip : Py.strip (String c0 w +:+ rest) = String c0 w +:+ rest).
  { unfold Py.strip.
    change (String c0 w +:+ rest) with (String c0 (w +:+ rest)).
    rewrite lstrip_first by exact Hc0sp.
    change (String c0 (w +:+ rest)) with (String c0 w +:+ rest).
    apply rstrip_app; [ | discriminate ].
    unfold rest. apply rstrip_keep; [ apply rstrip_text; exact Hdtext | discriminate ]. }
  assert (Hlabel : Asm.match_label (String c0 w +:+ rest) = None).
  { unfold Asm.match_label.
    change (String c0 w +:+ rest) with (String c0 (w +:+ rest)) at 1.
    cbv iota. rewrite Hstart.
    unfold rest. rewrite (span_ident_app _ " " _ Hident eq_refl).
    change (Py.lstrip (String " " (String d0 dr))) with (Py.lstrip (String d0 dr)).
    rewrite lstrip_first by exact Hd0sp. rewrite Hd0colon. reflexivity. }
  assert (Hsplit : Py.split_ws1 (String c0 w +:+ rest) = [String c0 w; String d0 dr]).
  { unfold Py.split_ws1.
    change (String c0 w +:+ rest) with (String c0 (w +:+ rest)).
    rewrite lstrip_first by exact Hc0sp.
    change (String c0 (w +:+ rest)) with (String c0 w +:+ rest).
    unfold rest. rewrite (span_word_app _ " " _ Hwtext eq_refl).
    change (Py.lstrip (String " " (String d0 dr))) with (Py.lstrip (String d0 dr)).
    rewrite lstrip_first by exact Hd0sp. reflexivity. }
  assert (Hdot : Py.startswith "." (String c0 w) = false).
  { unfold Py.startswith. cbn [String.prefix].
    destruct (ascii_dec "." c0) as [<-|]; [ discriminate Hc0dot | reflexivity ]. }
  unfold Asm.parse_line, Asm.strip_comment. rewrite Hsemi, Hstrip.
  change (Asm.is_empty (String c0 w +:+ rest)) with false. cbv iota.
  rewrite Hlabel.
  unfold Asm.parse_statement. rewrite Hsplit, Hupper, Hdot, Hlookup.
  destruct (Z.ltb_spec 0 (ISA.OPERAND_SIZE op)); [ | lia ].
  change (Asm.is_empty (String d0 dr)) with false. cbv iota.
  rewrite Hoperand. reflexivity.
Qed.

Lemma splitlines_numeric (op : ISA.Opcode) (n : Z) :
  Py.splitlines (ISA.name op +:+ " " +:+ Py.str_of_int n)
  = [ISA.name op +:+ " " +:+ Py.str_of_int n].
Proof.
  pose proof (mnemonic_ok_name op) as Hname.
  destruct (str_of_int_shape n) as (d0 & dr & Hd & Hdtext). rewrite Hd.
  destruct (ISA.name op) as [|c0 w]; [ discriminate Hname | ].
  cbn [Spec.mnemonic_ok] in Hname.
  apply andb_true_iff in Hname as [[_ Hident]%andb_true_iff _].
  assert (Hplain : forall s, Spec.every_char Spec.text_char s = true ->
                     Spec.every_char (fun c => negb (Py.is_linebreak c)) s = true).
  { intros s. apply every_char_impl. intros c Hc.
    destruct (text_char_facts c Hc) as (_ & -> & _). reflexivity. }
  assert (Hwtext : Spec.every_char Spec.text_char (String c0 w) = true).
  { apply (every_char_impl Asm.ident_char); [ | exact Hident ].
    intros c Hc. unfold Spec.text_char. rewrite Hc. reflexivity. }
  change (String c0 w +:+ " " +:+ String d0 dr)
    with (String c0 (w +:+ String " " (String d0 dr))).
  apply splitlines_one.
  change (String c0 (w +:+ String " " (String d0 dr)))
    with (String c0 w +:+ String " " (String d0 dr)).
  rewrite every_char_app, (Hplain _ Hwtext).
  change (Spec.every_char (fun c => negb (Py.is_linebreak c)) (String " " (String d0 dr)))
    with (Spec.every_char (fun c => negb (Py.is_linebreak c)) (String d0 dr)).
  rewrite (Hplain _ Hdtext). reflexivity.
Qed.

(** X22. A numeric operand is not range-checked: for every opcode that
    takes an operand and every integer [n] that [str] prints, the line
    made of the mnemonic and the decimal numeral of [n] assembles, to the
    opcode byte followed by [n] reduced modulo two to the width of the
    operand, least significant byte first. *)
Theorem numeric_operand_wraps (op : ISA.Opcode) (n : Z) :
  0 < ISA.OPERAND_SIZE op ->
  Spec.printable n ->
  Asm.assemble (ISA.name op +:+ " " +:+ Py.str_of_int n)
  = Ok (ISA.value op
        :: Asm.le_bytes (Z.to_nat (ISA.OPERAND_SIZE op))
             (n `mod` 2 ^ (8 * ISA.OPERAND_SIZE op))).
Proof.
  intros Hsize _.
  unfold Asm.assemble, Asm.assemble_state.
  rewrite splitlines_numeric. cbn [Asm.parse_lines].
  rewrite (parse_line_numeric op n 1 Asm.init Hsize).
  cbn [mbind result_mbind rbind].
  unfold Asm.resolve_labels.
  cbn [Asm.instructions Asm.labels Asm.entry_point Asm.current_address Asm.init app
       Asm.resolve_instrs].
  unfold Asm.resolve_instr at 1. cbn [Asm.operand_label].
  cbn [mbind result_mbind rbind].
  unfold Asm.emit_bytecode, Asm.emit_instrs.
  cbn [Asm.instructions flat_map app]. unfold Asm.emit_instr.
  cbn [Asm.opcode Asm.operand]. rewrite app_nil_r. f_equal.
  destruct (operand_size_cases op) as [H0|[H1|[H2|H4]]].
  - lia.
  - rewrite H1. change (1 =? 1) with true. cbv iota.
    change (Z.to_nat 1) with 1%nat. change (8 * 1) with 8. cbn [Asm.le_bytes].
    change 255 with (Z.ones 8). rewrite Z.land_ones by lia.
    rewrite Z.mod_mod by lia. reflexivity.
  - rewrite H2. change (2 =? 1) with false. change (2 =? 2) with true. cbv iota.
    change 65535 with (Z.ones 16). rewrite Z.land_ones by lia. reflexivity.
  - rewrite H4. change (4 =? 1) with false. change (4 =? 2) with false.
    change (4 =? 4) with true. cbv iota.
    change 4294967295 with (Z.ones 32). rewrite Z.land_ones by lia. reflexivity.
Qed.

Lemma numeric_operand_wraps_witness :
  Asm.assemble "PUSH8 300" = Ok [0x40; 44]
  /\ Asm.assemble "PUSH16 -1" = Ok [0x88; 255; 255].
Proof.
  split.
  - apply (numeric_operand_wraps ISA.PUSH8 300); vm_compute; reflexivity.
  - apply (numeric_operand_wraps ISA.PUSH16 (-1)); vm_compute; reflexivity.
Defined.

Lemma peek_returns_bytes_witness :
  exists result,
    fst (Hil.peek (Samples.answering Samples.three_byte_dump) 0x1000 2 Samples.fresh)
    = Ok result
    /\ Forall Spec.is_byte result.
Proof.
  assert (Hprint : Spec.printable 2) by (vm_compute; reflexivity).
  destruct (peek_returns_bytes unit (Samples.answering Samples.three_byte_dump) 0x1000 2
              Samples.fresh Hprint) as (result & Hpeek & Hbytes).
  exists result. rewrite Hpeek. split; [ reflexivity | exact Hbytes ].
Defined.

(** ** Character literals *)

Lemma rstrip_last (c : ascii) (s : string) :
  Py.isspace c = false -> Py.ends_with_char c s = true -> Py.rstrip s = s.
Proof.
  intros Hc. induction s as [|d s IH]; [ reflexivity | ].
  destruct s as [|e s].
  - cbn [Py.ends_with_char]. destruct (Ascii.eqb_spec c d) as [<-|]; [ | discriminate ].
    intros _. cbn [Py.rstrip]. rewrite Hc. reflexivity.
  - intros Hend. apply rstrip_keep; [ apply IH; exact Hend | discriminate ].
Qed.

Lemma ends_with_char_snoc (c : ascii) (body : string) :
  Py.ends_with_char c (body +:+ String c EmptyString) = true
  /\ (1 <= String.length (body +:+ String c EmptyString))%nat.
Proof.
  induction body as [|d body [IH Hlen]].
  - change (EmptyString +:+ String c EmptyString) with (String c EmptyString).
    cbn [Py.ends_with_char String.length]. rewrite Ascii.eqb_refl. split; [ reflexivity | lia ].
  - change (String d body +:+ String c EmptyString)
      with (String d (body +:+ String c EmptyString)).
    destruct (body +:+ String c EmptyString) as [|e r] eqn:Hr; [ cbn in Hlen; lia | ].
    split; [ exact IH | cbn [String.length]; lia ].
Qed.

(** X23. A character literal stands for its first character: between
    two quotes, a first character other than the backslash gives its
    code, whatever follows before the closing quote; after a backslash
    the next character gives its escape when the table has it and the
    code of the backslash, 92, when it has not. *)
Theorem character_literal (c : ascii) (body : string) :
  (Ascii.eqb c "\" = false ->
   Asm.parse_number (String "'" (String c (body +:+ "'"))) = Some (Py.code c))
  /\ Asm.parse_number (String "'" (String "\" (String c (body +:+ "'"))))
     = Some (default 92 (Asm.escapes c)).
Proof.
  destruct (ends_with_char_snoc "'" body) as [Hend Hlen].
  assert (Hstrip : forall s,
             s = body +:+ "'" \/ s = String c (body +:+ "'")
             \/ s = String "\" (String c (body +:+ "'")) ->
             Py.strip (String "'" s) = String "'" s
             /\ Py.ends_with_char "'" (String "'" s) = true).
  { intros s Hs.
    assert (Hs' : Py.ends_with_char "'" s = true /\ s <> EmptyString).
    { destruct Hs as [Hs|[Hs|Hs]]; subst s.
      - split; [ exact Hend | ].
        destruct (body +:+ "'"); [ cbn in Hlen; lia | discriminate ].
      - split; [ | discriminate ].
        destruct (body +:+ "'") eqn:Hb; [ cbn in Hlen; lia | exact Hend ].
      - split; [ | discriminate ].
        destruct (body +:+ "'") eqn:Hb; [ cbn in Hlen; lia | exact Hend ]. }
    destruct Hs' as [Hends Hne].
    assert (Hall : Py.ends_with_char "'" (String "'" s) = true)
      by (destruct s; [ contradiction | exact Hends ]).
    split; [ | exact Hall ].
    unfold Py.strip. rewrite lstrip_first by reflexivity.
    apply (rstrip_last "'"); [ reflexivity | exact Hall ]. }
  split.
  - intros Hc.
    destruct (Hstrip (String c (body +:+ "'")) ltac:(auto)) as [Hs He].
    unfold Asm.parse_number. rewrite Hs, He.
    change (Py.startswith "'" (String "'" (String c (body +:+ "'")))) with true.
    assert (Hlen3 : (3 <=? Asm.len (String "'" (String c (body +:+ "'")))) = true).
    { apply Z.leb_le. unfold Asm.len. cbn [String.length]. lia. }
    rewrite Hlen3. cbn [andb]. rewrite Hc. reflexivity.
  - destruct (Hstrip (String "\" (String c (body +:+ "'"))) ltac:(auto)) as [Hs He].
    unfold Asm.parse_number. rewrite Hs, He.
    change (Py.startswith "'" (String "'" (String "\" (String c (body +:+ "'")))))
      with true.
    assert (Hlen3 : (3 <=? Asm.len (String "'" (String "\" (String c (body +:+ "'")))))
                    = true).
    { apply Z.leb_le. unfold Asm.len. cbn [String.length]. lia. }
    assert (Hlen4 : (4 <=? Asm.len (String "'" (String "\" (String c (body +:+ "'")))))
                    = true).
    { apply Z.leb_le. unfold Asm.len. cbn [String.length]. lia. }
    rewrite Hlen3, Hlen4. cbn [andb]. change (Ascii.eqb "\" "\") with true. cbv iota.
    destruct (Asm.escapes c); reflexivity.
Qed.

Lemma character_literal_witness :
  Asm.parse_number "'A'" = Some 65
  /\ Asm.parse_number "'AB'" = Some 65
  /\ Asm.parse_number "'\n'" = Some 10
  /\ Asm.parse_number "'\q'" = Some 92.
Proof.
  destruct (character_literal "A" "") as [Ha _].
  destruct (character_literal "A" "B") as [Hab _].
  destruct (character_literal "n" "") as [_ Hn].
  destruct (character_literal "q" "") as [_ Hq].
  split; [ apply Ha; reflexivity | ].
  split; [ apply Hab; reflexivity | ].
  split; [ exact Hn | exact Hq ].
Defined.

(** ** The entry point *)

(** X24. After both passes the entry point is a number: the one that pass
    1 left, or the address of the label that [.ENTRY] named; an entry
    label that pass 1 did not define makes the assembly fail instead.
    Pass 2 leaves the label table and the cursor as pass 1 left them. *)
Theorem entry_point_resolved (source : string) (st : Asm.ZPLCAssembler) :
  Asm.assemble_state source = Ok st ->
  exists st1 e,
    Asm.parse_lines (Py.splitlines source) 1 Asm.init = Ok st1
    /\ Asm.entry_point st = Asm.EntryInt e
    /\ Spec.entry_value st = e
    /\ match Asm.entry_point st1 with
       | Asm.EntryInt n => e = n
       | Asm.EntryStr name =>
           exists label, Asm.labels st1 !! name = Some label /\ e = Asm.lbl_address label
       end
    /\ Asm.labels st = Asm.labels st1
    /\ Asm.current_address st = Asm.current_address st1.
Proof.
  unfold Asm.assemble_state. intros Hst.
  destruct (Asm.parse_lines (Py.splitlines source) 1 Asm.init) as [st1|err] eqn:Hpass1;
    [ | discriminate ].
  cbn [mbind result_mbind rbind] in Hst. unfold Asm.resolve_labels in Hst.
  destruct (Asm.resolve_instrs (Asm.labels st1) (Asm.instructions st1)) as [instrs|err];
    [ | discriminate ].
  cbn [mbind result_mbind rbind] in Hst.
  destruct (Asm.entry_point st1) as [n|name] eqn:Hentry.
  - cbn [mbind result_mbind rbind] in Hst. injection Hst as <-.
    exists st1, n. rewrite Hentry. repeat split; reflexivity.
  - destruct (Asm.labels st1 !! name) as [label|] eqn:Hlabel; [ | discriminate ].
    cbn [mbind result_mbind rbind] in Hst. injection Hst as <-.
    exists st1, (Asm.lbl_address label). rewrite Hentry.
    split; [ reflexivity | ]. split; [ reflexivity | ]. split; [ reflexivity | ].
    split; [ exists label; split; [ exact Hlabel | reflexivity ] | ].
    split; reflexivity.
Qed.

Lemma entry_point_resolved_witness :
  exists st,
    Asm.assemble_state Samples.entry_program = Ok st
    /\ Asm.entry_point st = Asm.EntryInt 1.
Proof.
  destruct (Asm.assemble_state Samples.entry_program) as [st|e] eqn:Hst;
    [ | exfalso; revert Hst; vm_compute; discriminate ].
  exists st. split; [ reflexivity | ].
  destruct (entry_point_resolved Samples.entry_program st Hst)
    as (st1 & e & _ & Hentry & Hval & _).
  rewrite Hentry, <- Hval.
  replace (Spec.entry_value st)
    with (match Asm.assemble_state Samples.entry_program with
          | Ok s => Spec.entry_value s | Err _ => 0 end) by (rewrite Hst; reflexivity).
  vm_compute. reflexivity.
Defined.

(** ** Hexadecimal literals *)

Lemma scan_digit_step_base (base : Z) (c : ascii) (d : Z) (s : string) (acc : Z) (n : nat) :
  Ascii.eqb c Py.underscore = false ->
  Py.digit_value c = Some d ->
  (d <? base) = true ->
  Py.scan_digits base (String c s) acc n false
  = Py.scan_digits base s (acc * base + d) (S n) false.
Proof. intros Hu Hv Hd. cbn [Py.scan_digits]. rewrite Hu, Hv, Hd. reflexivity. Qed.

Lemma upper_cons (c : ascii) (s : string) :
  Py.upper (String c s) = String (Py.upper_char c) (Py.upper s).
Proof. reflexivity. Qed.

Ltac scan_hex k :=
  cbn [HexadecimalString.NilEmpty.string_of_uint];
  rewrite upper_cons, (scan_digit_step_base 16 _ k) by reflexivity.

Ltac scan_hex_acc k IH n :=
  scan_hex k; cbn [Pos.of_hex_uint_acc];
  match goal with
  | |- context [Py.scan_digits 16 _ ?a (S n) false] =>
      match goal with
      | |- context [Pos.of_hex_uint_acc _ ?p] =>
          replace a with (Z.pos p) by lia;
          let m := fresh "m" in
          let Hm := fresh "Hm" in
          let Hle := fresh "Hle" in
          destruct (IH p (S n)) as (m & Hm & Hle);
          exists m; split; [ exact Hm | lia ]
      end
  end.

Lemma scan_hex_uint_acc (d : Hexadecimal.uint) :
  forall (acc : positive) (n : nat),
    exists m,
      Py.scan_digits 16 (Py.upper (HexadecimalString.NilEmpty.string_of_uint d))
        (Z.pos acc) n false
      = Some (Z.pos (Pos.of_hex_uint_acc d acc), m, EmptyString)
      /\ (n <= m)%nat.
Proof.
  induction d as [|d IH|d IH|d IH|d IH|d IH|d IH|d IH|d IH|d IH|d IH
                  |d IH|d IH|d IH|d IH|d IH|d IH]; intros acc n.
  - exists n. split; [ reflexivity | lia ].
  - scan_hex_acc 0 IH n.
  - scan_hex_acc 1 IH n.
  - scan_hex_acc 2 IH n.
  - scan_hex_acc 3 IH n.
  - scan_hex_acc 4 IH n.
  - scan_hex_acc 5 IH n.
  - scan_hex_acc 6 IH n.
  - scan_hex_acc 7 IH n.
  - scan_hex_acc 8 IH n.
  - scan_hex_acc 9 IH n.
  - scan_hex_acc 10 IH n.
  - scan_hex_acc 11 IH n.
  - scan_hex_acc 12 IH n.
  - scan_hex_acc 13 IH n.
  - scan_hex_acc 14 IH n.
  - scan_hex_acc 15 IH n.
Qed.

Ltac scan_hex_lead k d n :=
  scan_hex k; cbn [Pos.of_hex_uint Z.mul Z.add];
  let m := fresh "m" in
  let Hm := fresh "Hm" in
  let Hle := fresh "Hle" in
  destruct (scan_hex_uint_acc d (Z.to_pos k) (S n)) as (m & Hm & Hle);
  exists m; split; [ exact Hm | intros _; lia ].

Lemma scan_hex_uint (d : Hexadecimal.uint) :
  forall n : nat,
    exists m,
      Py.scan_digits 16 (Py.upper (HexadecimalString.NilEmpty.string_of_uint d)) 0 n false
      = Some (Z.of_N (Pos.of_hex_uint d), m, EmptyString)
      /\ (d <> Hexadecimal.Nil -> n < m)%nat.
Proof.
  induction d as [|d IH|d IH|d IH|d IH|d IH|d IH|d IH|d IH|d IH|d IH
                  |d IH|d IH|d IH|d IH|d IH|d IH]; intros n.
  - exists n. split; [ reflexivity | intros H; contradiction ].
  - scan_hex 0. cbn [Pos.of_hex_uint Z.mul Z.add].
    destruct (IH (S n)) as (m & Hm & Hlt).
    exists m. split; [ exact Hm | intros _ ].
    destruct d; [ cbn in Hm; inversion Hm; subst; lia | .. ];
      (assert (S n < m)%nat by (apply Hlt; discriminate); lia).
  - scan_hex_lead 1 d n.
  - scan_hex_lead 2 d n.
  - scan_hex_lead 3 d n.
  - scan_hex_lead 4 d n.
  - scan_hex_lead 5 d n.
  - scan_hex_lead 6 d n.
  - scan_hex_lead 7 d n.
  - scan_hex_lead 8 d n.
  - scan_hex_lead 9 d n.
  - scan_hex_lead 10 d n.
  - scan_hex_lead 11 d n.
  - scan_hex_lead 12 d n.
  - scan_hex_lead 13 d n.
  - scan_hex_lead 14 d n.
  - scan_hex_lead 15 d n.
Qed.

Lemma scan_zeros (k : nat) (s : string) :
  forall n : nat,
    Py.scan_digits 16 (Asm.zeros k +:+ s) 0 n false
    = Py.scan_digits 16 s 0 (n + k) false.
Proof.
  induction k as [|k IH]; intros n.
  - change (Asm.zeros 0 +:+ s) with s. rewrite Nat.add_0_r. reflexivity.
  - change (Asm.zeros (S k) +:+ s) with (String "0" (Asm.zeros k +:+ s)).
    rewrite (scan_digit_step_base 16 _ 0) by reflexivity.
    change (0 * 16 + 0) with 0. rewrite IH. f_equal. lia.
Qed.

Lemma hex_digits_upper (v : Z) :
  0 <= v ->
  exists d,
    d <> Hexadecimal.Nil
    /\ Py.upper (Py.hex_digits v)
       = Py.upper (HexadecimalString.NilEmpty.string_of_uint d)
    /\ Z.of_N (Pos.of_hex_uint d) = v.
Proof.
  intros Hv. unfold Py.hex_digits.
  exists (N.to_hex_uint (Z.to_N v)).
  assert (Hnil : N.to_hex_uint (Z.to_N v) <> Hexadecimal.Nil).
  { destruct (Z.to_N v) as [|p]; [ discriminate | ].
    apply HexadecimalPos.Unsigned.to_uint_nonnil. }
  split; [ exact Hnil | ]. split.
  - destruct (N.to_hex_uint (Z.to_N v)); [ contradiction | reflexivity .. ].
  - change (Pos.of_hex_uint (N.to_hex_uint (Z.to_N v)))
      with (N.of_hex_uint (N.to_hex_uint (Z.to_N v))).
    rewrite HexadecimalN.Unsigned.of_to. lia.
Qed.

Lemma hex_char_facts (c : ascii) :
  Hil.is_hex_char c = true ->
  Spec.text_char c = true /\ Ascii.eqb c "_" = false /\ Py.int_space c = false.
Proof.
  intros Hc.
  assert (Hall : forallb Spec.hex_text_ok Spec.all_chars = true) by (vm_compute; reflexivity).
  rewrite forallb_forall in Hall. specialize (Hall c (all_chars_complete c)).
  unfold Spec.hex_text_ok in Hall. rewrite Hc in Hall. cbn [implb] in Hall.
  apply andb_true_iff in Hall as [[Ht Hu]%andb_true_iff Hs].
  apply negb_true_iff in Hu. apply negb_true_iff in Hs. auto.
Qed.

Lemma append_nil_l (s : string) : EmptyString +:+ s = s.
Proof. reflexivity. Qed.

Lemma zeros_hex (k : nat) : Spec.every_char Hil.is_hex_char (Asm.zeros k) = true.
Proof. induction k as [|k IH]; [ reflexivity | cbn [Asm.zeros Spec.every_char]; rewrite IH; reflexivity ]. Qed.

Lemma upper_digits_hex (d : Hexadecimal.uint) :
  Spec.every_char Hil.is_hex_char
    (Py.upper (HexadecimalString.NilEmpty.string_of_uint d)) = true.
Proof.
  induction d; cbn [HexadecimalString.NilEmpty.string_of_uint];
    [ reflexivity | rewrite upper_cons; cbn [Spec.every_char]; rewrite IHd; reflexivity .. ].
Qed.

Lemma fmt_X_nonneg (w : nat) (v : Z) :
  0 <= v ->
  exists k d,
    Asm.fmt_X w v = Asm.zeros k +:+ Py.upper (HexadecimalString.NilEmpty.string_of_uint d)
    /\ d <> Hexadecimal.Nil
    /\ Z.of_N (Pos.of_hex_uint d) = v.
Proof.
  intros Hv. unfold Asm.fmt_X.
  destruct (Z.ltb_spec v 0); [ lia | ].
  rewrite Z.abs_eq by exact Hv.
  destruct (hex_digits_upper v Hv) as (d & Hnil & Hd & Hval).
  rewrite Hd, append_nil_l.
  eexists _, d. split; [ reflexivity | split; assumption ].
Qed.

Lemma fmt_X_hex (w : nat) (v : Z) :
  0 <= v ->
  Spec.every_char Hil.is_hex_char (Asm.fmt_X w v) = true
  /\ Asm.fmt_X w v <> EmptyString
  /\ exists m, Py.scan_digits 16 (Asm.fmt_X w v) 0 0 false = Some (v, S m, EmptyString).
Proof.
  intros Hv. destruct (fmt_X_nonneg w v Hv) as (k & d & -> & Hnil & Hval).
  split; [ | split ].
  - rewrite every_char_app, zeros_hex, upper_digits_hex. reflexivity.
  - intros Hempty. apply (f_equal String.length) in Hempty.
    destruct (Asm.zeros k) as [|z zs]; [ | discriminate ].
    rewrite append_nil_l in Hempty.
    destruct d; [ contradiction | discriminate .. ].
  - rewrite scan_zeros. destruct (scan_hex_uint d (0 + k)) as (m & Hm & Hlt).
    specialize (Hlt Hnil). rewrite Hm, Hval.
    destruct m as [|m]; [ lia | ]. exists m. reflexivity.
Qed.

Lemma hex_is_text (s : string) :
  Spec.every_char Hil.is_hex_char s = true -> Spec.every_char Spec.text_char s = true.
Proof. apply every_char_impl. intros c Hc. apply (hex_char_facts c Hc). Qed.

Lemma fmt_X_text (w : nat) (n : Z) :
  Spec.every_char Spec.text_char (Asm.fmt_X w n) = true.
Proof.
  unfold Asm.fmt_X.
  destruct (hex_digits_upper (Z.abs n) (Z.abs_nonneg n)) as (d & _ & -> & _).
  rewrite !every_char_app, (hex_is_text _ (zeros_hex _)), (hex_is_text _ (upper_digits_hex d)).
  destruct (n <? 0); reflexivity.
Qed.

(** The assembler reads the hexadecimal operands of the listing as the
    numbers they print. *)
Lemma parse_hex_literal (w : nat) (v : Z) :
  0 <= v -> Asm.parse_number ("0x" +:+ Asm.fmt_X w v) = Some v.
Proof.
  intros Hv. destruct (fmt_X_hex w v Hv) as (Hhex & Hne & m & Hscan).
  pose proof (hex_is_text _ Hhex) as Htext.
  destruct (Asm.fmt_X w v) as [|c r] eqn:HF; [ contradiction | ].
  pose proof Hhex as Hc. cbn [Spec.every_char] in Hc. apply andb_true_iff in Hc as [Hc _].
  destruct (hex_char_facts c Hc) as (_ & Hu & _).
  change ("0x" +:+ String c r) with (String "0" (String "x" (String c r))).
  assert (Hstrip : Py.strip (String "0" (String "x" (String c r)))
                   = String "0" (String "x" (String c r))).
  { unfold Py.strip. rewrite lstrip_first by reflexivity.
    apply rstrip_text. cbn [Spec.every_char] in *. rewrite Htext. reflexivity. }
  unfold Asm.parse_number. rewrite Hstrip.
  change (Py.startswith "'" (String "0" (String "x" (String c r)))) with false.
  cbn [andb]. change (Ascii.eqb "0" "-") with false. change (Ascii.eqb "0" "+") with false.
  cbv iota.
  change (Py.startswith "0x" (Py.lower (String "0" (String "x" (String c r))))) with true.
  cbv iota.
  unfold Py.int_of.
  change (Py.skip_int_space (String "0" (String "x" (String c r))))
    with (String "0" (String "x" (String c r))).
  cbv beta iota zeta.
  change (Ascii.eqb "0" "-") with false. change (Ascii.eqb "0" "+") with false.
  cbv beta iota zeta.
  assert (Hskip : Py.skip_prefix 16 (String "0" (String "x" (String c r))) = String c r).
  { unfold Py.skip_prefix.
    change (Ascii.eqb "0" "0" && Py.base_letter 16 "x") with true. cbv iota.
    unfold Py.underscore. rewrite Hu. reflexivity. }
  rewrite Hskip. unfold Py.underscore at 1. rewrite Hu, Hscan. reflexivity.
Qed.

(** ** The text of the listing *)

Lemma after_char_app (c : ascii) (a r : string) :
  Py.has_char c a = false -> Spec.after_char c (a +:+ String c r) = r.
Proof.
  induction a as [|d a IH]; intros Ha.
  - rewrite append_nil_l. cbn [Spec.after_char]. rewrite Ascii.eqb_refl. reflexivity.
  - cbn [Py.has_char] in Ha. apply orb_false_iff in Ha as [Hd Ha].
    change (String d a +:+ String c r) with (String d (a +:+ String c r)).
    cbn [Spec.after_char]. rewrite Hd. exact (IH Ha).
Qed.

Lemma span_word_text (w : string) :
  Spec.every_char Spec.text_char w = true -> Py.span_word w = (w, EmptyString).
Proof.
  induction w as [|c w IH]; [ reflexivity | ].
  cbn [Spec.every_char]. intros [Hc Hw]%andb_true_iff.
  cbn [Py.span_word]. rewrite (proj1 (text_char_facts c Hc)), (IH Hw). reflexivity.
Qed.

Lemma split_ws1_blank (s : string) : Py.split_ws1 (String " " s) = Py.split_ws1 s.
Proof. reflexivity. Qed.

(** A word followed by nothing or by a blank is the first part that
    [split] returns. *)
Lemma split_ws1_word (c : ascii) (w x : string) :
  Spec.every_char Spec.text_char (String c w) = true ->
  x = EmptyString \/ (exists r, x = String " " r) ->
  Py.split_ws1 (String c w +:+ x)
  = match Py.lstrip x with
    | EmptyString => [String c w]
    | r => [String c w; r]
    end.
Proof.
  intros Hw Hx.
  pose proof Hw as Hc. cbn [Spec.every_char] in Hc. apply andb_true_iff in Hc as [Hc _].
  assert (Hspan : Py.span_word (String c w +:+ x) = (String c w, x)).
  { destruct Hx as [->|(r & ->)].
    - rewrite append_nil_r. apply span_word_text. exact Hw.
    - apply span_word_app; [ exact Hw | reflexivity ]. }
  unfold Py.split_ws1.
  change (String c w +:+ x) with (String c (w +:+ x)) at 1.
  rewrite lstrip_first by apply (text_char_facts c Hc).
  change (String c (w +:+ x)) with (String c w +:+ x).
  rewrite Hspan. reflexivity.
Qed.

Lemma mnemonic_text (nm : string) :
  Spec.mnemonic_ok nm = true ->
  exists c w, nm = String c w /\ Spec.every_char Spec.text_char (String c w) = true.
Proof.
  intros Hnm. destruct nm as [|c w]; [ discriminate | ].
  cbn [Spec.mnemonic_ok] in Hnm.
  apply andb_true_iff in Hnm as [[_ Hident]%andb_true_iff _].
  exists c, w. split; [ reflexivity | ].
  apply (every_char_impl Asm.ident_char); [ | exact Hident ].
  intros d Hd. unfold Spec.text_char. rewrite Hd. reflexivity.
Qed.

Lemma read_line_plain (P nm : string) :
  Spec.every_char Spec.text_char P = true ->
  Spec.mnemonic_ok nm = true ->
  Spec.read_line (P +:+ ": " +:+ nm) = Some (nm, None).
Proof.
  intros HP Hnm. destruct (mnemonic_text nm Hnm) as (c & w & -> & Hw).
  unfold Spec.read_line.
  change (": " +:+ String c w) with (String ":" (String " " (String c w))).
  rewrite (after_char_app ":" P _ (has_char_text ":" P eq_refl HP)).
  rewrite split_ws1_blank, <- (append_nil_r (String c w)).
  rewrite (split_ws1_word c w EmptyString Hw) by (left; reflexivity).
  rewrite append_nil_r. reflexivity.
Qed.

Lemma read_line_operand (P nm operand_text tail : string) (v : Z) :
  Spec.every_char Spec.text_char P = true ->
  Spec.mnemonic_ok nm = true ->
  Spec.every_char Spec.text_char operand_text = true ->
  operand_text <> EmptyString ->
  tail = EmptyString \/ (exists r, tail = String " " r) ->
  Asm.parse_number operand_text = Some v ->
  Spec.read_line (P +:+ ": " +:+ nm +:+ " " +:+ operand_text +:+ tail) = Some (nm, Some v).
Proof.
  intros HP Hnm Hop Hne Htail Hv.
  destruct (mnemonic_text nm Hnm) as (c & w & -> & Hw).
  destruct operand_text as [|d o]; [ contradiction | ].
  pose proof Hop as Hd. cbn [Spec.every_char] in Hd. apply andb_true_iff in Hd as [Hd _].
  unfold Spec.read_line.
  change (": " +:+ String c w +:+ " " +:+ String d o +:+ tail)
    with (String ":" (String " " (String c w +:+ String " " (String d o +:+ tail)))).
  rewrite (after_char_app ":" P _ (has_char_text ":" P eq_refl HP)).
  rewrite split_ws1_blank.
  rewrite (split_ws1_word c w _ Hw) by (right; eexists; reflexivity).
  change (Py.lstrip (String " " (String d o +:+ tail)))
    with (Py.lstrip (String d (o +:+ tail))).
  rewrite lstrip_first by apply (text_char_facts d Hd).
  change (String d (o +:+ tail)) with (String d o +:+ tail).
  rewrite (split_ws1_word d o tail Hop Htail).
  destruct (Py.lstrip tail); rewrite Hv; reflexivity.
Qed.

Lemma str_of_int_text (n : Z) :
  Spec.every_char Spec.text_char (Py.str_of_int n) = true
  /\ Py.str_of_int n <> EmptyString.
Proof.
  destruct (str_of_int_shape n) as (c & r & -> & Htext).
  split; [ exact Htext | discriminate ].
Qed.

Lemma address_text (addr : Z) :
  Spec.every_char Spec.text_char ("0x" +:+ Asm.fmt_X 4 addr) = true.
Proof.
  change ("0x" +:+ Asm.fmt_X 4 addr) with (String "0" (String "x" (Asm.fmt_X 4 addr))).
  cbn [Spec.every_char]. rewrite fmt_X_text. reflexivity.
Qed.

Lemma hex_operand_text (w : nat) (v : Z) :
  Spec.every_char Spec.text_char ("0x" +:+ Asm.fmt_X w v) = true
  /\ "0x" +:+ Asm.fmt_X w v <> EmptyString.
Proof.
  change ("0x" +:+ Asm.fmt_X w v) with (String "0" (String "x" (Asm.fmt_X w v))).
  split; [ | discriminate ].
  cbn [Spec.every_char]. rewrite fmt_X_text. reflexivity.
Qed.

(** Each line the disassembler prints for an instruction shows, read as
    text, the name of its opcode and its operand at the declared width. *)
Lemma text_entry_expected (addr : Z) (instr : Asm.Instruction) :
  Spec.text_entry (Asm.render_line (Spec.expected_line addr instr))
  = Some (Spec.instr_entry instr).
Proof.
  unfold Spec.expected_line, Spec.instr_entry, Spec.text_entry.
  set (op := Asm.opcode instr).
  set (v := default 0 (Asm.operand instr)).
  pose proof (mnemonic_ok_name op) as Hnm.
  pose proof (address_text addr) as HP.
  destruct (land_mask v 8 ltac:(lia)) as [E8 B8].
  destruct (land_mask v 16 ltac:(lia)) as [E16 B16].
  destruct (land_mask v 32 ltac:(lia)) as [E32 B32].
  change (Z.ones 8) with 0xFF in *. change (Z.ones 16) with 0xFFFF in *.
  change (Z.ones 32) with 0xFFFFFFFF in *.
  destruct (operand_size_cases op) as [H|[H|[H|H]]]; rewrite H;
    cbn [Z.eqb Pos.eqb Z.mul Pos.mul]; cbv zeta.
  - unfold Asm.render_line. rewrite <- (append_assoc "0x").
    rewrite (read_line_plain _ _ HP Hnm), OPCODE_BY_NAME_name. reflexivity.
  - destruct (ISA.is_relative_jump (ISA.value op)).
    + unfold Asm.render_line. rewrite <- (append_assoc "0x").
      destruct (str_of_int_text (if Z.land v 255 <? 128 then Z.land v 255
                                 else Z.land v 255 - 256)) as [Htext Hne].
      erewrite read_line_operand;
        [ | exact HP | exact Hnm | exact Htext | exact Hne
          | right; eexists; reflexivity | apply decimal_literal_facts ].
      rewrite OPCODE_BY_NAME_name, H. cbn [option_map]. do 3 f_equal.
      change (2 ^ (8 * 1)) with 256.
      destruct (Z.ltb_spec (Z.land v 255) 128); Z.div_mod_to_equations; lia.
    + unfold Asm.render_line. rewrite <- (append_assoc "0x").
      destruct (str_of_int_text (Z.land v 255)) as [Htext Hne].
      erewrite read_line_operand;
        [ | exact HP | exact Hnm | exact Htext | exact Hne
          | right; eexists; reflexivity | apply decimal_literal_facts ].
      rewrite OPCODE_BY_NAME_name, H. cbn [option_map]. do 3 f_equal.
      change (2 ^ (8 * 1)) with 256. Z.div_mod_to_equations. lia.
  - unfold Asm.render_line. rewrite <- (append_assoc "0x").
    destruct (hex_operand_text 4 (Z.land v 65535)) as [Htext Hne].
    change (" 0x" +:+ Asm.fmt_X 4 (Z.land v 65535))
      with (" " +:+ ("0x" +:+ Asm.fmt_X 4 (Z.land v 65535))).
    rewrite <- (append_nil_r ("0x" +:+ Asm.fmt_X 4 (Z.land v 65535))).
    erewrite read_line_operand;
      [ | exact HP | exact Hnm | exact Htext | exact Hne
        | left; reflexivity | exact (parse_hex_literal 4 _ (proj1 B16)) ].
    rewrite OPCODE_BY_NAME_name, H. cbn [option_map]. do 3 f_equal.
    change (2 ^ (8 * 2)) with 65536. change (2 ^ 16) with 65536 in *.
    Z.div_mod_to_equations. lia.
  - unfold Asm.render_line. rewrite <- (append_assoc "0x").
    destruct (hex_operand_text 8 (Z.land v 4294967295)) as [Htext Hne].
    change (" 0x" +:+ Asm.fmt_X 8 (Z.land v 4294967295))
      with (" " +:+ ("0x" +:+ Asm.fmt_X 8 (Z.land v 4294967295))).
    rewrite <- (append_nil_r ("0x" +:+ Asm.fmt_X 8 (Z.land v 4294967295))).
    erewrite read_line_operand;
      [ | exact HP | exact Hnm | exact Htext | exact Hne
        | left; reflexivity | exact (parse_hex_literal 8 _ (proj1 B32)) ].
    rewrite OPCODE_BY_NAME_name, H. cbn [option_map]. do 3 f_equal.
    change (2 ^ (8 * 4)) with 4294967296. change (2 ^ 32) with 4294967296 in *.
    Z.div_mod_to_equations. lia.
Qed.

Lemma text_no_break (s : string) :
  Spec.every_char Spec.text_char s = true -> Spec.every_char Spec.no_break s = true.
Proof.
  apply every_char_impl. intros c Hc. unfold Spec.no_break.
  destruct (text_char_facts c Hc) as (_ & -> & _). reflexivity.
Qed.

Lemma name_text (op : ISA.Opcode) :
  Spec.every_char Spec.text_char (ISA.name op) = true.
Proof.
  destruct (mnemonic_text _ (mnemonic_ok_name op)) as (c & w & -> & Hw). exact Hw.
Qed.

(** A line of the listing holds no line boundary and is not empty. *)
Lemma render_expected_one_line (addr : Z) (instr : Asm.Instruction) :
  Spec.every_char Spec.no_break (Asm.render_line (Spec.expected_line addr instr)) = true
  /\ Asm.render_line (Spec.expected_line addr instr) <> EmptyString.
Proof.
  pose proof (fun w n => text_no_break _ (fmt_X_text w n)) as Hfmt.
  pose proof (fun n => text_no_break _ (proj1 (str_of_int_text n))) as Hstr.
  pose proof (text_no_break _ (name_text (Asm.opcode instr))) as Hname.
  unfold Spec.expected_line. cbv zeta.
  destruct (ISA.OPERAND_SIZE (Asm.opcode instr) =? 0);
    [ | destruct (ISA.OPERAND_SIZE (Asm.opcode instr) =? 1);
        [ destruct (ISA.is_relative_jump (ISA.value (Asm.opcode instr)))
        | destruct (ISA.OPERAND_SIZE (Asm.opcode instr) =? 2) ] ];
    unfold Asm.render_line; (split; [ | discriminate ]);
    rewrite !every_char_app, ?Hfmt, ?Hstr, ?Hname; reflexivity.
Qed.

Lemma splitlines_aux_line (s rest : string) :
  Spec.every_char Spec.no_break s = true ->
  forall cur,
    Py.splitlines_aux (s +:+ Asm.newline +:+ rest) cur true
    = (cur +:+ s) :: Py.splitlines_aux rest EmptyString false.
Proof.
  induction s as [|c s IH]; intros Hs cur.
  - rewrite append_nil_l, append_nil_r.
    change (Asm.newline +:+ rest) with (String (Py.chr 10) rest).
    cbn [Py.splitlines_aux].
    change (Py.is_linebreak (Py.chr 10)) with true.
    change (Ascii.eqb (Py.chr 10) (Py.chr 13)) with false. reflexivity.
  - cbn [Spec.every_char] in Hs. apply andb_true_iff in Hs as [Hc Hs].
    apply negb_true_iff in Hc.
    change (String c s +:+ Asm.newline +:+ rest)
      with (String c (s +:+ Asm.newline +:+ rest)).
    cbn [Py.splitlines_aux]. rewrite Hc, (IH Hs), append_assoc. reflexivity.
Qed.

(** Joining lines with the newline and splitting the text again gives
    the lines back. *)
Lemma splitlines_concat (lines : list string) :
  Forall (fun l => Spec.every_char Spec.no_break l = true /\ l <> EmptyString) lines ->
  Py.splitlines (String.concat Asm.newline lines) = lines.
Proof.
  induction 1 as [|x rest [Hx Hne] Hrest IH]; [ reflexivity | ].
  destruct x as [|c s]; [ contradiction | ].
  destruct rest as [|y rest'].
  - cbn [String.concat]. apply splitlines_one. exact Hx.
  - change (String.concat Asm.newline (String c s :: y :: rest'))
      with (String c (s +:+ Asm.newline +:+ String.concat Asm.newline (y :: rest'))).
    cbn [Spec.every_char] in Hx. apply andb_true_iff in Hx as [Hc Hs].
    apply negb_true_iff in Hc.
    unfold Py.splitlines at 1. cbn [Py.splitlines_aux]. rewrite Hc.
    rewrite (splitlines_aux_line s _ Hs), append_nil_l.
    f_equal. exact IH.
Qed.

Lemma text_entry_expected_lines (instrs : list Asm.Instruction) :
  forall addr,
    map Spec.text_entry (map Asm.render_line (Spec.expected_lines addr instrs))
    = map (fun instr => Some (Spec.instr_entry instr)) instrs
    /\ Forall (fun l => Spec.every_char Spec.no_break l = true /\ l <> EmptyString)
         (map Asm.render_line (Spec.expected_lines addr instrs)).
Proof.
  induction instrs as [|instr rest IH]; intros addr; [ split; [ reflexivity | constructor ] | ].
  cbn [Spec.expected_lines map].
  destruct (IH (addr + 1 + ISA.OPERAND_SIZE (Asm.opcode instr))) as [IHmap IHall].
  split.
  - rewrite text_entry_expected, IHmap. reflexivity.
  - constructor; [ apply render_expected_one_line | exact IHall ].
Qed.

(** C1. When [assemble] succeeds on a source text, the text that
    [disassemble] returns for the bytes has exactly one line per
    assembled instruction, in order, and each line, read as text, shows
    the name of the instruction's opcode and, as its second word, the
    instruction's operand as a value of the width the opcode declares (no
    operand for width 0); no byte is reported as unknown or truncated. *)
Theorem disassemble_assemble (source : string) (bytecode : list Z) (base_addr : Z) :
  Asm.assemble source = Ok bytecode ->
  exists st,
    Asm.assemble_state source = Ok st
    /\ bytecode = Asm.emit_bytecode st
    /\ Asm.disassemble_lines bytecode base_addr
       = Spec.expected_lines base_addr (Asm.instructions st)
    /\ Asm.disassemble bytecode base_addr
       = String.concat Asm.newline
           (map Asm.render_line (Spec.expected_lines base_addr (Asm.instructions st)))
    /\ map Spec.text_entry (Py.splitlines (Asm.disassemble bytecode base_addr))
       = map (fun instr => Some (Spec.instr_entry instr)) (Asm.instructions st)
    /\ length (Py.splitlines (Asm.disassemble bytecode base_addr))
       = length (Asm.instructions st)
    /\ map Spec.line_entry (Asm.disassemble_lines bytecode base_addr)
       = map (fun instr => Some (Spec.instr_entry instr)) (Asm.instructions st).
Proof.
  unfold Asm.assemble. intros Hasm.
  destruct (Asm.assemble_state source) as [st|e] eqn:Hst; [ | discriminate ].
  cbn in Hasm. injection Hasm as <-.
  exists st. split; [ reflexivity | ]. split; [ reflexivity | ].
  assert (Hlines : Asm.disassemble_lines (Asm.emit_bytecode st) base_addr
                   = Spec.expected_lines base_addr (Asm.instructions st)).
  { unfold Asm.disassemble_lines, Asm.emit_bytecode.
    pose proof (disassemble_loop_emit (Asm.instructions st)
                  (length (Asm.emit_instrs (Asm.instructions st))) [] base_addr
                  ltac:(lia)) as Hloop.
    cbn [app length] in Hloop. rewrite Hloop. f_equal. lia. }
  destruct (text_entry_expected_lines (Asm.instructions st) base_addr) as [Hread Hall].
  assert (Htext : map Spec.text_entry
                    (Py.splitlines (Asm.disassemble (Asm.emit_bytecode st) base_addr))
                  = map (fun instr => Some (Spec.instr_entry instr)) (Asm.instructions st)).
  { unfold Asm.disassemble. rewrite Hlines, (splitlines_concat _ Hall). exact Hread. }
  split; [ exact Hlines | ].
  split; [ unfold Asm.disassemble; rewrite Hlines; reflexivity | ].
  split; [ exact Htext | ].
  split.
  - apply (f_equal (@length _)) in Htext. rewrite !length_map in Htext. exact Htext.
  - rewrite Hlines. apply line_entry_expected_lines.
Qed.

Lemma disassemble_assemble_witness :
  Asm.assemble Samples.loop_program = Ok [0x00; 0x50; 0xFD; 0x01]
  /\ map Spec.text_entry (Py.splitlines (Asm.disassemble [0x00; 0x50; 0xFD; 0x01] 0))
     = [Some ("NOP", None); Some ("JR", Some 0xFD); Some ("HALT", None)].
Proof.
  assert (Hasm : Asm.assemble Samples.loop_program = Ok [0x00; 0x50; 0xFD; 0x01])
    by (vm_compute; reflexivity).
  split; [ exact Hasm | ].
  destruct (disassemble_assemble Samples.loop_program _ 0 Hasm)
    as (st & Hst & _ & _ & _ & Htext & _).
  rewrite Htext.
  assert (Hinstrs : Asm.instructions st
                    = match Asm.assemble_state Samples.loop_program with
                      | Ok st0 => Asm.instructions st0
                      | Err _ => []
                      end) by (rewrite Hst; reflexivity).
  rewrite Hinstrs. vm_compute. reflexivity.
Defined.
